(** * Network simulator, SSE consumption and benchmark batch of REST-vs-MCP

    Shallow embedding of
    - [src/clients/network_sim.py]   (NetworkSimulator),
    - [src/clients/mcp_client.py]    (connect_sse, listen_for_events,
                                      _send_request, _send_request_async,
                                      chat_turn, subscribe_to_resource,
                                      run_task_with_notifications,
                                      chain_workflow),
    - [src/clients/rest_client.py]   (chat_turn, run_task_polling,
                                      chain_workflow),
    - [src/servers/mcp_server.py]    (process_json_rpc, run_mcp_task, the
                                      session store of sse_endpoint),
    - [src/servers/rest_server.py]   (calculate, chat, the task store,
                                      the workflow steps),
    - [src/benchmarks/run_benchmark_advanced.py] (run_all_benchmarks and
                                      the exception structure of its benches).

    Python floats are modelled by rationals [Q]; [asyncio.sleep] is an
    effect recorded in a trace; [random.random()] reads the next value of
    an infinite stream of draws, so whether a draw happened is observable. *)

From Stdlib Require Import QArith Lqa List String Ascii Bool Lia ZArith.
From Stdlib Require DecimalPos DecimalZ.
Import ListNotations.
Set Warnings "-register-all".
Open Scope string_scope.
Open Scope Q_scope.

(* ------------------------------------------------------------------ *)
(** ** Effects: a state and exception monad *)

(** The two servers a client talks to. *)
Inductive endpoint := RestServer | McpServer.

Definition endpoint_eqb (a b : endpoint) : bool :=
  match a, b with
  | RestServer, RestServer | McpServer, McpServer => true
  | _, _ => false
  end.

(** Exceptions raised along the modelled paths. *)
Inductive exn :=
  | SimulatedPacketLoss          (* ConnectionError("Simulated Network Packet Loss") *)
  | ConnectError (ep : endpoint) (* httpx.ConnectError: server unreachable *)
  | TransportError               (* any other httpx error on a stream *)
  | HttpStatusError (status : Z) (* raise_for_status() on a 4xx or 5xx response *)
  | ReadTimeout.                 (* httpx.ReadTimeout: no response within the timeout *)

(** Observable effects, in program order. *)
Inductive event :=
  | Sleep (secs : Q)                   (* await asyncio.sleep(secs) *)
  | Request (ep : endpoint) (path : string) (* an HTTP request issued *)
  | Print (line : string).             (* print(...) *)

Record world := mkWorld {
  rng : nat -> Q;          (* successive values of random.random() *)
  drawn : nat;             (* how many values have been drawn *)
  up : endpoint -> bool;   (* whether each server is reachable *)
  trace : list event
}.

Inductive result (A : Type) := Ok (a : A) | Exc (e : exn).
Arguments Ok {A} a.
Arguments Exc {A} e.

Definition M (A : Type) := world -> result A * world.

Definition ret {A} (a : A) : M A := fun w => (Ok a, w).

Definition bind {A B} (m : M A) (k : A -> M B) : M B :=
  fun w => match m w with
           | (Ok a, w') => k a w'
           | (Exc e, w') => (Exc e, w')
           end.

Definition raise {A} (e : exn) : M A := fun w => (Exc e, w).

(** [try: m except: handler] *)
Definition try_except {A} (m : M A) (h : exn -> M A) : M A :=
  fun w => match m w with
           | (Exc e, w') => h e w'
           | r => r
           end.

Notation "x <- m ;; k" := (bind m (fun x => k))
  (at level 61, m at next level, right associativity).
Notation "m ;; k" := (bind m (fun _ => k))
  (at level 61, right associativity).

Definition emit (e : event) : M unit :=
  fun w => (Ok tt, mkWorld (rng w) (drawn w) (up w) (trace w ++ [e])).

(** [await asyncio.sleep(secs)] *)
Definition sleep (secs : Q) : M unit := emit (Sleep secs).

(** [random.random()] *)
Definition random : M Q :=
  fun w => (Ok (rng w (drawn w)), mkWorld (rng w) (S (drawn w)) (up w) (trace w)).

(** An HTTP request to [ep]: issued, then fails if the server is down. *)
Definition post (ep : endpoint) (path : string) : M unit :=
  emit (Request ep path) ;;
  fun w => if up w ep then (Ok tt, w) else (Exc (ConnectError ep), w).

Definition print (s : string) : M unit := emit (Print s).

(** [n] successive calls of an action (the trials of a loop). *)
Fixpoint trials (n : nat) (m : M unit) : M unit :=
  match n with
  | O => ret tt
  | S n' => m ;; trials n' m
  end.

(** Python's [<] on floats, as a boolean. *)
Definition Qltb (x y : Q) : bool := negb (Qle_bool y x).

(* ------------------------------------------------------------------ *)
(** ** NetworkSimulator (src/clients/network_sim.py) *)

Record NetworkSimulator := mkSim {
  latency_ms : Q;
  packet_loss_rate : Q;
  bandwidth_mbps : Q
}.

(** [simulate_network]: the loss test is
    [self.packet_loss_rate > 0 and random.random() < self.packet_loss_rate],
    whose [and] short-circuits, so no value is drawn when the rate is not
    positive. *)
Definition simulate_network (sim : NetworkSimulator) : M unit :=
  lost <- (if Qltb 0 (packet_loss_rate sim)
           then r <- random ;; ret (Qltb r (packet_loss_rate sim))
           else ret false) ;;
  if lost then
    sleep (latency_ms sim / 1000) ;;
    raise SimulatedPacketLoss
  else if Qltb 0 (latency_ms sim) then
    sleep (latency_ms sim / 1000)
  else ret tt.

(** [simulate_transfer(bytes_count)] *)
Definition simulate_transfer (sim : NetworkSimulator) (bytes_count : Z) : M unit :=
  simulate_network sim ;;
  if Qltb 0 (bandwidth_mbps sim) then
    let bits := (bytes_count * 8)%Z in
    let bits_per_second := bandwidth_mbps sim * 1000000 in
    let transfer_time := inject_Z bits / bits_per_second in
    sleep transfer_time
  else ret tt.

(** [set_conditions(latency_ms, packet_loss_rate, bandwidth_mbps=0.0)] *)
Definition set_conditions (lat loss : Q) (bw : Q) : NetworkSimulator :=
  mkSim lat loss bw.

(** [McpClient._send_request_async]: the simulator gate, then the POST. *)
Definition send_request_async (sim : NetworkSimulator) : M unit :=
  simulate_network sim ;;
  post McpServer "/message".

(** Total simulated delay recorded in a trace. *)
Fixpoint total_sleep (t : list event) : Q :=
  match t with
  | [] => 0
  | Sleep s :: t' => s + total_sleep t'
  | _ :: t' => total_sleep t'
  end.

(* ------------------------------------------------------------------ *)
(** ** JSON values and [json.loads]

    The decoder follows the scanner of CPython's [json] module
    (py_scanstring / JSONObject / JSONArray / _scan_once / NUMBER_RE) on
    a Latin-1 view of the line: each character is one code point.  String
    contents are decoded to code points (escapes and surrogate pairs
    included); a number keeps its lexeme. *)

Inductive json :=
  | JNull
  | JBool (b : bool)
  | JNum (lexeme : list ascii)
  | JStr (s : list Z)
  | JArr (items : list json)
  | JObj (members : list (list Z * json)).

(** The double-quote character. *)
Definition dquote : ascii := ascii_of_nat 34.

Definition code (c : ascii) : Z := Z.of_nat (nat_of_ascii c).

(** The code points of a Python [str] literal. *)
Definition cps (s : string) : list Z := map code (list_ascii_of_string s).

Fixpoint cps_eqb (a b : list Z) : bool :=
  match a, b with
  | [], [] => true
  | x :: a', y :: b' => Z.eqb x y && cps_eqb a' b'
  | _, _ => false
  end.

(** JSON whitespace: [ \t\n\r]. *)
Definition is_ws (c : ascii) : bool :=
  match nat_of_ascii c with 32 | 9 | 10 | 13 => true | _ => false end%nat.

Fixpoint skip_ws (cs : list ascii) : list ascii :=
  match cs with
  | c :: r => if is_ws c then skip_ws r else cs
  | [] => []
  end.

Definition is_digit (c : ascii) : bool :=
  (48 <=? nat_of_ascii c)%nat && (nat_of_ascii c <=? 57)%nat.

Fixpoint span_digits (cs : list ascii) : list ascii * list ascii :=
  match cs with
  | c :: r => if is_digit c then let '(ds, r') := span_digits r in (c :: ds, r')
              else ([], cs)
  | [] => ([], [])
  end.

Definition hex_val (c : ascii) : option Z :=
  let n := nat_of_ascii c in
  if (48 <=? n)%nat && (n <=? 57)%nat then Some (Z.of_nat n - 48)%Z
  else if (97 <=? n)%nat && (n <=? 102)%nat then Some (Z.of_nat n - 87)%Z
  else if (65 <=? n)%nat && (n <=? 70)%nat then Some (Z.of_nat n - 55)%Z
  else None.

(** Four hexadecimal digits of a [\uXXXX] escape. *)
Definition hex4 (cs : list ascii) : option (Z * list ascii) :=
  match cs with
  | a :: b :: c :: d :: r =>
      match hex_val a, hex_val b, hex_val c, hex_val d with
      | Some x, Some y, Some z, Some t => Some ((((x * 16 + y) * 16 + z) * 16 + t)%Z, r)
      | _, _, _, _ => None
      end
  | _ => None
  end.

(** The one-character escapes: quote, backslash, slash, b, f, n, r, t. *)
Definition simple_escape (e : ascii) : option Z :=
  match nat_of_ascii e with
  | 34 => Some 34%Z | 92 => Some 92%Z | 47 => Some 47%Z
  | 98 => Some 8%Z | 102 => Some 12%Z | 110 => Some 10%Z
  | 114 => Some 13%Z | 116 => Some 9%Z
  | _ => None
  end%nat.

(** The body of a string literal, after its opening quote (strict mode:
    a raw control character is an error). *)
Fixpoint parse_str (fuel : nat) (cs : list ascii) (acc : list Z)
    : option (list Z * list ascii) :=
  match fuel with
  | O => None
  | S f =>
    match cs with
    | [] => None
    | c :: r =>
      if (c =? dquote)%char then Some (rev acc, r)
      else if (c =? "\")%char then
        match r with
        | [] => None
        | e :: r' =>
          if (e =? "u")%char then
            match hex4 r' with
            | None => None
            | Some (u, r'') =>
              if (55296 <=? u)%Z && (u <=? 56319)%Z then
                match r'' with
                | b :: u' :: r3 =>
                  if (b =? "\")%char && (u' =? "u")%char then
                    match hex4 r3 with
                    | None => None
                    | Some (u2, r4) =>
                      if (56320 <=? u2)%Z && (u2 <=? 57343)%Z
                      then parse_str f r4 ((65536 + (u - 55296) * 1024 + (u2 - 56320))%Z :: acc)
                      else parse_str f r'' (u :: acc)
                    end
                  else parse_str f r'' (u :: acc)
                | _ => parse_str f r'' (u :: acc)
                end
              else parse_str f r'' (u :: acc)
            end
          else match simple_escape e with
               | Some z => parse_str f r' (z :: acc)
               | None => None
               end
        end
      else if (nat_of_ascii c <? 32)%nat then None
      else parse_str f r (code c :: acc)
    end
  end.

(** [string[idx:idx+len(p)] == p]: the rest after the literal [p]. *)
Fixpoint lit_prefix (p : list ascii) (cs : list ascii) : option (list ascii) :=
  match p, cs with
  | [], _ => Some cs
  | x :: p', c :: r => if (x =? c)%char then lit_prefix p' r else None
  | _ :: _, [] => None
  end.

(** NUMBER_RE of the json module: an optional minus sign, then 0 or a
    nonzero digit followed by digits, then an optional fraction (a dot and
    at least one digit), then an optional exponent (e or E, an optional
    sign, at least one digit). *)
Definition parse_number (cs : list ascii) : option (list ascii * list ascii) :=
  let '(sgn, r0) := match cs with
                    | c :: r => if (c =? "-")%char then ([c], r) else ([], cs)
                    | [] => ([], cs)
                    end in
  let ipart := match r0 with
               | d :: r => if (d =? "0")%char then Some ([d], r)
                           else if is_digit d then
                             let '(ds, r') := span_digits r in Some (d :: ds, r')
                           else None
               | [] => None
               end in
  match ipart with
  | None => None
  | Some (ip, r1) =>
    let '(fp, r2) := match r1 with
                     | p :: d :: r =>
                         if (p =? ".")%char && is_digit d then
                           let '(ds, r') := span_digits r in (p :: d :: ds, r')
                         else ([], r1)
                     | _ => ([], r1)
                     end in
    let '(ep, r3) := match r2 with
                     | e :: r =>
                       if (e =? "e")%char || (e =? "E")%char then
                         let '(sg, r') := match r with
                                          | c :: r'' => if (c =? "+")%char || (c =? "-")%char
                                                        then ([c], r'') else ([], r)
                                          | [] => ([], r)
                                          end in
                         match r' with
                         | d :: r'' => if is_digit d then
                                         let '(ds, r4) := span_digits r'' in (e :: app sg (d :: ds), r4)
                                       else ([], r2)
                         | [] => ([], r2)
                         end
                       else ([], r2)
                     | [] => ([], r2)
                     end in
    Some (app sgn (app ip (app fp ep)), r3)
  end.

(** _scan_once, JSONObject and JSONArray. *)
Fixpoint parse_value (fuel : nat) (cs : list ascii) {struct fuel}
    : option (json * list ascii) :=
  match fuel with
  | O => None
  | S f =>
    match cs with
    | [] => None
    | c :: r =>
      if (c =? dquote)%char then
        match parse_str (S (List.length r)) r [] with
        | Some (s, r') => Some (JStr s, r')
        | None => None
        end
      else if (c =? "{")%char then
        match skip_ws r with
        | c' :: r' => if (c' =? "}")%char then Some (JObj [], r')
                      else parse_members f (skip_ws r) []
        | [] => None
        end
      else if (c =? "[")%char then
        match skip_ws r with
        | c' :: r' => if (c' =? "]")%char then Some (JArr [], r')
                      else parse_items f (skip_ws r) []
        | [] => None
        end
      else match lit_prefix (list_ascii_of_string "null") cs with
      | Some r' => Some (JNull, r')
      | None =>
      match lit_prefix (list_ascii_of_string "true") cs with
      | Some r' => Some (JBool true, r')
      | None =>
      match lit_prefix (list_ascii_of_string "false") cs with
      | Some r' => Some (JBool false, r')
      | None =>
      match parse_number cs with
      | Some (lx, r') => Some (JNum lx, r')
      | None =>
      match lit_prefix (list_ascii_of_string "NaN") cs with
      | Some r' => Some (JNum (list_ascii_of_string "NaN"), r')
      | None =>
      match lit_prefix (list_ascii_of_string "Infinity") cs with
      | Some r' => Some (JNum (list_ascii_of_string "Infinity"), r')
      | None =>
      match lit_prefix (list_ascii_of_string "-Infinity") cs with
      | Some r' => Some (JNum (list_ascii_of_string "-Infinity"), r')
      | None => None
      end end end end end end end
    end
  end
with parse_members (fuel : nat) (cs : list ascii) (acc : list (list Z * json)) {struct fuel}
    : option (json * list ascii) :=
  match fuel with
  | O => None
  | S f =>
    match cs with
    | c :: r =>
      if (c =? dquote)%char then
        match parse_str (S (List.length r)) r [] with
        | None => None
        | Some (k, r1) =>
          match skip_ws r1 with
          | c1 :: r2 =>
            if (c1 =? ":")%char then
              match parse_value f (skip_ws r2) with
              | None => None
              | Some (v, r3) =>
                match skip_ws r3 with
                | c2 :: r4 =>
                  if (c2 =? "}")%char then Some (JObj (rev ((k, v) :: acc)), r4)
                  else if (c2 =? ",")%char then parse_members f (skip_ws r4) ((k, v) :: acc)
                  else None
                | [] => None
                end
              end
            else None
          | [] => None
          end
        end
      else None
    | [] => None
    end
  end
with parse_items (fuel : nat) (cs : list ascii) (acc : list json) {struct fuel}
    : option (json * list ascii) :=
  match fuel with
  | O => None
  | S f =>
    match parse_value f cs with
    | None => None
    | Some (v, r1) =>
      match skip_ws r1 with
      | c :: r2 =>
        if (c =? "]")%char then Some (JArr (rev (v :: acc)), r2)
        else if (c =? ",")%char then parse_items f (skip_ws r2) (v :: acc)
        else None
      | [] => None
      end
    end
  end.

(** [json.loads(s)]: [None] when it raises JSONDecodeError
    (leading and trailing whitespace allowed, "Extra data" refused). *)
Definition json_loads (s : string) : option json :=
  let cs := skip_ws (list_ascii_of_string s) in
  match parse_value (2 * List.length cs + 2)%nat cs with
  | Some (v, r) => match skip_ws r with [] => Some v | _ => None end
  | None => None
  end.

(* ------------------------------------------------------------------ *)
(** ** SSE consumption (src/clients/mcp_client.py)

    The consumers are parameterised by the decoder [loads] they call
    ([json.loads]); [json_loads] above is the concrete one. *)

(** [line[n:]] *)
Fixpoint py_slice_from (n : nat) (s : string) : string :=
  match n, s with
  | O, _ => s
  | S n', String _ s' => py_slice_from n' s'
  | S _, EmptyString => EmptyString
  end.

(** [str.isspace()] on one Latin-1 character. *)
Definition py_isspace (c : ascii) : bool :=
  let n := nat_of_ascii c in
  (((9 <=? n) && (n <=? 13)) || ((28 <=? n) && (n <=? 32)) || (n =? 133) || (n =? 160))%nat.

Fixpoint lstrip_chars (l : list ascii) : list ascii :=
  match l with
  | c :: r => if py_isspace c then lstrip_chars r else l
  | [] => []
  end.

(** [str.strip()] *)
Definition py_strip (s : string) : string :=
  string_of_list_ascii (rev (lstrip_chars (rev (lstrip_chars (list_ascii_of_string s))))).

(** [McpClient.connect_sse]: the lines of the [/sse] response, in order;
    [None] when the stream ends without the function returning. *)
Fixpoint connect_sse (loads : string -> option json) (lines : list string) : option string :=
  match lines with
  | [] => None
  | line :: rest =>
    if String.prefix "event: connection" line then connect_sse loads rest
    else if String.prefix "data: " line then
      let data := py_slice_from 6 line in
      match loads data with
      | Some _msg => connect_sse loads rest
      | None => Some (py_strip data)
      end
    else connect_sse loads rest
  end.

(** A Python dict lookup on decoded members: a later duplicate key
    overrides an earlier one. *)
Definition obj_get (k : list Z) (m : list (list Z * json)) : option json :=
  fold_left (fun acc kv => if cps_eqb k (fst kv) then Some (snd kv) else acc) m None.

(** [msg.get("params", {}).get("status") == "completed"]; [None] when the
    expression raises AttributeError ([msg] or its params not a dict). *)
Definition params_status_completed (msg : json) : option bool :=
  match msg with
  | JObj m =>
    let params := match obj_get (cps "params") m with Some v => v | None => JObj [] end in
    match params with
    | JObj p =>
      Some (match obj_get (cps "status") p with
            | Some (JStr st) => cps_eqb st (cps "completed")
            | _ => false
            end)
    | _ => None
    end
  | _ => None
  end.

(** How the [/sse] response stream ends: the server closes it, the
    client's read timeout fires ([httpx.ReadTimeout]), or another
    transport error is raised. *)
Inductive stream_end := Closed | ReadTimedOut | Failed.

(** A response stream: each line with the [time.time()] value at which
    the loop sees it, then the end of the stream and its time. *)
Record sse_stream := mkStream {
  arrivals : list (Q * string);
  end_time : Q;
  end_kind : stream_end
}.

(** What a call of [listen_for_events] does: return a list, or raise; with
    the time at which it happens. *)
Inductive listen_outcome :=
  | Returned (events : list json) (at_time : Q)
  | Raised (at_time : Q).

(** The body of [listen_for_events] from the [async for] on. *)
Fixpoint listen_loop (loads : string -> option json) (start duration : Q)
    (ls : list (Q * string)) (tend : Q) (kind : stream_end) (events : list json)
    : listen_outcome :=
  match ls with
  | [] =>
    match kind with
    | Closed | ReadTimedOut => Returned events tend   (* except httpx.ReadTimeout: pass *)
    | Failed => Raised tend
    end
  | (t, line) :: rest =>
    if Qltb duration (t - start) then Returned events t          (* break *)
    else if String.prefix "data: " line then
      let data := py_slice_from 6 line in
      match loads data with
      | None => listen_loop loads start duration rest tend kind events  (* except: pass *)
      | Some msg =>
        let events := app events [msg] in
        match params_status_completed msg with
        | Some true => Returned events t                           (* break *)
        | _ => listen_loop loads start duration rest tend kind events
        end
      end
    else listen_loop loads start duration rest tend kind events
  end.

(** [McpClient.listen_for_events(duration)], started at time [start]. *)
Definition listen_for_events (loads : string -> option json) (duration start : Q)
    (st : sse_stream) : listen_outcome :=
  listen_loop loads start duration (arrivals st) (end_time st) (end_kind st) [].

(** Vocabulary for the statements below. *)

(** The payload of a [data: ] line. *)
Definition data_payload (line : string) : option string :=
  if String.prefix "data: " line then Some (py_slice_from 6 line) else None.

(** The events decoded from the data lines of [ls], in order. *)
Definition parsed_events (loads : string -> option json) (ls : list (Q * string)) : list json :=
  flat_map (fun tl => match data_payload (snd tl) with
                      | Some d => match loads d with Some m => [m] | None => [] end
                      | None => []
                      end) ls.

(** Whether a line carries an event whose params.status is completed. *)
Definition is_terminal (loads : string -> option json) (line : string) : bool :=
  match data_payload line with
  | Some d => match loads d with
              | Some m => match params_status_completed m with Some true => true | _ => false end
              | None => false
              end
  | None => false
  end.

(** The leading lines seen before the duration budget is exceeded. *)
Fixpoint within_budget (start duration : Q) (ls : list (Q * string)) : list (Q * string) :=
  match ls with
  | [] => []
  | (t, l) :: rest => if Qltb duration (t - start) then [] else (t, l) :: within_budget start duration rest
  end.

(** The time at which a stream with no terminal event stops being read:
    the arrival of the first line past the budget, or the end of the
    stream. *)
Fixpoint first_over (start duration : Q) (ls : list (Q * string)) (tend : Q) : Q :=
  match ls with
  | [] => tend
  | (t, _) :: rest => if Qltb duration (t - start) then t else first_over start duration rest tend
  end.

(** Arrival times are nondecreasing, start at or after [prev], end at
    [tend], and no two consecutive ones (nor the start and the first, nor
    the last and the end) are more than [g] apart. *)
Fixpoint gaps_within (g prev : Q) (ls : list (Q * string)) (tend : Q) : bool :=
  match ls with
  | [] => Qle_bool prev tend && Qle_bool tend (prev + g)
  | (t, _) :: rest => Qle_bool prev t && Qle_bool t (prev + g) && gaps_within g t rest tend
  end.

(** Lines as the bundled server (src/servers/mcp_server.py) writes them:
    [data: {json.dumps(message)}], with json.dumps' default separators. *)

(** The double quote as a one-character string, to write JSON text. *)
Definition dq : string := String dquote EmptyString.

Definition jq (s : string) : string := dq ++ s ++ dq.

(** A [notifications/progress] event of [run_mcp_task]. *)
Definition progress_line (progress status : string) : string :=
  "data: {" ++ jq "jsonrpc" ++ ": " ++ jq "2.0" ++ ", " ++ jq "method" ++ ": "
  ++ jq "notifications/progress" ++ ", " ++ jq "params" ++ ": {" ++ jq "progress"
  ++ ": " ++ progress ++ ", " ++ jq "status" ++ ": " ++ jq status ++ "}}".

(** The final event of [run_mcp_task]. *)
Definition completion_line : string :=
  "data: {" ++ jq "jsonrpc" ++ ": " ++ jq "2.0" ++ ", " ++ jq "method" ++ ": "
  ++ jq "notifications/progress" ++ ", " ++ jq "params" ++ ": {" ++ jq "progress"
  ++ ": 100, " ++ jq "status" ++ ": " ++ jq "completed" ++ ", " ++ jq "result"
  ++ ": " ++ jq "Task Completed Successfully" ++ "}}".

(** A stock ticker push of [event_generator]. *)
Definition ticker_line (price timestamp : string) : string :=
  "data: {" ++ jq "jsonrpc" ++ ": " ++ jq "2.0" ++ ", " ++ jq "method" ++ ": "
  ++ jq "notifications/resources/updated" ++ ", " ++ jq "params" ++ ": {" ++ jq "uri"
  ++ ": " ++ jq "stock://ticker" ++ ", " ++ jq "delta" ++ ": {" ++ jq "price" ++ ": "
  ++ price ++ ", " ++ jq "timestamp" ++ ": " ++ timestamp ++ "}}}".

(** The connection event [event: connection\ndata: {session_id}\n\n], one
    line each, with [session_id = str(time.time())]. *)
Definition connection_lines (session_id : string) : list string :=
  ["event: connection"; "data: " ++ session_id; ""].

(** A scripted stream: progress 10 and 50 (then, in the streams below,
    the completion event and one more event queued behind it). *)
Definition scripted_progress : list (Q * string) :=
  [(1, progress_line "10" "running"); (2, progress_line "50" "running")].

Definition queued_after : list (Q * string) := [(4, progress_line "60" "running")].

(** Stock ticker pushes, one per second, for a stream without terminal
    event. *)
Definition ticker_arrivals : list (Q * string) :=
  map (fun k => (inject_Z k, ticker_line "101.23" "1700000000.5")) [1; 2; 3; 4; 5; 6; 7]%Z.

(* ------------------------------------------------------------------ *)
(** ** Benchmark batch (src/benchmarks/run_benchmark_advanced.py)

    Each bench is modelled by its remote calls (through the clients'
    simulator gates) and its exception handling.  A measurement record
    keeps its protocol and scenario labels and, for the instability
    scenario, the success rate.  Byte counts given to [simulate_transfer]
    stand for [len(json.dumps(payload))]: they only set sleep lengths. *)

Record record := mkRecord {
  protocol : string;
  scenario : string;
  success_rate : option Q
}.

Definition rec_ (p sc : string) : record := mkRecord p sc None.

Definition approx_payload_bytes : Z := 100.

(** Client operations (src/clients/rest_client.py, mcp_client.py). *)

Definition rest_chat_turn (sim : NetworkSimulator) : M unit :=
  simulate_transfer sim approx_payload_bytes ;;
  post RestServer "/chat" ;;
  simulate_transfer sim approx_payload_bytes.

Definition rest_ping_async (sim : NetworkSimulator) : M unit :=
  simulate_network sim ;; post RestServer "/status".

Definition rest_echo_async (sim : NetworkSimulator) : M unit :=
  simulate_network sim ;; post RestServer "/echo".

(** [run_task_polling]: the task is started, then polled; the
    [while True] loop polls once, then [more_polls] more times (how many
    depends on the server's task). *)
Definition rest_run_task_polling (more_polls : nat) : M unit :=
  post RestServer "/tasks/generate" ;;
  trials (S more_polls) (sleep (1 # 10) ;; post RestServer "/tasks/{task_id}").

Definition rest_chain_workflow : M unit :=
  post RestServer "/workflow/step1" ;;
  post RestServer "/workflow/step2" ;;
  post RestServer "/workflow/step3".

Definition mcp_initialize_async (sim : NetworkSimulator) : M unit :=
  send_request_async sim.

Definition mcp_call_tool_async (sim : NetworkSimulator) : M unit :=
  send_request_async sim.

Definition mcp_chat_turn (sim : NetworkSimulator) : M unit :=
  simulate_transfer sim approx_payload_bytes ;;
  send_request_async sim ;;
  simulate_transfer sim approx_payload_bytes.

(** [run_task_with_notifications]: opens [/sse], then starts the task. *)
Definition mcp_run_task_with_notifications (sim : NetworkSimulator) : M unit :=
  post McpServer "/sse" ;; send_request_async sim.

(** [subscribe_to_resource]: the subscribe request, then [/sse]. *)
Definition mcp_subscribe_to_resource (sim : NetworkSimulator) : M unit :=
  send_request_async sim ;; post McpServer "/sse".

(** The synchronous [chain_workflow] of McpClient: three POSTs. *)
Definition mcp_chain_workflow : M unit :=
  post McpServer "/message" ;; post McpServer "/message" ;; post McpServer "/message".

(** Control structures. *)

(** Statements run in order, each adding records; an exception stops the
    sequence and propagates (a [try/finally] whose [finally] only closes
    clients). *)
Fixpoint seq_steps (acc : list record) (steps : list (M (list record))) : M (list record) :=
  match steps with
  | [] => ret acc
  | st :: rest => rs <- st ;; seq_steps (app acc rs) rest
  end.

(** [try: <steps appending to results> except Exception: <handler>]: the
    records appended before the exception are kept. *)
Fixpoint try_accumulate (acc : list record) (steps : list (M (list record)))
    (handler : exn -> M unit) : M (list record) :=
  match steps with
  | [] => ret acc
  | st :: rest =>
    fun w => match st w with
             | (Ok rs, w') => try_accumulate (app acc rs) rest handler w'
             | (Exc e, w') => bind (handler e) (fun _ => ret acc) w'
             end
  end.

(** [await asyncio.gather] over a list of tasks: every task runs; the first exception
    is re-raised (the tasks' interleaving is sequentialised). *)
Fixpoint gather (ms : list (M unit)) : M (list unit) :=
  match ms with
  | [] => ret []
  | m :: ms' =>
    fun w => match m w with
             | (Ok a, w') => match gather ms' w' with
                             | (Ok l, w'') => (Ok (a :: l), w'')
                             | (Exc e, w'') => (Exc e, w'')
                             end
             | (Exc e, w') => (Exc e, snd (gather ms' w'))
             end
  end.

(** [for _ in range(n): try: call; successes += 1 except Exception: pass] *)
Fixpoint attempts (n : nat) (call : M unit) (successes : nat) : M nat :=
  match n with
  | O => ret successes
  | S n' =>
    s <- try_except (call ;; ret (S successes)) (fun _ => ret successes) ;;
    attempts n' call s
  end.

(** The benches. *)

Definition sim0 : NetworkSimulator := mkSim 0 0 0.

Definition bench_multi_turn_chat (iterations : nat) : M (list record) :=
  print "Benchmarking: Multi-turn Chat" ;;
  seq_steps []
    (map (fun _ => rest_chat_turn sim0 ;; ret [rec_ "REST" "Chat"]) (seq 0 iterations)
     ++ [mcp_initialize_async sim0 ;; ret []]
     ++ map (fun _ => mcp_chat_turn sim0 ;; ret [rec_ "MCP" "Chat"]) (seq 0 iterations))%list.

Definition bench_concurrency (concurrency : nat) : M (list record) :=
  print "Benchmarking: Concurrency" ;;
  r1 <- gather (repeat (rest_ping_async sim0) concurrency) ;;
  r2 <- gather (repeat (mcp_call_tool_async sim0) concurrency) ;;
  ret (app (map (fun _ => rec_ "REST" "Concurrency") r1)
           (map (fun _ => rec_ "MCP" "Concurrency") r2)).

Definition bench_long_running (polls : nat) : M (list record) :=
  print "Benchmarking: Long-running Task (Push vs Pull)" ;;
  rest_run_task_polling polls ;;
  r <- try_accumulate [] [mcp_run_task_with_notifications sim0 ;; ret [rec_ "MCP" "Long Task"]]
         (fun _ => print "Skipping MCP Long Task") ;;
  ret (rec_ "REST" "Long Task" :: r).

(** The [while time.time() - start < duration] loop polls once (its test
    holds at the start), then [more_polls] more times within the 5 s. *)
Definition bench_stock_ticker (more_polls : nat) : M (list record) :=
  print "Benchmarking: Stock Ticker (Polling vs Subscription)" ;;
  try_accumulate []
    [trials (S more_polls) (post RestServer "/resources/stock" ;; sleep (1 # 10)) ;;
       ret [rec_ "REST" "Stock Ticker"];
     mcp_subscribe_to_resource sim0 ;; ret [rec_ "MCP" "Stock Ticker"]]
    (fun _ => print "Stock ticker bench failed").

Definition bench_network_instability (latency_ms_ : Q) (packet_loss : Q) : M (list record) :=
  print "Benchmarking: Network Instability" ;;
  let sim := set_conditions latency_ms_ packet_loss 0 in
  s1 <- attempts 20 (rest_echo_async sim) 0 ;;
  s2 <- attempts 20 (mcp_chat_turn sim) 0 ;;
  ret [mkRecord "REST" "Network Instability" (Some (inject_Z (Z.of_nat s1) / 20 * 100));
       mkRecord "MCP" "Network Instability" (Some (inject_Z (Z.of_nat s2) / 20 * 100))].

Definition bench_tool_chaining : M (list record) :=
  print "Benchmarking: Tool Chaining (3-Step Workflow)" ;;
  try_accumulate []
    [rest_chain_workflow ;; ret [rec_ "REST" "Tool Chaining"];
     mcp_chain_workflow ;; ret [rec_ "MCP" "Tool Chaining"]]
    (fun _ => print "Tool chaining bench failed").

(** [initialize_async] is awaited before the [try]. *)
Definition bench_real_world_chat (turns : nat) : M (list record) :=
  print "Benchmarking: Real-World Chat" ;;
  let sim := set_conditions 50 0 5 in
  mcp_initialize_async sim ;;
  try_accumulate []
    (flat_map (fun _ => [rest_chat_turn sim ;; ret [rec_ "REST" "Real-World Chat"];
                         mcp_chat_turn sim ;; ret [rec_ "MCP" "Real-World Chat"]])
              (seq 1 turns))
    (fun _ => print "Real-world chat bench failed").

(** [run_all_benchmarks], given how many polls (beyond the first) the
    long task and the 5 s ticker loop take. *)
Definition run_all_benchmarks (task_polls ticker_polls : nat) : M (list record) :=
  r1 <- bench_multi_turn_chat 20 ;;
  r2 <- bench_concurrency 50 ;;
  r3 <- bench_long_running task_polls ;;
  r4 <- bench_stock_ticker ticker_polls ;;
  r5 <- bench_network_instability 100 (1 # 10) ;;
  r6 <- bench_tool_chaining ;;
  r7 <- bench_real_world_chat 15 ;;
  print "Advanced benchmarks completed." ;;
  ret (r1 ++ r2 ++ r3 ++ r4 ++ r5 ++ r6 ++ r7)%list.

(** The lines printed along a trace. *)
Definition printed (t : list event) : list string :=
  flat_map (fun e => match e with Print l => [l] | _ => [] end) t.

(* ------------------------------------------------------------------ *)
(** ** Python dicts and ints *)

(** A Python dict with [str] keys as an association list in insertion
    order: [d[k] = v] keeps the position of a key already present. *)
Fixpoint dict_set {A} (k : list Z) (v : A) (d : list (list Z * A)) : list (list Z * A) :=
  match d with
  | [] => [(k, v)]
  | (k', v') :: r => if cps_eqb k k' then (k', v) :: r else (k', v') :: dict_set k v r
  end.

(** [d.get(k)] *)
Fixpoint dict_lookup {A} (k : list Z) (d : list (list Z * A)) : option A :=
  match d with
  | [] => None
  | (k', v) :: r => if cps_eqb k k' then Some v else dict_lookup k r
  end.

(** [del d[k]]; [None] when it raises KeyError. *)
Fixpoint dict_del {A} (k : list Z) (d : list (list Z * A)) : option (list (list Z * A)) :=
  match d with
  | [] => None
  | (k', v) :: r =>
    if cps_eqb k k' then Some r
    else match dict_del k r with
         | Some r' => Some ((k', v) :: r')
         | None => None
         end
  end.

(** [k in d] *)
Definition dict_mem {A} (k : list Z) (d : list (list Z * A)) : bool :=
  match dict_lookup k d with Some _ => true | None => false end.

(** The dict built from decoded members, in order (a later duplicate
    key overrides the value and keeps the first position). *)
Definition dict_of_members {A} (m : list (list Z * A)) : list (list Z * A) :=
  fold_left (fun d kv => dict_set (fst kv) (snd kv) d) m [].

(** The digits of a [Decimal.uint], most significant first. *)
Fixpoint uint_chars (u : Decimal.uint) : list ascii :=
  match u with
  | Decimal.Nil => []
  | Decimal.D0 u => "0"%char :: uint_chars u
  | Decimal.D1 u => "1"%char :: uint_chars u
  | Decimal.D2 u => "2"%char :: uint_chars u
  | Decimal.D3 u => "3"%char :: uint_chars u
  | Decimal.D4 u => "4"%char :: uint_chars u
  | Decimal.D5 u => "5"%char :: uint_chars u
  | Decimal.D6 u => "6"%char :: uint_chars u
  | Decimal.D7 u => "7"%char :: uint_chars u
  | Decimal.D8 u => "8"%char :: uint_chars u
  | Decimal.D9 u => "9"%char :: uint_chars u
  end.

Definition digit_uint (c : ascii) (u : Decimal.uint) : option Decimal.uint :=
  if (c =? "0")%char then Some (Decimal.D0 u)
  else if (c =? "1")%char then Some (Decimal.D1 u)
  else if (c =? "2")%char then Some (Decimal.D2 u)
  else if (c =? "3")%char then Some (Decimal.D3 u)
  else if (c =? "4")%char then Some (Decimal.D4 u)
  else if (c =? "5")%char then Some (Decimal.D5 u)
  else if (c =? "6")%char then Some (Decimal.D6 u)
  else if (c =? "7")%char then Some (Decimal.D7 u)
  else if (c =? "8")%char then Some (Decimal.D8 u)
  else if (c =? "9")%char then Some (Decimal.D9 u)
  else None.

Fixpoint uint_of_chars (l : list ascii) : option Decimal.uint :=
  match l with
  | [] => Some Decimal.Nil
  | c :: r => match uint_of_chars r with
              | Some u => digit_uint c u
              | None => None
              end
  end.

(** [repr(n)] (and [str(n)]) of a Python int. *)
Definition Z_decimal (n : Z) : list ascii :=
  match Z.to_int n with
  | Decimal.Pos u => uint_chars u
  | Decimal.Neg u => "-"%char :: uint_chars u
  end.

(** The Python int a JSON number lexeme decodes to; [None] when it
    decodes to a float (a fraction, an exponent, NaN or Infinity). *)
Definition int_of_lexeme (lx : list ascii) : option Z :=
  match lx with
  | [] => None
  | c :: r =>
    if (c =? "-")%char then
      match r with
      | [] => None
      | _ => option_map (fun u => Z.of_int (Decimal.Neg u)) (uint_of_chars r)
      end
    else option_map (fun u => Z.of_int (Decimal.Pos u)) (uint_of_chars lx)
  end.

(** The operations on Python floats, and on values of any type, that
    the handlers apply to decoded request values; they are left
    abstract.  A float is designated by a lexeme that denotes it. *)
Record py_ops := mkPyOps {
  float_repr : list ascii -> list ascii;            (* repr(float(lx)), also NaN, Infinity *)
  float_eq_int : list ascii -> Z -> bool;           (* float(lx) == k *)
  float_affine : list ascii -> Z -> Z -> list ascii; (* repr(float(lx) * a + b) *)
  float_secs : list ascii -> Q;                     (* float(lx) as a sleep duration *)
  arith : list Z -> json -> json -> option json;    (* a + b, a - b, a * b, a / b; None: it raises *)
  str_other : json -> list Z                        (* str(v) of a list or a dict *)
}.

(** The Python numbers a JSON value can decode to ([bool] is an [int]). *)
Inductive py_num := PyInt (z : Z) | PyFloat (lx : list ascii).

Definition py_number (v : json) : option py_num :=
  match v with
  | JBool b => Some (PyInt (if b then 1 else 0)%Z)
  | JNum lx => match int_of_lexeme lx with
               | Some z => Some (PyInt z)
               | None => Some (PyFloat lx)
               end
  | _ => None
  end.

(** [v == k] for an int [k]. *)
Definition py_eq_int (F : py_ops) (v : json) (k : Z) : bool :=
  match py_number v with
  | Some (PyInt z) => Z.eqb z k
  | Some (PyFloat lx) => float_eq_int F lx k
  | None => false
  end.

(** [v == s] for a str [s]. *)
Definition py_eq_str (v : json) (s : string) : bool :=
  match v with JStr c => cps_eqb c (cps s) | _ => false end.

(** [bool(v)] *)
Definition py_truthy (F : py_ops) (v : json) : bool :=
  match v with
  | JNull => false
  | JBool b => b
  | JNum _ => negb (py_eq_int F v 0)
  | JStr s => negb (Nat.eqb (List.length s) 0)
  | JArr l => negb (Nat.eqb (List.length l) 0)
  | JObj m => negb (Nat.eqb (List.length m) 0)
  end.

(** [len(v)]; [None] when it raises TypeError. *)
Definition py_len (v : json) : option Z :=
  match v with
  | JStr s => Some (Z.of_nat (List.length s))
  | JArr l => Some (Z.of_nat (List.length l))
  | JObj m => Some (Z.of_nat (List.length (dict_of_members m)))
  | _ => None
  end.

(** [str(v)], as an f-string formats it. *)
Definition py_str (F : py_ops) (v : json) : list Z :=
  match v with
  | JStr s => s
  | JNull => cps "None"
  | JBool true => cps "True"
  | JBool false => cps "False"
  | JNum lx => match int_of_lexeme lx with
               | Some z => map code (Z_decimal z)
               | None => map code (float_repr F lx)
               end
  | _ => str_other F v
  end.

(* ------------------------------------------------------------------ *)
(** ** [json.dumps] (ensure_ascii, default separators) *)

Definition hex_char (d : Z) : ascii :=
  if (d <? 10)%Z then ascii_of_nat (48 + Z.to_nat d) else ascii_of_nat (87 + Z.to_nat d).

(** ['\\u{0:04x}'.format(n)] for [0 <= n < 0x10000]. *)
Definition u_escape (n : Z) : list ascii :=
  let n1 := (n / 16)%Z in
  let n2 := (n1 / 16)%Z in
  ["\"%char; "u"%char; hex_char (n2 / 16)%Z; hex_char (n2 mod 16)%Z;
   hex_char (n1 mod 16)%Z; hex_char (n mod 16)%Z].

(** What [py_encode_basestring_ascii] writes for one code point:
    ESCAPE_DCT for the backslash, the quote and the control characters,
    the character itself from space to tilde, otherwise a [\uXXXX]
    escape, or a surrogate pair of them above U+FFFF. *)
Definition escape_cp (c : Z) : list ascii :=
  if (c =? 92)%Z then ["\"%char; "\"%char]
  else if (c =? 34)%Z then ["\"%char; dquote]
  else if (c =? 8)%Z then ["\"%char; "b"%char]
  else if (c =? 12)%Z then ["\"%char; "f"%char]
  else if (c =? 10)%Z then ["\"%char; "n"%char]
  else if (c =? 13)%Z then ["\"%char; "r"%char]
  else if (c =? 9)%Z then ["\"%char; "t"%char]
  else if (32 <=? c)%Z && (c <=? 126)%Z then [ascii_of_nat (Z.to_nat c)]
  else if (c <? 65536)%Z then u_escape c
  else
    let n := (c - 65536)%Z in
    let s1 := Z.lor 55296 (Z.land (Z.shiftr n 10) 1023) in
    let s2 := Z.lor 56320 (Z.land n 1023) in
    app (u_escape s1) (u_escape s2).

(** A str, quoted. *)
Definition dumps_str (s : list Z) : list ascii :=
  dquote :: app (flat_map escape_cp s) [dquote].

Fixpoint join_sep (sep : list ascii) (parts : list (list ascii)) : list ascii :=
  match parts with
  | [] => []
  | [p] => p
  | p :: r => app p (app sep (join_sep sep r))
  end.

Definition lit (s : string) : list ascii := list_ascii_of_string s.

(** A number: an int is written in decimal, a float by its repr. *)
Definition dumps_num (F : py_ops) (lx : list ascii) : list ascii :=
  match int_of_lexeme lx with
  | Some z => Z_decimal z
  | None => float_repr F lx
  end.

(** [json.dumps(v)] of the Python value [v] decodes to. *)
Fixpoint json_dumps (F : py_ops) (v : json) : list ascii :=
  match v with
  | JNull => lit "null"
  | JBool true => lit "true"
  | JBool false => lit "false"
  | JNum lx => dumps_num F lx
  | JStr s => dumps_str s
  | JArr items => "["%char :: app (join_sep (lit ", ") (map (json_dumps F) items)) ["]"%char]
  | JObj m =>
    "{"%char :: app (join_sep (lit ", ")
                     (map (fun kv => app (dumps_str (fst kv)) (app (lit ": ") (snd kv)))
                          (dict_of_members (map (fun kv => (fst kv, json_dumps F (snd kv))) m))))
                    ["}"%char]
  end.

(** A [str] given to [json.loads]: its code points below 256, as the
    Latin-1 view of the decoder. *)
Definition string_of_cps (l : list Z) : string :=
  string_of_list_ascii (map (fun z => ascii_of_nat (Z.to_nat z)) l).

(* ------------------------------------------------------------------ *)
(** ** MCP server (src/servers/mcp_server.py) *)

Definition jstr (s : string) : json := JStr (cps s).

Definition jobj (l : list (string * json)) : json :=
  JObj (map (fun kv => (cps (fst kv), snd kv)) l).

(** A Python int, as json.dumps writes it and json.loads reads it. *)
Definition jint (z : Z) : json := JNum (Z_decimal z).

(** A validated [JsonRpcRequest]: [params] is a dict or None. *)
Record rpc_request := mkRequest {
  rq_method : list Z;
  rq_params : option (list (list Z * json));
  rq_id : json
}.

Inductive rpc_body := RpcResult (r : json) | RpcError (code : Z) (message : string).

(** A [JsonRpcResponse] carrying the request's id, or an exception
    escaping the handler (FastAPI answers 500). *)
Inductive rpc_outcome := Respond (id : json) (body : rpc_body) | Crash.

(** The handler's effects: [await asyncio.sleep(secs)], and
    [asyncio.create_task(run_mcp_task(session, complexity))]. *)
Inductive srv_effect := SrvSleep (secs : Q) | SrvSpawn (session : list Z) (complexity : json).

(** [d.get(k, dflt)] and [d.get(k)] *)
Definition py_get_or (k : string) (d : list (list Z * json)) (dflt : json) : json :=
  match obj_get (cps k) d with Some v => v | None => dflt end.

Definition py_get (k : string) (d : list (list Z * json)) : json := py_get_or k d JNull.

Definition initialize_result : json :=
  jobj [("protocolVersion", jstr "0.1.0");
        ("capabilities", jobj [("tools", jobj []); ("resources", jobj [])]);
        ("serverInfo", jobj [("name", jstr "mcp-python-demo"); ("version", jstr "1.0.0")])].

Definition tools_list_result : json :=
  jobj [("tools", JArr [
    jobj [("name", jstr "calculate");
          ("description", jstr "Perform basic arithmetic operations");
          ("inputSchema", jobj [
             ("type", jstr "object");
             ("properties", jobj [
                ("operation", jobj [("type", jstr "string");
                                    ("enum", JArr [jstr "add"; jstr "subtract"; jstr "multiply"; jstr "divide"])]);
                ("a", jobj [("type", jstr "number")]);
                ("b", jobj [("type", jstr "number")])]);
             ("required", JArr [jstr "operation"; jstr "a"; jstr "b"])])];
    jobj [("name", jstr "generate_task");
          ("description", jstr "Start a long-running task");
          ("inputSchema", jobj [
             ("type", jstr "object");
             ("properties", jobj [
                ("complexity", jobj [("type", jstr "integer")]);
                ("sessionId", jobj [("type", jstr "string")])]);
             ("required", JArr [jstr "complexity"; jstr "sessionId"])])];
    jobj [("name", jstr "workflow_step");
          ("description", jstr "Execute a workflow step");
          ("inputSchema", jobj [
             ("type", jstr "object");
             ("properties", jobj [
                ("step", jobj [("type", jstr "integer"); ("enum", JArr [jint 1; jint 2; jint 3])]);
                ("input_data", jobj [("type", jstr "string")])]);
             ("required", JArr [jstr "step"; jstr "input_data"])])]])].

Definition resources_list_result : json :=
  jobj [("resources", JArr [
    jobj [("uri", jstr "file:///logs/system.log"); ("name", jstr "System Logs");
          ("mimeType", jstr "text/plain")];
    jobj [("uri", jstr "stock://ticker"); ("name", jstr "Stock Ticker (MCP)");
          ("mimeType", jstr "application/json")]])].

(** [{"content": [{"type": "text", "text": t}]}] *)
Definition text_content (t : list Z) : json :=
  jobj [("content", JArr [jobj [("type", jstr "text"); ("text", JStr t)]])].

(** The [prompts/chat] branch: its effects, and its response ([None]
    when an exception escapes). *)
Definition chat_handler (F : py_ops) (params : list (list Z * json))
    : list srv_effect * option rpc_body :=
  let session_id := py_get "sessionId" params in
  let message := py_get "message" params in
  if negb (py_truthy F session_id) then ([], Some (RpcError (-32602) "Missing sessionId"))
  else
    let turn_count := py_get_or "turnCount" params (jint 1) in
    let response := app (cps "Echo: ") (app (py_str F message)
                    (app (cps " (Stateful Context: ") (app (py_str F turn_count) (cps " turns)")))) in
    match py_number turn_count, py_len message with
    | Some (PyInt t), Some n =>
        let context_length := (t * 100 + n)%Z in
        ([SrvSleep (inject_Z context_length * (1 # 10000))],
         Some (RpcResult (jobj [("response", JStr response); ("usage", jint context_length)])))
    | Some (PyFloat lx), Some n =>
        let context_length := float_affine F lx 100 n in
        ([SrvSleep (float_secs F context_length * (1 # 10000))],
         Some (RpcResult (jobj [("response", JStr response); ("usage", JNum context_length)])))
    | _, _ => ([], None)
    end.

(** The [calculate] tool. *)
Definition calculate_handler (F : py_ops) (args : json) : list srv_effect * option rpc_body :=
  let slept := [SrvSleep (1 # 100)] in
  match args with
  | JObj a =>
    let op := py_get "operation" a in
    let x := py_get_or "a" a (jint 0) in
    let y := py_get_or "b" a (jint 0) in
    let res :=
      if py_eq_str op "add" then arith F (cps "add") x y
      else if py_eq_str op "subtract" then arith F (cps "subtract") x y
      else if py_eq_str op "multiply" then arith F (cps "multiply") x y
      else if py_eq_str op "divide" then
        (if negb (py_eq_int F y 0) then arith F (cps "divide") x y
         else Some (jstr "Error: Division by zero"))
      else Some (jstr "Error: Unknown operation") in
    match res with
    | Some r =>
        (slept, Some (RpcResult (text_content
                   (map code (json_dumps F (jobj [("result", r); ("operation", op)]))))))
    | None => (slept, None)
    end
  | _ => (slept, None)   (* args.get: AttributeError *)
  end.

(** The [generate_task] tool. *)
Definition generate_task_handler (F : py_ops) (sessions : list (list Z * nat)) (args : json)
    : list srv_effect * option rpc_body :=
  match args with
  | JObj a =>
    let complexity := py_get_or "complexity" a (jint 1) in
    let session_id := py_get "sessionId" a in
    let invalid := ([], Some (RpcError (-32602) "Invalid or missing sessionId")) in
    if negb (py_truthy F session_id) then invalid
    else match session_id with
         | JStr s =>
           if dict_mem s sessions then
             ([SrvSpawn s complexity],
              Some (RpcResult (jobj [("content", JArr [jobj [("type", jstr "text");
                                                             ("text", jstr "Task Started")]])])))
           else invalid
         | JArr _ | JObj _ => ([], None)   (* unhashable: TypeError *)
         | _ => invalid
         end
  | _ => ([], None)
  end.

(** The [workflow_step] tool. *)
Definition workflow_step_handler (F : py_ops) (args : json) : list srv_effect * option rpc_body :=
  match args with
  | JObj a =>
    let step := py_get "step" a in
    let data := py_get "input_data" a in
    let done_ secs name :=
      ([SrvSleep secs],
       Some (RpcResult (text_content (map code (json_dumps F
               (jobj [("output", JStr (app (cps name) (app (py_str F data) (cps ")"))));
                      ("step", step)])))))) in
    if py_eq_int F step 1 then done_ (1 # 20) "Processed("
    else if py_eq_int F step 2 then done_ (1 # 10) "Analyzed("
    else if py_eq_int F step 3 then done_ (1 # 5) "Summary("
    else ([], Some (RpcError (-32602) "Invalid step"))
  | _ => ([], None)
  end.

(** The [tools/call] branch. *)
Definition tools_call_handler (F : py_ops) (sessions : list (list Z * nat))
    (params : list (list Z * json)) : list srv_effect * option rpc_body :=
  let name := py_get "name" params in
  let args := py_get_or "arguments" params (JObj []) in
  if py_eq_str name "calculate" then calculate_handler F args
  else if py_eq_str name "generate_task" then generate_task_handler F sessions args
  else if py_eq_str name "workflow_step" then workflow_step_handler F args
  else ([], Some (RpcError (-32601) "Method not found")).

(** The [resources/read] branch; [price] is the float
    [100.0 + random.uniform(-5.0, 5.0)] drawn for the ticker. *)
Definition resources_read_handler (F : py_ops) (price : list ascii)
    (params : list (list Z * json)) : list srv_effect * option rpc_body :=
  let uri := py_get "uri" params in
  if py_eq_str uri "file:///logs/system.log" then
    ([], Some (RpcResult (jobj [("contents", JArr [jobj [
           ("uri", uri); ("mimeType", jstr "text/plain");
           ("text", JStr (app (cps "Log entry 1") (10%Z :: cps "Log entry 2")))]])])))
  else if py_eq_str uri "stock://ticker" then
    ([], Some (RpcResult (jobj [("contents", JArr [jobj [
           ("uri", uri); ("mimeType", jstr "application/json");
           ("text", JStr (map code (json_dumps F (jobj [("price", JNum price)]))))]])])))
  else ([], Some (RpcError (-32602) "Resource not found")).

(** [process_json_rpc(request)], given the live [sessions] (session id
    to queue) and the ticker price a [resources/read] would draw. *)
Definition process_json_rpc (F : py_ops) (sessions : list (list Z * nat)) (price : list ascii)
    (rq : rpc_request) : list srv_effect * rpc_outcome :=
  let params := match rq_params rq with Some p => p | None => [] end in
  let answer (r : list srv_effect * option rpc_body) :=
    (fst r, match snd r with Some b => Respond (rq_id rq) b | None => Crash end) in
  let m := rq_method rq in
  if cps_eqb m (cps "initialize") then ([], Respond (rq_id rq) (RpcResult initialize_result))
  else if cps_eqb m (cps "tools/list") then ([], Respond (rq_id rq) (RpcResult tools_list_result))
  else if cps_eqb m (cps "prompts/chat") then answer (chat_handler F params)
  else if cps_eqb m (cps "tools/call") then answer (tools_call_handler F sessions params)
  else if cps_eqb m (cps "resources/list") then
    ([], Respond (rq_id rq) (RpcResult resources_list_result))
  else if cps_eqb m (cps "resources/read") then answer (resources_read_handler F price params)
  else if cps_eqb m (cps "resources/subscribe") then
    ([], Respond (rq_id rq) (RpcResult (jobj [("status", jstr "subscribed")])))
  else ([], Respond (rq_id rq) (RpcError (-32601) "Method not found")).

(** The server's session store: [sessions] maps a session id to its
    queue; [queues] holds the messages put on each queue. *)
Record mcp_state := mkMcpState {
  sessions : list (list Z * nat);
  queues : nat -> list json;
  next_queue : nat
}.

(** The start of [event_generator]: [sessions[session_id] = asyncio.Queue()]
    with [session_id = str(time.time())]. *)
Definition sse_open (sid : list Z) (s : mcp_state) : mcp_state :=
  mkMcpState (dict_set sid (next_queue s) (sessions s))
             (fun q => if Nat.eqb q (next_queue s) then [] else queues s q)
             (S (next_queue s)).

(** Its [finally] clause [del sessions[session_id]]; [None] when it
    raises KeyError. *)
Definition sse_close (sid : list Z) (s : mcp_state) : option mcp_state :=
  match dict_del sid (sessions s) with
  | Some d => Some (mkMcpState d (queues s) (next_queue s))
  | None => None
  end.

(** The messages [run_mcp_task] queues. *)
Definition progress_msg (progress : Z) : json :=
  jobj [("jsonrpc", jstr "2.0"); ("method", jstr "notifications/progress");
        ("params", jobj [("progress", jint progress); ("status", jstr "running")])].

Definition completion_msg : json :=
  jobj [("jsonrpc", jstr "2.0"); ("method", jstr "notifications/progress");
        ("params", jobj [("progress", jint 100); ("status", jstr "completed");
                         ("result", jstr "Task Completed Successfully")])].

Inductive task_effect := TaskSleep (secs : Q) | TaskPut (queue : nat) (msg : json).

(** [0.1 * complexity]; [None] when it raises TypeError. *)
Definition step_delay (F : py_ops) (complexity : json) : option Q :=
  match py_number complexity with
  | Some (PyInt c) => Some ((1 # 10) * inject_Z c)
  | Some (PyFloat lx) => Some ((1 # 10) * float_secs F lx)
  | None => None
  end.

(** [run_mcp_task(session_id, complexity)]: its effects, and whether it
    ends by raising. *)
Definition run_mcp_task (F : py_ops) (sessions : list (list Z * nat)) (sid : list Z)
    (complexity : json) : list task_effect * bool :=
  match dict_lookup sid sessions with
  | None => ([], false)
  | Some q =>
    match step_delay F complexity with
    | None => ([], true)
    | Some d =>
      (app (flat_map (fun i => [TaskSleep d; TaskPut q (progress_msg ((Z.of_nat i + 1) * 10))])
                     (seq 0 10))
           [TaskPut q completion_msg], false)
    end
  end.

(** [yield f"data: {json.dumps(message)}\n\n"], one line each. *)
Definition message_lines (F : py_ops) (m : json) : list string :=
  ["data: " ++ string_of_list_ascii (json_dumps F m); ""].

(* ------------------------------------------------------------------ *)
(** ** REST server (src/servers/rest_server.py) *)

(** A handler's outcome: a response, or an HTTP error (an
    [HTTPException], or 500 for an exception escaping). *)
Inductive http_outcome (A : Type) := HttpOk (a : A) | HttpError (status : Z) (detail : string).
Arguments HttpOk {A} a.
Arguments HttpError {A} status detail.

(** [calculate]: the sleep, then the result ([CalculateRequest] has
    float fields). *)
Definition rest_calculate (operation : list Z) (a b : Q) : list Q * http_outcome Q :=
  ([1 # 100],
   if cps_eqb operation (cps "add") then HttpOk (a + b)
   else if cps_eqb operation (cps "subtract") then HttpOk (a - b)
   else if cps_eqb operation (cps "multiply") then HttpOk (a * b)
   else if cps_eqb operation (cps "divide") then
     (if Qeq_bool b 0 then HttpError 400 "Division by zero" else HttpOk (a / b))
   else HttpError 400 "Unknown operation").

(** [get_context(size)]: [data = "x" * size] and the [size] echoed. *)
Definition rest_get_context (size : Z) : list Z * Z :=
  (repeat 120%Z (Z.to_nat size), size).

(** [chat(request)]: [history] is a list of [Dict[str, str]]; the sleep
    and [(response, usage)]. *)
Definition rest_chat (history : list (list (list Z * list Z))) (message : list Z)
    : list Q * http_outcome (list Z * Z) :=
  match fold_right (fun m acc => match dict_lookup (cps "content") m, acc with
                                 | Some c, Some n => Some (Z.of_nat (List.length c) + n)%Z
                                 | _, _ => None
                                 end) (Some 0%Z) history with
  | None => ([], HttpError 500 "Internal Server Error")   (* m["content"]: KeyError *)
  | Some s =>
    let context_length := (s + Z.of_nat (List.length message))%Z in
    ([inject_Z context_length * (1 # 10000)],
     HttpOk (app (cps "Echo: ") (app message (app (cps " (Context: ")
               (app (map code (Z_decimal (Z.of_nat (List.length history)))) (cps " msgs)")))),
             context_length))
  end.

(** The REST half of [bench_multi_turn_chat]: [RestClient.chat_turn]
    sends the history and the message to [chat]; the loop appends the
    user message and the response.  The usage the server computes at
    each turn. *)
Fixpoint rest_chat_session (history : list (list (list Z * list Z))) (msgs : list (list Z))
    : option (list Z) :=
  match msgs with
  | [] => Some []
  | m :: rest =>
    match snd (rest_chat history m) with
    | HttpOk (resp, usage) =>
      option_map (cons usage)
        (rest_chat_session
           (app history [[(cps "role", cps "user"); (cps "content", m)];
                         [(cps "role", cps "assistant"); (cps "content", resp)]]) rest)
    | HttpError _ _ => None
    end
  end.

(** The task store [tasks]. *)
Record task := mkTask {
  t_status : list Z;
  t_progress : Z;
  t_result : option (list Z)
}.

Definition pending_task : task := mkTask (cps "pending") 0 None.

(** [generate_task]: [task_id = str(time.time())]. *)
Definition rest_generate_task (task_id : list Z) (tasks : list (list Z * task))
    : list (list Z * task) :=
  dict_set task_id pending_task tasks.

(** [get_task_status(task_id)] *)
Definition rest_get_task_status (task_id : list Z) (tasks : list (list Z * task))
    : http_outcome task :=
  match dict_lookup task_id tasks with
  | Some t => HttpOk t
  | None => HttpError 404 "Task not found"
  end.

(** Iteration [i] of [run_background_task]'s loop, after its sleep: the
    progress update (the last one runs on into the completion without
    an await); [None] when [tasks[task_id]] raises KeyError. *)
Definition background_update (task_id : list Z) (i : nat) (tasks : list (list Z * task))
    : option (list (list Z * task)) :=
  match dict_lookup task_id tasks with
  | None => None
  | Some t =>
    let t' := mkTask (t_status t) ((Z.of_nat i + 1) * 10) (t_result t) in
    let t'' := if Nat.eqb i 9
               then mkTask (cps "completed") (t_progress t') (Some (cps "Task Completed Successfully"))
               else t' in
    Some (dict_set task_id t'' tasks)
  end.

(** [n] iterations from iteration [i] on. *)
Fixpoint background_steps (task_id : list Z) (i n : nat) (tasks : list (list Z * task))
    : option (list (list Z * task)) :=
  match n with
  | O => Some tasks
  | S n' => match background_update task_id i tasks with
            | Some t => background_steps task_id (S i) n' t
            | None => None
            end
  end.

(** The workflow steps: their sleep and output. *)
Definition rest_step1 (input_data : list Z) : Q * list Z :=
  (1 # 20, app (cps "Processed(") (app input_data (cps ")"))).
Definition rest_step2 (input_data : list Z) : Q * list Z :=
  (1 # 10, app (cps "Analyzed(") (app input_data (cps ")"))).
Definition rest_step3 (input_data : list Z) : Q * list Z :=
  (1 # 5, app (cps "Summary(") (app input_data (cps ")"))).

(** [RestClient.chain_workflow(input_data)] against the server: the
    result and [bytes_sent]. *)
Definition rest_chain_workflow_result (input_data : list Z) : list Z * Z :=
  let out1 := snd (rest_step1 input_data) in
  let b1 := (Z.of_nat (List.length input_data) + 100)%Z in
  let out2 := snd (rest_step2 out1) in
  let b2 := (b1 + Z.of_nat (List.length out1) + 100)%Z in
  let out3 := snd (rest_step3 out2) in
  let b3 := (b2 + Z.of_nat (List.length out2) + 100)%Z in
  (out3, b3).

(* ------------------------------------------------------------------ *)
(** ** More of McpClient (src/clients/mcp_client.py) *)



(** [r["result"]["content"][0]["text"]] on the response to a request;
    [None] when it raises (an error response has [result] None; a 500
    fails [raise_for_status]). *)
Definition response_text (o : rpc_outcome) : option (list Z) :=
  match o with
  | Respond _ (RpcResult (JObj r)) =>
    match obj_get (cps "content") r with
    | Some (JArr (JObj c0 :: _)) =>
      match obj_get (cps "text") c0 with
      | Some (JStr t) => Some t
      | _ => None
      end
    | _ => None
    end
  | _ => None
  end.

(** [call_step(step, data)] of [McpClient.chain_workflow], against
    [process_json_rpc]: the output, [len(json.dumps(payload))] and the
    new [request_id]. *)
Definition mcp_call_step (F : py_ops) (sessions : list (list Z * nat)) (price : list ascii)
    (request_id step : Z) (data : json) : option (json * Z * Z) :=
  let id := (request_id + 1)%Z in
  let arguments := jobj [("step", jint step); ("input_data", data)] in
  let params := [(cps "name", jstr "workflow_step"); (cps "arguments", arguments)] in
  let payload := jobj [("jsonrpc", jstr "2.0"); ("method", jstr "tools/call");
                       ("params", JObj params); ("id", jint id)] in
  let rq := mkRequest (cps "tools/call") (Some params) (jint id) in
  match response_text (snd (process_json_rpc F sessions price rq)) with
  | None => None
  | Some text =>
    match json_loads (string_of_cps text) with
    | Some (JObj content) =>
      match obj_get (cps "output") content with
      | Some out => Some (out, Z.of_nat (List.length (json_dumps F payload)), id)
      | None => None
      end
    | _ => None
    end
  end.

(** [McpClient.chain_workflow(input_data)]: the result, [bytes_sent]
    and the new [request_id]. *)
Definition mcp_chain_workflow_result (F : py_ops) (sessions : list (list Z * nat))
    (price : list ascii) (request_id : Z) (input_data : list Z) : option (json * Z * Z) :=
  match mcp_call_step F sessions price request_id 1 (JStr input_data) with
  | None => None
  | Some (out1, b1, id1) =>
    match mcp_call_step F sessions price id1 2 out1 with
    | None => None
    | Some (out2, b2, id2) =>
      match mcp_call_step F sessions price id2 3 out2 with
      | None => None
      | Some (out3, b3, id3) => Some (out3, (b1 + b2 + b3)%Z, id3)
      end
    end
  end.

(** The try body of [subscribe_to_resource] on a decoded message: the
    delta appended, or [None] when nothing is (the test fails, or the
    bare except swallows a KeyError or TypeError). *)
Definition resource_update (uri : list Z) (msg : json) : option json :=
  match msg with
  | JObj m =>
    match obj_get (cps "method") m with
    | Some (JStr meth) =>
      if cps_eqb meth (cps "notifications/resources/updated") then
        match obj_get (cps "params") m with
        | Some (JObj p) =>
          match obj_get (cps "uri") p with
          | Some (JStr u) => if cps_eqb u uri then obj_get (cps "delta") p else None
          | _ => None
          end
        | _ => None
        end
      else None
    | _ => None
    end
  | _ => None
  end.

Inductive subscribe_outcome :=
  | SubReturned (updates : list (Q * json)) (at_time : Q)
  | SubRaised (at_time : Q).

(** The [async for] loop of [subscribe_to_resource]: a 5 s window, no
    [except] around the stream. *)
Fixpoint subscribe_loop (loads : string -> option json) (start : Q) (uri : list Z)
    (ls : list (Q * string)) (tend : Q) (kind : stream_end) (updates : list (Q * json))
    : subscribe_outcome :=
  match ls with
  | [] => match kind with
          | Closed => SubReturned updates tend
          | ReadTimedOut | Failed => SubRaised tend
          end
  | (t, line) :: rest =>
    if Qltb 5 (t - start) then SubReturned updates t
    else if String.prefix "data: " line then
      match loads (py_strip (py_slice_from 6 line)) with
      | Some msg =>
        match resource_update uri msg with
        | Some delta => subscribe_loop loads start uri rest tend kind (app updates [(t, delta)])
        | None => subscribe_loop loads start uri rest tend kind updates
        end
      | None => subscribe_loop loads start uri rest tend kind updates
      end
    else subscribe_loop loads start uri rest tend kind updates
  end.

(** The listening part of [subscribe_to_resource(uri)], started at
    [start]. *)
Definition subscribe_listen (loads : string -> option json) (uri : list Z) (start : Q)
    (st : sse_stream) : subscribe_outcome :=
  subscribe_loop loads start uri (arrivals st) (end_time st) (end_kind st) [].

(* ------------------------------------------------------------------ *)
(** ** Vocabulary for the JSON round trip *)

(** A Unicode scalar value (a code point that is not a surrogate). *)
Definition is_scalar (c : Z) : bool :=
  (0 <=? c)%Z && (c <=? 1114111)%Z && negb ((55296 <=? c)%Z && (c <=? 57343)%Z).

Fixpoint keys_distinct {A} (m : list (list Z * A)) : bool :=
  match m with
  | [] => true
  | (k, _) :: r => negb (dict_mem k r) && keys_distinct r
  end.

(** The values [json.dumps] writes and [json.loads] reads back as they
    are: no float, ints written in decimal, strings of scalar values and
    objects with distinct keys. *)
Fixpoint dumpable (v : json) : bool :=
  match v with
  | JNull | JBool _ => true
  | JNum lx => match int_of_lexeme lx with
               | Some z => cps_eqb (map code lx) (map code (Z_decimal z))
               | None => false
               end
  | JStr s => forallb is_scalar s
  | JArr l => forallb dumpable l
  | JObj m => keys_distinct m && forallb (fun kv => forallb is_scalar (fst kv) && dumpable (snd kv)) m
  end.

(** The fuel the decoder spends on a value. *)
Fixpoint jsize (v : json) : nat :=
  match v with
  | JArr l => S (list_sum (map (fun x => S (jsize x)) l))
  | JObj m => S (list_sum (map (fun kv => S (jsize (snd kv))) m))
  | _ => 1%nat
  end.

(** Induction on values through their lists. *)
Definition json_ind_deep (P : json -> Prop)
    (Hnull : P JNull) (Hbool : forall b, P (JBool b)) (Hnum : forall lx, P (JNum lx))
    (Hstr : forall s, P (JStr s))
    (Harr : forall l, Forall P l -> P (JArr l))
    (Hobj : forall m, Forall (fun kv => P (snd kv)) m -> P (JObj m)) : forall v, P v :=
  fix go (v : json) : P v :=
    match v with
    | JNull => Hnull
    | JBool b => Hbool b
    | JNum lx => Hnum lx
    | JStr s => Hstr s
    | JArr l =>
      Harr l ((fix gol (l : list json) : Forall P l :=
                 match l with
                 | [] => @Forall_nil _ P
                 | x :: r => @Forall_cons _ P x r (go x) (gol r)
                 end) l)
    | JObj m =>
      Hobj m ((fix gom (m : list (list Z * json)) : Forall (fun kv => P (snd kv)) m :=
                 match m with
                 | [] => @Forall_nil _ _
                 | kv :: r => @Forall_cons _ (fun kv => P (snd kv)) kv r (go (snd kv)) (gom r)
                 end) m)
    end.

(** What may follow a value inside JSON text: the end, a comma, or a
    closing bracket or brace. *)
Definition value_end (rest : list ascii) : Prop :=
  match rest with
  | [] => True
  | c :: _ => c = ","%char \/ c = "]"%char \/ c = "}"%char
  end.

(** [key: value] as json.dumps writes a member. *)
Definition member_text (F : py_ops) (kv : list Z * json) : list ascii :=
  app (dumps_str (fst kv)) (app (lit ": ") (json_dumps F (snd kv))).

(** [json.loads] reads the text [json.dumps] writes for [v] back as [v],
    at any fuel from [jsize v] on, whatever follows the value. *)
Definition dumps_reads_back (F : py_ops) (v : json) : Prop :=
  dumpable v = true -> forall f rest, (jsize v <= f)%nat -> value_end rest ->
  parse_value f (app (json_dumps F v) rest) = Some (v, rest).


(* ------------------------------------------------------------------ *)
(** ** [McpClient.run_task_with_notifications] (src/clients/mcp_client.py) *)

(** The messages a task puts on its queue, in order. *)
Definition task_messages (effs : list task_effect) : list json :=
  flat_map (fun e => match e with TaskPut _ m => [m] | TaskSleep _ => [] end) effs.

(** The [tools/call] request starting the task:
    [{"name": "generate_task", "arguments": {"complexity": c, "sessionId": sid}}]. *)
Definition generate_task_request (session_id : string) (complexity : Z) (id : json) : rpc_request :=
  mkRequest (cps "tools/call")
    (Some [(cps "name", jstr "generate_task");
           (cps "arguments", jobj [("complexity", jint complexity); ("sessionId", jstr session_id)])])
    id.

(** [msg.get("method") == "notifications/progress"]; [None] when it
    raises AttributeError ([msg] not a dict). *)
Definition is_progress_notification (msg : json) : option bool :=
  match msg with
  | JObj m => Some (match obj_get (cps "method") m with
                    | Some (JStr s) => cps_eqb s (cps "notifications/progress")
                    | _ => false
                    end)
  | _ => None
  end.

(** How the [async for] loop of [run_task_with_notifications] ends: by
    [break] or the end of the stream, or by an exception; with the
    [session_id] taken and the [event_count]. *)
Inductive notif_outcome :=
  | NotifReturned (session : option string) (events : nat)
  | NotifRaised (session : option string) (events : nat).

(** The loop over the lines of [/sse].  [float_ok d]: [float(d)] returns
    (it raises ValueError otherwise); [request s]: the [tools/call]
    request starting the task on session [s] returns (its exceptions
    propagate). *)
Fixpoint notif_loop (float_ok : string -> bool) (request : string -> bool)
    (lines : list string) (kind : stream_end)
    (session_id : option string) (task_started : bool) (event_count : nat) : notif_outcome :=
  match lines with
  | [] =>
    match kind with
    | Closed => NotifReturned session_id event_count
    | ReadTimedOut | Failed => NotifRaised session_id event_count
    end
  | line :: rest =>
    if String.prefix "data: " line then
      let data := py_strip (py_slice_from 6 line) in
      let sid_truthy := match session_id with Some s => negb (String.eqb s "") | None => false end in
      if negb sid_truthy && float_ok data then
        (if request data then notif_loop float_ok request rest kind (Some data) true event_count
         else NotifRaised (Some data) event_count)
      else if task_started then
        match json_loads data with
        | Some msg =>
          match is_progress_notification msg with
          | Some true =>
            match params_status_completed msg with
            | Some true => NotifReturned session_id (S event_count)
            | _ => notif_loop float_ok request rest kind session_id task_started (S event_count)
            end
          | _ => notif_loop float_ok request rest kind session_id task_started event_count
          end
        | None => notif_loop float_ok request rest kind session_id task_started event_count
        end
      else notif_loop float_ok request rest kind session_id task_started event_count
    else notif_loop float_ok request rest kind session_id task_started event_count
  end.

(** Whether a request returns on the client: the server answers it
    (an error response is still a 200), or fails with a 500. *)
Definition answered (o : rpc_outcome) : bool :=
  match o with Respond _ _ => true | Crash => false end.

(** The seconds a task sleeps in all. *)
Definition task_slept (effs : list task_effect) : Q :=
  fold_right (fun e acc => match e with TaskSleep s => s + acc | TaskPut _ _ => acc end) 0 effs.

(** A handler's error answer comes with no effect, with code -32601 or -32602. *)
Definition error_answer_ok (r : list srv_effect * option rpc_body) : Prop :=
  forall code msg, snd r = Some (RpcError code msg) ->
                   fst r = [] /\ (code = -32601 \/ code = -32602)%Z.

(** [sum(len(m["content"]) for m in history)]; [None] on KeyError. *)
Definition history_chars (history : list (list (list Z * list Z))) : option Z :=
  fold_right (fun m acc => match dict_lookup (cps "content") m, acc with
                           | Some c, Some n => Some (Z.of_nat (List.length c) + n)%Z
                           | _, _ => None
                           end) (Some 0%Z) history.

(** The task [get_task_status] shows after [k] updates of
    [run_background_task], from the pending task. *)
Definition task_after (k : nat) : task :=
  if Nat.eqb k 10 then mkTask (cps "completed") 100 (Some (cps "Task Completed Successfully"))
  else mkTask (cps "pending") (10 * Z.of_nat k) None.

(** The updates [subscribe_to_resource] collects from the lines [ls],
    each with its arrival time, in order. *)
Definition subscribe_updates (loads : string -> option json) (uri : list Z)
    (ls : list (Q * string)) : list (Q * json) :=
  flat_map (fun tl =>
              if String.prefix "data: " (snd tl) then
                match loads (py_strip (py_slice_from 6 (snd tl))) with
                | Some msg => match resource_update uri msg with
                              | Some delta => [(fst tl, delta)]
                              | None => []
                              end
                | None => []
                end
              else []) ls.

(** Float operations of a run that only meets int literals. *)
Definition demo_ops : py_ops :=
  mkPyOps (fun lx => lx) (fun _ _ => false) (fun lx _ _ => lx) (fun _ => 0)
          (fun _ _ _ => None) (fun _ => []).

(** A world where both servers are reachable and every draw is 1/2. *)
Definition demo_world : world := mkWorld (fun _ => 1 # 2) 0 (fun _ => true) [].
(* ================================================================== *)
(** * Theorems *)

(** ** Helper lemmas on the effect layer *)

Lemma Qltb_true x y : Qltb x y = true <-> x < y.
Proof.
  unfold Qltb. rewrite negb_true_iff. split; intro H.
  - apply Qnot_le_lt. intro H'. apply Qle_bool_iff in H'. congruence.
  - destruct (Qle_bool y x) eqn:E; [|reflexivity].
    apply Qle_bool_iff in E. exfalso. apply (Qlt_not_le x y); assumption.
Qed.

Lemma Qltb_false x y : Qltb x y = false <-> y <= x.
Proof.
  unfold Qltb. rewrite negb_false_iff. apply Qle_bool_iff.
Qed.

Lemma bind_ret_r (m : M unit) w : bind m (fun _ => ret tt) w = m w.
Proof.
  unfold bind, ret. destruct (m w) as [[[] | e] w']; reflexivity.
Qed.

(** A simulator whose loss rate is not positive draws nothing and never
    fails; it only sleeps when the latency is positive. *)
Lemma simulate_network_no_loss sim w :
  packet_loss_rate sim <= 0 ->
  simulate_network sim w =
  (if Qltb 0 (latency_ms sim) then sleep (latency_ms sim / 1000) w
   else (Ok tt, w)).
Proof.
  intro H. unfold simulate_network, bind at 1.
  assert (Hb : Qltb 0 (packet_loss_rate sim) = false) by (apply Qltb_false; exact H).
  rewrite Hb. unfold ret. destruct (Qltb 0 (latency_ms sim)); reflexivity.
Qed.

(** The loss branch of [simulate_network], for any continuation. *)
Lemma simulate_network_lost (sim : NetworkSimulator) (w : world)
    {B} (k : unit -> M B) :
  0 < packet_loss_rate sim ->
  rng w (drawn w) < packet_loss_rate sim ->
  bind (simulate_network sim) k w =
  (Exc SimulatedPacketLoss,
   mkWorld (rng w) (S (drawn w)) (up w)
           (trace w ++ [Sleep (latency_ms sim / 1000)])).
Proof.
  intros Hpos Hr.
  apply Qltb_true in Hpos. apply Qltb_true in Hr.
  unfold simulate_network, bind, random, ret, sleep, emit, raise; simpl.
  rewrite Hpos; simpl. rewrite Hr. reflexivity.
Qed.

Lemma total_sleep_app (a b : list event) :
  total_sleep (a ++ b) == total_sleep a + total_sleep b.
Proof.
  induction a as [|[s|ep p|l] a IH]; simpl.
  - rewrite Qplus_0_l. reflexivity.
  - rewrite IH. apply Qplus_assoc.
  - exact IH.
  - exact IH.
Qed.

(** ** NetworkSimulator *)

(** C1: when the loss draw triggers, [simulate_network] first sleeps
    [latency_ms / 1000] seconds and then raises the simulated packet loss;
    whatever the caller was about to do next (here any continuation [k],
    e.g. the POST of [_send_request_async]) is not run, so the only effect
    recorded is the sleep. *)
Theorem simulate_network_drop_pays_latency (sim : NetworkSimulator) (w : world)
    {B} (k : unit -> M B) :
  0 < packet_loss_rate sim ->
  rng w (drawn w) < packet_loss_rate sim ->
  bind (simulate_network sim) k w =
  (Exc SimulatedPacketLoss,
   mkWorld (rng w) (S (drawn w)) (up w)
           (trace w ++ [Sleep (latency_ms sim / 1000)])).
Proof.
  intros Hpos Hr. apply simulate_network_lost; assumption.
Qed.

Lemma simulate_network_drop_pays_latency_witness :
  let sim := mkSim 50 (1 # 2) 0 in
  let w := mkWorld (fun _ => 1 # 4) 0 (fun _ => true) [] in
  (0 < packet_loss_rate sim /\ rng w (drawn w) < packet_loss_rate sim) /\
  bind (simulate_network sim) (fun _ => send_request_async sim) w =
  (Exc SimulatedPacketLoss,
   mkWorld (rng w) (S (drawn w)) (up w) (trace w ++ [Sleep (latency_ms sim / 1000)])).
Proof.
  simpl. split.
  - split; vm_compute; reflexivity.
  - apply (simulate_network_drop_pays_latency (mkSim 50 (1 # 2) 0)
             (mkWorld (fun _ => 1 # 4) 0 (fun _ => true) []));
      vm_compute; reflexivity.
Defined.

(** C2: with a loss rate of exactly 0, any number of successive
    [simulate_network] calls succeeds and draws no random value at all. *)
Theorem simulate_network_zero_loss_never_drops (sim : NetworkSimulator) :
  packet_loss_rate sim == 0 ->
  forall (n : nat) (w : world),
    fst (trials n (simulate_network sim) w) = Ok tt /\
    drawn (snd (trials n (simulate_network sim) w)) = drawn w.
Proof.
  intros H0 n. induction n as [|n IH]; intro w; [split; reflexivity|].
  simpl.
  assert (E : exists w', (simulate_network sim ;; trials n (simulate_network sim)) w
                         = trials n (simulate_network sim) w' /\ drawn w' = drawn w).
  { unfold bind at 1.
    rewrite simulate_network_no_loss by (rewrite H0; apply Qle_refl).
    destruct (Qltb 0 (latency_ms sim)); eexists; split; reflexivity. }
  destruct E as [w' [-> Hd]]. rewrite <- Hd. apply IH.
Qed.

Lemma simulate_network_zero_loss_never_drops_witness :
  packet_loss_rate (mkSim 50 0 0) == 0 /\
  fst (trials 3 (simulate_network (mkSim 50 0 0))
              (mkWorld (fun _ => 0) 0 (fun _ => true) [])) = Ok tt /\
  drawn (snd (trials 3 (simulate_network (mkSim 50 0 0))
                     (mkWorld (fun _ => 0) 0 (fun _ => true) []))) = 0%nat.
Proof.
  split; [reflexivity|].
  apply (simulate_network_zero_loss_never_drops (mkSim 50 0 0)); reflexivity.
Defined.

(** C3: with a bandwidth of 0, [simulate_transfer n] behaves exactly as
    [simulate_network] (same result, same draws, same sleeps) for every
    byte count: the division branch is never reached. *)
Theorem simulate_transfer_unlimited_bandwidth (sim : NetworkSimulator) :
  bandwidth_mbps sim == 0 ->
  forall (n : Z) (w : world), (0 <= n)%Z ->
    simulate_transfer sim n w = simulate_network sim w.
Proof.
  intros H0 n w _. unfold simulate_transfer.
  assert (Hb : Qltb 0 (bandwidth_mbps sim) = false)
    by (apply Qltb_false; rewrite H0; apply Qle_refl).
  rewrite Hb. apply bind_ret_r.
Qed.

Lemma simulate_transfer_unlimited_bandwidth_witness :
  (bandwidth_mbps (mkSim 50 0 0) == 0 /\ (0 <= 1000)%Z) /\
  simulate_transfer (mkSim 50 0 0) 1000 (mkWorld (fun _ => 0) 0 (fun _ => true) []) =
  simulate_network (mkSim 50 0 0) (mkWorld (fun _ => 0) 0 (fun _ => true) []).
Proof.
  split; [split; [reflexivity | lia]|].
  apply (simulate_transfer_unlimited_bandwidth (mkSim 50 0 0)); [reflexivity | lia].
Defined.

(** C4 (amended): with a positive bandwidth, [simulate_transfer n] first
    runs [simulate_network]; if that raises, the transfer raises with
    nothing more done, and otherwise it sleeps exactly
    [(n * 8) / (bandwidth_mbps * 1_000_000)] further seconds. *)
Theorem simulate_transfer_bandwidth_delay (sim : NetworkSimulator) :
  0 < bandwidth_mbps sim ->
  forall (n : Z) (w : world),
    simulate_transfer sim n w =
    match simulate_network sim w with
    | (Ok _, w') =>
        (Ok tt, mkWorld (rng w') (drawn w') (up w')
                  (trace w' ++ [Sleep (inject_Z (n * 8) / (bandwidth_mbps sim * 1000000))]))
    | (Exc e, w') => (Exc e, w')
    end.
Proof.
  intros Hbw n w. apply Qltb_true in Hbw.
  unfold simulate_transfer, bind at 1.
  destruct (simulate_network sim w) as [[[] | e] w']; [|reflexivity].
  rewrite Hbw. reflexivity.
Qed.

Lemma simulate_transfer_bandwidth_delay_witness :
  0 < bandwidth_mbps (mkSim 0 0 8) /\
  simulate_transfer (mkSim 0 0 8) 100 (mkWorld (fun _ => 0) 0 (fun _ => true) []) =
  (Ok tt, mkWorld (fun _ => 0) 0 (fun _ => true) [Sleep (inject_Z (100 * 8) / (8 * 1000000))]).
Proof.
  split; [reflexivity|].
  rewrite (simulate_transfer_bandwidth_delay (mkSim 0 0 8)) by reflexivity.
  reflexivity.
Defined.

(** C4 (counterexample): at 8 Mbps a 100-byte transfer sleeps
    800 / 8_000_000 = 0.0001 s beyond the link delay, not 100 s. *)
Lemma simulate_transfer_8mbps_100_bytes_not_100s :
  let sim := mkSim 0 0 8 in
  let w := mkWorld (fun _ => 0) 0 (fun _ => true) [] in
  fst (simulate_transfer sim 100 w) = Ok tt /\
  total_sleep (trace (snd (simulate_network sim w))) == 0 /\
  total_sleep (trace (snd (simulate_transfer sim 100 w))) == 1 # 10000 /\
  ~ (total_sleep (trace (snd (simulate_transfer sim 100 w)))
     - total_sleep (trace (snd (simulate_network sim w))) == 100).
Proof.
  vm_compute. split; [reflexivity|]. split; [reflexivity|].
  split; [reflexivity|]. discriminate.
Qed.

(** C9: with a loss rate of 1, [simulate_network] raises the simulated
    packet loss for every draw [r] in [[0, 1)]. *)
Theorem simulate_network_full_loss_always_drops (sim : NetworkSimulator) (w : world) :
  packet_loss_rate sim == 1 ->
  0 <= rng w (drawn w) < 1 ->
  fst (simulate_network sim w) = Exc SimulatedPacketLoss.
Proof.
  intros H1 [_ Hr].
  rewrite <- bind_ret_r.
  rewrite simulate_network_lost; [reflexivity | rewrite H1; reflexivity | rewrite H1; exact Hr].
Qed.

Lemma simulate_network_full_loss_always_drops_witness :
  (packet_loss_rate (mkSim 100 1 0) == 1 /\
   0 <= rng (mkWorld (fun _ => 99 # 100) 0 (fun _ => true) [])
          (drawn (mkWorld (fun _ => 99 # 100) 0 (fun _ => true) [])) < 1) /\
  fst (simulate_network (mkSim 100 1 0) (mkWorld (fun _ => 99 # 100) 0 (fun _ => true) []))
  = Exc SimulatedPacketLoss.
Proof.
  split; [split; [reflexivity | split; vm_compute; [discriminate | reflexivity]]|].
  apply simulate_network_full_loss_always_drops;
    [reflexivity | split; vm_compute; [discriminate | reflexivity]].
Defined.

(** ** SSE consumption *)

(** One in-budget line of [listen_loop] that is not a terminal event: the
    loop goes on with the events decoded from it appended. *)
Lemma listen_loop_step loads start duration t line rest tend kind evs :
  t - start <= duration ->
  is_terminal loads line = false ->
  listen_loop loads start duration ((t, line) :: rest) tend kind evs =
  listen_loop loads start duration rest tend kind
              (app evs (parsed_events loads [(t, line)])).
Proof.
  intros Ht Hterm. cbn [listen_loop].
  assert (Hb : Qltb duration (t - start) = false) by (apply Qltb_false; exact Ht).
  rewrite Hb. unfold is_terminal, data_payload in Hterm.
  unfold parsed_events, data_payload. cbn [flat_map snd].
  destruct (String.prefix "data: " line).
  - destruct (loads (py_slice_from 6 line)) as [m|].
    + destruct (params_status_completed m) as [[|]|]; [discriminate | |];
        rewrite app_nil_r; reflexivity.
    + rewrite !app_nil_r. reflexivity.
  - rewrite !app_nil_r. reflexivity.
Qed.

(** [listen_loop] raises only when the stream itself fails. *)
Lemma listen_loop_raised_only_failed loads start duration ls tend kind evs t' :
  listen_loop loads start duration ls tend kind evs = Raised t' -> kind = Failed.
Proof.
  revert evs. induction ls as [|[t line] rest IH]; intros evs H; cbn [listen_loop] in H.
  - destruct kind; [discriminate | discriminate | reflexivity].
  - destruct (Qltb duration (t - start)); [discriminate|].
    destruct (String.prefix "data: " line); [|exact (IH _ H)].
    destruct (loads (py_slice_from 6 line)) as [m|]; [|exact (IH _ H)].
    destruct (params_status_completed m) as [[|]|]; [discriminate | exact (IH _ H) | exact (IH _ H)].
Qed.

Lemma parsed_events_app loads a b :
  parsed_events loads (a ++ b) = app (parsed_events loads a) (parsed_events loads b).
Proof. unfold parsed_events. apply flat_map_app. Qed.

Lemma parsed_events_cons loads x l :
  parsed_events loads (x :: l) = app (parsed_events loads [x]) (parsed_events loads l).
Proof. unfold parsed_events. cbn [flat_map]. rewrite app_nil_r. reflexivity. Qed.

(** The loop up to and including a terminal event. *)
Lemma listen_loop_until_terminal loads start duration pre t line rest tend kind evs :
  forallb (fun tl => Qle_bool (fst tl - start) duration
                     && negb (is_terminal loads (snd tl))) pre = true ->
  t - start <= duration ->
  is_terminal loads line = true ->
  listen_loop loads start duration (pre ++ (t, line) :: rest) tend kind evs =
  Returned (app evs (parsed_events loads (pre ++ [(t, line)]))) t.
Proof.
  revert evs. induction pre as [|[t0 l0] pre IH]; intros evs Hpre Ht Hterm.
  - cbn [app listen_loop].
    assert (Hb : Qltb duration (t - start) = false) by (apply Qltb_false; exact Ht).
    rewrite Hb. unfold is_terminal, data_payload in Hterm.
    unfold parsed_events, data_payload. cbn [flat_map snd app].
    destruct (String.prefix "data: " line); [|discriminate].
    destruct (loads (py_slice_from 6 line)) as [m|]; [|discriminate].
    destruct (params_status_completed m) as [[|]|]; try discriminate.
    reflexivity.
  - simpl in Hpre. apply andb_true_iff in Hpre as [H0 Hpre].
    apply andb_true_iff in H0 as [Hle Hnt]. apply Qle_bool_iff in Hle.
    apply negb_true_iff in Hnt.
    simpl app at 1. rewrite listen_loop_step by assumption.
    rewrite IH by assumption.
    change (app ((t0, l0) :: pre) [(t, line)]) with ((t0, l0) :: app pre [(t, line)]).
    rewrite (parsed_events_cons loads (t0, l0) (app pre [(t, line)])), app_assoc.
    reflexivity.
Qed.

(** Removing a malformed in-budget data line from a stream. *)
Lemma listen_loop_skip_malformed loads start duration pre t line rest tend kind evs :
  t - start <= duration ->
  String.prefix "data: " line = true ->
  loads (py_slice_from 6 line) = None ->
  listen_loop loads start duration (pre ++ (t, line) :: rest) tend kind evs =
  listen_loop loads start duration (pre ++ rest) tend kind evs.
Proof.
  intros Ht Hd Hl. revert evs. induction pre as [|[t0 l0] pre IH]; intro evs.
  - cbn [app listen_loop].
    assert (Hb : Qltb duration (t - start) = false) by (apply Qltb_false; exact Ht).
    rewrite Hb, Hd, Hl. reflexivity.
  - cbn [app listen_loop]. destruct (Qltb duration (t0 - start)); [reflexivity|].
    destruct (String.prefix "data: " l0); [|apply IH].
    destruct (loads (py_slice_from 6 l0)) as [m|]; [|apply IH].
    destruct (params_status_completed m) as [[|]|]; [reflexivity | apply IH | apply IH].
Qed.

(** The loop up to the first line past the budget. *)
Lemma listen_loop_over_budget loads start duration pre t line rest tend kind evs :
  forallb (fun tl => Qle_bool (fst tl - start) duration
                     && negb (is_terminal loads (snd tl))) pre = true ->
  duration < t - start ->
  listen_loop loads start duration (pre ++ (t, line) :: rest) tend kind evs =
  Returned (app evs (parsed_events loads pre)) t.
Proof.
  revert evs. induction pre as [|[t0 l0] pre IH]; intros evs Hpre Ht.
  - cbn [app listen_loop].
    assert (Hb : Qltb duration (t - start) = true) by (apply Qltb_true; exact Ht).
    rewrite Hb. unfold parsed_events. cbn [flat_map]. rewrite app_nil_r. reflexivity.
  - simpl in Hpre. apply andb_true_iff in Hpre as [H0 Hpre].
    apply andb_true_iff in H0 as [Hle Hnt]. apply Qle_bool_iff in Hle.
    apply negb_true_iff in Hnt.
    simpl app at 1. rewrite listen_loop_step by assumption.
    rewrite IH by assumption.
    rewrite (parsed_events_cons loads (t0, l0) pre), app_assoc.
    reflexivity.
Qed.

(** The loop on a stream without terminal event that does not fail: it
    returns what it decoded within the budget, at [first_over]. *)
Lemma listen_loop_no_terminal loads start duration ls tend kind :
  kind <> Failed ->
  forallb (fun tl => negb (is_terminal loads (snd tl))) ls = true ->
  forall evs,
  listen_loop loads start duration ls tend kind evs
  = Returned (app evs (parsed_events loads (within_budget start duration ls)))
             (first_over start duration ls tend).
Proof.
  intros Hk. induction ls as [|[t line] rest IH]; intros Hnt evs.
  - cbn [listen_loop within_budget first_over]. unfold parsed_events. cbn [flat_map].
    rewrite app_nil_r. destruct kind; [reflexivity | reflexivity | congruence].
  - simpl in Hnt. apply andb_true_iff in Hnt as [Hnt0 Hnt].
    apply negb_true_iff in Hnt0.
    destruct (Qltb duration (t - start)) eqn:Eb.
    + cbn [listen_loop within_budget first_over]. rewrite Eb. unfold parsed_events.
      cbn [flat_map]. rewrite app_nil_r. reflexivity.
    + apply Qltb_false in Eb as Eb'.
      rewrite listen_loop_step by assumption. rewrite (IH Hnt).
      cbn [within_budget first_over]. rewrite Eb.
      rewrite (parsed_events_cons loads (t, line) (within_budget start duration rest)), app_assoc.
      reflexivity.
Qed.

(** On a stream without terminal event that fails while every line is
    within the budget, the loop raises at the failure. *)
Lemma listen_loop_failed loads start duration ls tend evs :
  forallb (fun tl => negb (is_terminal loads (snd tl))) ls = true ->
  within_budget start duration ls = ls ->
  listen_loop loads start duration ls tend Failed evs = Raised tend.
Proof.
  revert evs. induction ls as [|[t line] rest IH]; intros evs Hnt Hw; [reflexivity|].
  simpl in Hnt. apply andb_true_iff in Hnt as [Hnt0 Hnt].
  apply negb_true_iff in Hnt0.
  cbn [within_budget] in Hw. destruct (Qltb duration (t - start)) eqn:Eb; [discriminate|].
  injection Hw as Hw. apply Qltb_false in Eb.
  rewrite listen_loop_step by assumption. apply IH; assumption.
Qed.

(** With gaps of at most [g], the first line past the budget (or the end)
    comes within [duration + g] of the start. *)
Lemma first_over_gaps start duration g ls tend :
  forall prev,
  prev - start <= duration ->
  gaps_within g prev ls tend = true ->
  first_over start duration ls tend <= start + duration + g.
Proof.
  induction ls as [|[t line] rest IH]; intros prev Hprev Hg.
  - simpl in Hg. apply andb_true_iff in Hg as [_ H2]. apply Qle_bool_iff in H2.
    cbn [first_over]. lra.
  - simpl in Hg. apply andb_true_iff in Hg as [Hg Hrest].
    apply andb_true_iff in Hg as [_ H2]. apply Qle_bool_iff in H2.
    cbn [first_over]. destruct (Qltb duration (t - start)) eqn:Eb; [lra|].
    apply Qltb_false in Eb. exact (IH t Eb Hrest).
Qed.

(** C5 (amended): [listen_for_events] is bounded by its duration budget
    as well as by the terminal event (params.status completed).  Take the
    lines [pre] that arrive within the budget and carry no terminal event,
    and the line after them.  If that line is a terminal event arriving
    within the budget, the call returns the events decoded up to and
    including it; if it arrives after the budget, the call returns only
    the events decoded from [pre].  In both cases at that line's arrival,
    whatever lines follow and however the stream would end. *)
Theorem listen_for_events_stops_at_terminal (loads : string -> option json)
    (duration start : Q) (pre : list (Q * string)) (t : Q) (line : string)
    (rest : list (Q * string)) (tend : Q) (kind : stream_end) :
  forallb (fun tl => Qle_bool (fst tl - start) duration
                     && negb (is_terminal loads (snd tl))) pre = true ->
  (t - start <= duration ->
   is_terminal loads line = true ->
   listen_for_events loads duration start (mkStream (pre ++ (t, line) :: rest) tend kind)
   = Returned (parsed_events loads (pre ++ [(t, line)])) t)
  /\ (duration < t - start ->
      listen_for_events loads duration start (mkStream (pre ++ (t, line) :: rest) tend kind)
      = Returned (parsed_events loads pre) t).
Proof.
  intros Hpre. unfold listen_for_events. cbn [arrivals end_time end_kind]. split.
  - intros Ht Hterm.
    exact (listen_loop_until_terminal loads start duration pre t line rest tend kind []
             Hpre Ht Hterm).
  - intros Ht.
    exact (listen_loop_over_budget loads start duration pre t line rest tend kind []
             Hpre Ht).
Qed.

Lemma listen_for_events_stops_at_terminal_witness :
  forallb (fun tl => Qle_bool (fst tl - 0) 5 && negb (is_terminal json_loads (snd tl)))
          scripted_progress = true /\
  (3 - 0 <= 5 /\ is_terminal json_loads completion_line = true /\
   listen_for_events json_loads 5 0
     (mkStream (scripted_progress ++ (3, completion_line) :: queued_after) 10 Closed)
   = Returned (parsed_events json_loads (scripted_progress ++ [(3, completion_line)])) 3) /\
  (5 < 6 - 0 /\
   listen_for_events json_loads 5 0
     (mkStream (scripted_progress ++ (6, completion_line) :: queued_after) 10 Failed)
   = Returned (parsed_events json_loads scripted_progress) 6).
Proof.
  assert (Hpre : forallb (fun tl => Qle_bool (fst tl - 0) 5
                                    && negb (is_terminal json_loads (snd tl)))
                         scripted_progress = true) by (vm_compute; reflexivity).
  assert (H1 : 3 - 0 <= 5) by (apply Qle_bool_iff; reflexivity).
  assert (H2 : is_terminal json_loads completion_line = true) by (vm_compute; reflexivity).
  assert (H3 : 5 < 6 - 0) by (apply Qlt_alt; reflexivity).
  split; [exact Hpre|split; [split; [exact H1|split; [exact H2|]]|split; [exact H3|]]].
  - exact (proj1 (listen_for_events_stops_at_terminal json_loads 5 0 scripted_progress 3
                    completion_line queued_after 10 Closed Hpre) H1 H2).
  - exact (proj2 (listen_for_events_stops_at_terminal json_loads 5 0 scripted_progress 6
                    completion_line queued_after 10 Failed Hpre) H3).
Defined.

(** C5 (counterexample): the duration budget (5 s) also bounds the
    consumption; when the completion event arrives after it, the call
    returns the two progress events only, without the terminal one. *)
Lemma listen_for_events_terminal_after_budget :
  is_terminal json_loads completion_line = true /\
  listen_for_events json_loads 5 0
    (mkStream (scripted_progress ++ [(6, completion_line)]) 10 Closed)
  = Returned (parsed_events json_loads scripted_progress) 6.
Proof.
  split; vm_compute; reflexivity.
Qed.

(** C6: a data line whose payload does not decode, met within the
    budget, is skipped: the call does exactly what it does on the stream
    without that line (nothing appended, consumption not ended), and the
    call raises only when the stream itself fails. *)
Theorem listen_for_events_skips_malformed (loads : string -> option json)
    (duration start : Q) (pre : list (Q * string)) (t : Q) (line : string)
    (rest : list (Q * string)) (tend : Q) (kind : stream_end) :
  t - start <= duration ->
  String.prefix "data: " line = true ->
  loads (py_slice_from 6 line) = None ->
  listen_for_events loads duration start (mkStream (pre ++ (t, line) :: rest) tend kind)
  = listen_for_events loads duration start (mkStream (pre ++ rest) tend kind)
  /\ (forall t', listen_for_events loads duration start
                   (mkStream (pre ++ (t, line) :: rest) tend kind) = Raised t' ->
                 kind = Failed).
Proof.
  intros Ht Hd Hl. unfold listen_for_events. cbn [arrivals end_time end_kind]. split.
  - apply listen_loop_skip_malformed; assumption.
  - intros t'. apply listen_loop_raised_only_failed.
Qed.

Lemma listen_for_events_skips_malformed_witness :
  (3 - 0 <= 5 /\ String.prefix "data: " "data: {not json" = true /\
   json_loads (py_slice_from 6 "data: {not json") = None) /\
  listen_for_events json_loads 5 0
    (mkStream (scripted_progress ++ (3, "data: {not json") :: [(4, completion_line)]) 10 Closed)
  = listen_for_events json_loads 5 0
    (mkStream (scripted_progress ++ [(4, completion_line)]) 10 Closed).
Proof.
  split.
  - split; [apply Qle_bool_iff; reflexivity|]. split; vm_compute; reflexivity.
  - apply (listen_for_events_skips_malformed json_loads 5 0 scripted_progress 3
             "data: {not json" [(4, completion_line)] 10 Closed);
      [apply Qle_bool_iff; reflexivity | reflexivity | vm_compute; reflexivity].
Defined.

(** C7 (amended): on a stream that carries no terminal event, for every
    duration budget:
    - if the stream closes or ends in a read timeout, [listen_for_events]
      never raises; it returns the events decoded from the lines seen
      before the budget ran out (possibly none), at the arrival of the
      first line past the budget or else at the end of the stream (the
      budget is checked only when a line arrives);
    - that time is within [duration + g] of the start when no two
      successive arrivals (from the start to the end of the stream) are
      more than [g] apart;
    - if the stream fails with another transport error while every line
      is within the budget, the error propagates. *)
Theorem listen_for_events_duration_bound (loads : string -> option json)
    (duration start g : Q) (st : sse_stream) :
  0 <= duration ->
  forallb (fun tl => negb (is_terminal loads (snd tl))) (arrivals st) = true ->
  (end_kind st <> Failed ->
   listen_for_events loads duration start st
   = Returned (parsed_events loads (within_budget start duration (arrivals st)))
              (first_over start duration (arrivals st) (end_time st)))
  /\ (gaps_within g start (arrivals st) (end_time st) = true ->
      first_over start duration (arrivals st) (end_time st) <= start + duration + g)
  /\ (end_kind st = Failed ->
      within_budget start duration (arrivals st) = arrivals st ->
      listen_for_events loads duration start st = Raised (end_time st)).
Proof.
  intros Hd Hnt. unfold listen_for_events. split; [|split].
  - intros Hk. exact (listen_loop_no_terminal loads start duration (arrivals st) (end_time st)
                        (end_kind st) Hk Hnt []).
  - intros Hg. apply (first_over_gaps start duration g (arrivals st) (end_time st) start);
      [|exact Hg].
    setoid_replace (start - start) with 0 by ring. exact Hd.
  - intros Hk Hw. rewrite Hk. exact (listen_loop_failed loads start duration (arrivals st)
                                       (end_time st) [] Hnt Hw).
Qed.

Lemma listen_for_events_duration_bound_witness :
  0 <= 5 /\
  forallb (fun tl => negb (is_terminal json_loads (snd tl))) ticker_arrivals = true /\
  (end_kind (mkStream ticker_arrivals 8 Closed) <> Failed /\
   listen_for_events json_loads 5 0 (mkStream ticker_arrivals 8 Closed)
   = Returned (parsed_events json_loads (within_budget 0 5 ticker_arrivals))
              (first_over 0 5 ticker_arrivals 8)) /\
  (gaps_within 1 0 ticker_arrivals 8 = true /\ first_over 0 5 ticker_arrivals 8 <= 0 + 5 + 1) /\
  (end_kind (mkStream [(1, ticker_line "101.23" "1700000000.5")] 2 Failed) = Failed /\
   within_budget 0 5 [(1, ticker_line "101.23" "1700000000.5")]
     = [(1, ticker_line "101.23" "1700000000.5")] /\
   listen_for_events json_loads 5 0 (mkStream [(1, ticker_line "101.23" "1700000000.5")] 2 Failed)
   = Raised 2).
Proof.
  assert (Hd : 0 <= 5) by (apply Qle_bool_iff; reflexivity).
  assert (Hnt : forallb (fun tl => negb (is_terminal json_loads (snd tl))) ticker_arrivals = true)
    by (vm_compute; reflexivity).
  assert (Hnt2 : forallb (fun tl => negb (is_terminal json_loads (snd tl)))
                   [(1, ticker_line "101.23" "1700000000.5")] = true)
    by (vm_compute; reflexivity).
  assert (Hk : end_kind (mkStream ticker_arrivals 8 Closed) <> Failed) by discriminate.
  assert (Hg : gaps_within 1 0 ticker_arrivals 8 = true) by (vm_compute; reflexivity).
  assert (Hf : end_kind (mkStream [(1, ticker_line "101.23" "1700000000.5")] 2 Failed) = Failed)
    by reflexivity.
  assert (Hw : within_budget 0 5 [(1, ticker_line "101.23" "1700000000.5")]
                 = [(1, ticker_line "101.23" "1700000000.5")]) by (vm_compute; reflexivity).
  destruct (listen_for_events_duration_bound json_loads 5 0 1 (mkStream ticker_arrivals 8 Closed)
              Hd Hnt) as (P1 & P2 & _).
  destruct (listen_for_events_duration_bound json_loads 5 0 1
              (mkStream [(1, ticker_line "101.23" "1700000000.5")] 2 Failed) Hd Hnt2)
    as (_ & _ & P3).
  split; [exact Hd|split; [exact Hnt|split; [split; [exact Hk|exact (P1 Hk)]|split]]].
  - split; [exact Hg|exact (P2 Hg)].
  - split; [exact Hf|split; [exact Hw|exact (P3 Hf Hw)]].
Defined.

(** C7 (counterexample): one push at 0.5 s, then silence until the
    client's 30 s read timeout: with a 5 s budget the call returns only at
    30.5 s, more than 25 s past the budget.  And a stream that breaks with
    another transport error (not [httpx.ReadTimeout]) makes the call raise. *)
Lemma listen_for_events_silent_stream_overruns_budget :
  listen_for_events json_loads 5 0
    (mkStream [(1 # 2, ticker_line "101.23" "1700000000.5")] (61 # 2) ReadTimedOut)
  = Returned (parsed_events json_loads [(1 # 2, ticker_line "101.23" "1700000000.5")]) (61 # 2)
  /\ 5 + 25 < 61 # 2
  /\ listen_for_events json_loads 5 0
       (mkStream [(1 # 2, ticker_line "101.23" "1700000000.5")] 1 Failed) = Raised 1.
Proof.
  split; [vm_compute; reflexivity|]. split; vm_compute; reflexivity.
Qed.

(** C10: [connect_sse] returns a session id only as the stripped payload
    of a data line that does not decode as JSON; on a stream all of whose
    data lines decode it never returns one. *)
Theorem connect_sse_session_only_from_undecodable (loads : string -> option json)
    (lines : list string) :
  (forall sid, connect_sse loads lines = Some sid ->
     exists line, In line lines /\ String.prefix "data: " line = true /\
                  loads (py_slice_from 6 line) = None /\
                  sid = py_strip (py_slice_from 6 line))
  /\ ((forall line, In line lines -> String.prefix "data: " line = true ->
                    loads (py_slice_from 6 line) <> None) ->
      connect_sse loads lines = None).
Proof.
  induction lines as [|line rest [IH1 IH2]]; cbn [connect_sse]; split.
  - discriminate.
  - reflexivity.
  - intros sid H.
    destruct (String.prefix "event: connection" line).
    + destruct (IH1 sid H) as [l [Hin Hl]]. exists l. split; [right; exact Hin | exact Hl].
    + destruct (String.prefix "data: " line) eqn:Ed.
      * destruct (loads (py_slice_from 6 line)) eqn:El.
        -- destruct (IH1 sid H) as [l [Hin Hl]]. exists l. split; [right; exact Hin | exact Hl].
        -- injection H as <-. exists line. split; [left; reflexivity|]. auto.
      * destruct (IH1 sid H) as [l [Hin Hl]]. exists l. split; [right; exact Hin | exact Hl].
  - intros Hall.
    assert (Hrest : connect_sse loads rest = None)
      by (apply IH2; intros l Hin; apply Hall; right; exact Hin).
    destruct (String.prefix "event: connection" line); [exact Hrest|].
    destruct (String.prefix "data: " line) eqn:Ed; [|exact Hrest].
    destruct (loads (py_slice_from 6 line)) eqn:El; [exact Hrest|].
    exfalso. exact (Hall line (or_introl eq_refl) Ed El).
Qed.

(** The bundled server's stream: its connection event carries
    [str(time.time())], which [json.loads] decodes as a number, so
    [connect_sse] skips it and finds no session id. *)
Example connect_sse_bundled_server_stream :
  json_loads "1700000000.123" = Some (JNum (list_ascii_of_string "1700000000.123")) /\
  connect_sse json_loads
    (connection_lines "1700000000.123" ++ [ticker_line "101.23" "1700000000.5"; ""]) = None.
Proof.
  split; vm_compute; reflexivity.
Qed.

(** ** Benchmark batch *)

(** C8 (divergence): with the REST server unreachable and the MCP server
    up, the first bench ([bench_multi_turn_chat], a [try/finally] without
    [except]) lets [httpx.ConnectError] escape, so [run_all_benchmarks]
    raises and none of the six other scenarios runs (only the first
    [Benchmarking:] line is printed).  Its sibling benches isolate the same
    failure: [bench_stock_ticker] reports it and returns, and
    [bench_network_instability] reports a 0 % success rate. *)
Theorem run_all_benchmarks_rest_unreachable (task_polls ticker_polls : nat) :
  let w := mkWorld (fun _ => 1 # 2) 0
             (fun ep => match ep with RestServer => false | McpServer => true end) [] in
  fst (run_all_benchmarks task_polls ticker_polls w) = Exc (ConnectError RestServer) /\
  printed (trace (snd (run_all_benchmarks task_polls ticker_polls w)))
    = ["Benchmarking: Multi-turn Chat"] /\
  fst (bench_stock_ticker ticker_polls w) = Ok [] /\
  printed (trace (snd (bench_stock_ticker ticker_polls w)))
    = ["Benchmarking: Stock Ticker (Polling vs Subscription)"; "Stock ticker bench failed"] /\
  fst (bench_network_instability 100 (1 # 10) w)
    = Ok [mkRecord "REST" "Network Instability" (Some (inject_Z 0 / 20 * 100));
          mkRecord "MCP" "Network Instability" (Some (inject_Z 20 / 20 * 100))].
Proof.
  intro w. split; [vm_compute; reflexivity|].
  split; [vm_compute; reflexivity|].
  split; [vm_compute; reflexivity|].
  split; [vm_compute; reflexivity|].
  vm_compute; reflexivity.
Qed.
(** ** JSON text: [json.dumps] read back by [json_loads] *)

Lemma cps_eqb_eq a b : cps_eqb a b = true <-> a = b.
Proof.
  revert b; induction a as [|x a IH]; intros [|y b]; simpl; split; intro H;
    try reflexivity; try discriminate.
  - apply andb_true_iff in H as [H1 H2]. apply Z.eqb_eq in H1. apply IH in H2. congruence.
  - injection H as -> ->. rewrite Z.eqb_refl. simpl. apply IH. reflexivity.
Qed.

Lemma hex_val_hex_char d : (0 <= d < 16)%Z -> hex_val (hex_char d) = Some d.
Proof.
  intro H.
  assert (d = 0 \/ d = 1 \/ d = 2 \/ d = 3 \/ d = 4 \/ d = 5 \/ d = 6 \/ d = 7 \/
          d = 8 \/ d = 9 \/ d = 10 \/ d = 11 \/ d = 12 \/ d = 13 \/ d = 14 \/ d = 15)%Z
    as Hd by lia.
  repeat destruct Hd as [-> | Hd]; try reflexivity; subst; reflexivity.
Qed.

Lemma u_escape_shape n :
  u_escape n = "\"%char :: "u"%char :: skipn 2 (u_escape n).
Proof. reflexivity. Qed.

Lemma hex4_u_escape n R :
  (0 <= n < 65536)%Z -> hex4 (app (skipn 2 (u_escape n)) R) = Some (n, R).
Proof.
  intro Hn. unfold u_escape. cbn [skipn app hex4].
  pose proof (Z.div_mod n 16 ltac:(lia)) as E1.
  pose proof (Z.mod_pos_bound n 16 ltac:(lia)) as B1.
  pose proof (Z.div_mod (n / 16) 16 ltac:(lia)) as E2.
  pose proof (Z.mod_pos_bound (n / 16) 16 ltac:(lia)) as B2.
  pose proof (Z.div_mod (n / 16 / 16) 16 ltac:(lia)) as E3.
  pose proof (Z.mod_pos_bound (n / 16 / 16) 16 ltac:(lia)) as B3.
  assert (B4 : (0 <= n / 16 / 16 / 16 < 16)%Z).
  { split.
    - repeat apply Z.div_pos; lia.
    - repeat rewrite Z.div_div by lia. apply Z.div_lt_upper_bound; lia. }
  rewrite !hex_val_hex_char by lia.
  f_equal. f_equal. lia.
Qed.

Lemma lor_low_bits a x :
  (Z.land a 1023 = 0)%Z -> (0 <= x < 1024)%Z -> Z.lor a x = (a + x)%Z.
Proof.
  intros Ha Hx.
  assert (Hx' : Z.land x 1023 = x).
  { change 1023%Z with (Z.ones 10). rewrite Z.land_ones by lia.
    apply Z.mod_small. change (2 ^ 10)%Z with 1024%Z. lia. }
  assert (H0 : Z.land a x = 0%Z).
  { rewrite <- Hx', (Z.land_comm x 1023), Z.land_assoc, Ha. reflexivity. }
  rewrite <- Z.lxor_lor by exact H0. symmetry. apply Z.add_nocarry_lxor. exact H0.
Qed.

(** One code point: [escape_cp] then the decoder's step give it back. *)
Lemma parse_str_escape_cp c f R acc :
  is_scalar c = true ->
  parse_str (S f) (app (escape_cp c) R) acc = parse_str f R (c :: acc).
Proof.
  intro Hs. unfold is_scalar in Hs.
  apply andb_true_iff in Hs as [Hs Hns]. apply andb_true_iff in Hs as [H0 H1].
  apply Z.leb_le in H0. apply Z.leb_le in H1. apply negb_true_iff in Hns.
  assert (Hsur : ~ (55296 <= c <= 57343)%Z).
  { intros [A B]. apply Z.leb_le in A. apply Z.leb_le in B. rewrite A, B in Hns. discriminate. }
  unfold escape_cp.
  destruct (Z.eqb_spec c 92) as [->|N92]; [reflexivity|].
  destruct (Z.eqb_spec c 34) as [->|N34]; [reflexivity|].
  destruct (Z.eqb_spec c 8) as [->|N8]; [reflexivity|].
  destruct (Z.eqb_spec c 12) as [->|N12]; [reflexivity|].
  destruct (Z.eqb_spec c 10) as [->|N10]; [reflexivity|].
  destruct (Z.eqb_spec c 13) as [->|N13]; [reflexivity|].
  destruct (Z.eqb_spec c 9) as [->|N9]; [reflexivity|].
  destruct ((32 <=? c)%Z && (c <=? 126)%Z) eqn:Hp.
  - apply andb_true_iff in Hp as [Hp1 Hp2]. apply Z.leb_le in Hp1, Hp2.
    set (a := ascii_of_nat (Z.to_nat c)).
    assert (Ha : nat_of_ascii a = Z.to_nat c).
    { unfold a. apply nat_ascii_embedding. lia. }
    cbn [app parse_str].
    assert (Hq : (a =? dquote)%char = false).
    { apply Ascii.eqb_neq. intro E. apply (f_equal nat_of_ascii) in E.
      rewrite Ha in E. unfold dquote in E. rewrite nat_ascii_embedding in E by lia. lia. }
    assert (Hb : (a =? "\")%char = false).
    { apply Ascii.eqb_neq. intro E. apply (f_equal nat_of_ascii) in E.
      rewrite Ha in E. change (nat_of_ascii "\") with 92%nat in E. lia. }
    assert (Hc : (nat_of_ascii a <? 32)%nat = false).
    { apply Nat.ltb_ge. lia. }
    rewrite Hq, Hb, Hc. unfold code. rewrite Ha, Z2Nat.id by lia. reflexivity.
  - destruct (Z.ltb_spec c 65536) as [Hlt|Hge].
    + rewrite u_escape_shape. cbn [app parse_str].
      change (("\" =? dquote)%char) with false.
      change (("\" =? "\")%char) with true.
      change (("u" =? "u")%char) with true. cbv iota beta.
      rewrite hex4_u_escape by lia.
      assert (Hh : ((55296 <=? c)%Z && (c <=? 56319)%Z) = false).
      { destruct (Z.leb_spec 55296 c); destruct (Z.leb_spec c 56319); try reflexivity.
        lia. }
      rewrite Hh. reflexivity.
    + set (n := (c - 65536)%Z).
      assert (Hn : (0 <= n < 1048576)%Z) by (unfold n; lia).
      assert (Hq : (0 <= n / 1024 < 1024)%Z).
      { split; [apply Z.div_pos; lia | apply Z.div_lt_upper_bound; lia]. }
      assert (Hm : (0 <= n mod 1024 < 1024)%Z) by (apply Z.mod_pos_bound; lia).
      assert (E1 : Z.lor 55296 (Z.land (Z.shiftr n 10) 1023) = (55296 + n / 1024)%Z).
      { rewrite Z.shiftr_div_pow2 by lia. change (2 ^ 10)%Z with 1024%Z.
        change 1023%Z with (Z.ones 10). rewrite Z.land_ones by lia.
        change (2 ^ 10)%Z with 1024%Z. rewrite (Z.mod_small (n / 1024)) by lia.
        apply lor_low_bits; [reflexivity | lia]. }
      assert (E2 : Z.lor 56320 (Z.land n 1023) = (56320 + n mod 1024)%Z).
      { change 1023%Z with (Z.ones 10). rewrite Z.land_ones by lia.
        change (2 ^ 10)%Z with 1024%Z.
        apply lor_low_bits; [reflexivity | lia]. }
      cbv zeta. fold n. rewrite E1, E2.
      rewrite u_escape_shape, <- app_assoc. cbn [app parse_str].
      change (("\" =? dquote)%char) with false.
      change (("\" =? "\")%char) with true.
      change (("u" =? "u")%char) with true. cbv iota beta.
      rewrite hex4_u_escape by lia.
      assert (Hh : ((55296 <=? 55296 + n / 1024)%Z && (55296 + n / 1024 <=? 56319)%Z) = true).
      { apply andb_true_iff. split; apply Z.leb_le; lia. }
      rewrite Hh. rewrite (u_escape_shape (56320 + n mod 1024)). cbn [app].
      change (("\" =? "\")%char && ("u" =? "u")%char) with true. cbv iota beta.
      rewrite hex4_u_escape by lia.
      assert (Hl : ((56320 <=? 56320 + n mod 1024)%Z && (56320 + n mod 1024 <=? 57343)%Z) = true).
      { apply andb_true_iff. split; apply Z.leb_le; lia. }
      rewrite Hl. f_equal. f_equal.
      pose proof (Z.div_mod n 1024 ltac:(lia)). unfold n in *. lia.
Qed.

Lemma parse_str_escaped s : forall fuel rest acc,
  forallb is_scalar s = true ->
  (List.length (flat_map escape_cp s) < fuel)%nat ->
  parse_str fuel (app (flat_map escape_cp s) (dquote :: rest)) acc = Some (app (rev acc) s, rest).
Proof.
  induction s as [|c s IH]; intros fuel rest acc Hs Hf.
  - destruct fuel as [|f]; [simpl in Hf; lia|]. cbn [flat_map app parse_str].
    rewrite Ascii.eqb_refl, app_nil_r. reflexivity.
  - simpl in Hs. apply andb_true_iff in Hs as [Hc Hs].
    destruct fuel as [|f]; [simpl in Hf; lia|].
    cbn [flat_map] in *. rewrite <- app_assoc, parse_str_escape_cp by exact Hc.
    rewrite length_app in Hf.
    assert (Hne : (1 <= List.length (escape_cp c))%nat).
    { unfold escape_cp, u_escape. cbv zeta.
      repeat match goal with |- context [if ?b then _ else _] => destruct b end;
        cbn [List.length app]; lia. }
    rewrite IH by (auto || lia). cbn [rev]. rewrite <- app_assoc. reflexivity.
Qed.

Lemma parse_value_dumps_str s f rest :
  forallb is_scalar s = true ->
  parse_value (S f) (app (dumps_str s) rest) = Some (JStr s, rest).
Proof.
  intro Hs. unfold dumps_str. cbn [app parse_value].
  change ((dquote =? dquote)%char) with true. cbv iota beta.
  rewrite <- app_assoc. cbn [app].
  rewrite parse_str_escaped; [reflexivity | exact Hs |].
  rewrite length_app. cbn [List.length]. lia.
Qed.

Lemma uint_chars_digits u : forallb is_digit (uint_chars u) = true.
Proof. induction u; simpl; auto. Qed.

Lemma nzhead_head u :
  match Decimal.nzhead u with Decimal.D0 _ => False | _ => True end.
Proof. induction u; simpl; auto. Qed.

Lemma to_uint_head p :
  exists d ds, uint_chars (Pos.to_uint p) = d :: ds /\ (d =? "0")%char = false
               /\ is_digit d = true /\ (d =? "-")%char = false.
Proof.
  assert (E : Pos.to_uint p = Decimal.unorm (Pos.to_uint p)).
  { rewrite <- DecimalPos.Unsigned.to_of, DecimalPos.Unsigned.of_to. reflexivity. }
  pose proof (DecimalPos.Unsigned.to_uint_nonzero p) as Hz.
  pose proof (DecimalPos.Unsigned.to_uint_nonnil p) as Hn.
  assert (E2 : Pos.to_uint p = Decimal.nzhead (Pos.to_uint p)).
  { unfold Decimal.unorm in E. destruct (Decimal.nzhead (Pos.to_uint p)) eqn:Eh;
      try exact E; exfalso; apply Hz; exact E. }
  pose proof (nzhead_head (Pos.to_uint p)) as Hh. rewrite <- E2 in Hh.
  destruct (Pos.to_uint p) as [|u|u|u|u|u|u|u|u|u|u]; try contradiction;
    eexists; eexists; repeat split; reflexivity.
Qed.

Lemma span_digits_app l rest :
  forallb is_digit l = true ->
  (match rest with [] => True | c :: _ => is_digit c = false end) ->
  span_digits (app l rest) = (l, rest).
Proof.
  intros Hl Hr. induction l as [|c l IH].
  - destruct rest as [|c r]; [reflexivity|]. simpl. rewrite Hr. reflexivity.
  - simpl in Hl. apply andb_true_iff in Hl as [Hc Hl].
    simpl. rewrite Hc, IH by exact Hl. reflexivity.
Qed.

Lemma value_end_not_digit rest :
  value_end rest -> match rest with [] => True | c :: _ => is_digit c = false end.
Proof. destruct rest as [|c r]; [trivial|]. intros [ -> | [ -> | -> ] ]; reflexivity. Qed.

(** The decimal text of an int is read back whole by NUMBER_RE. *)
Lemma parse_number_decimal z rest :
  value_end rest -> parse_number (app (Z_decimal z) rest) = Some (Z_decimal z, rest).
Proof.
  intro He. pose proof (value_end_not_digit rest He) as Hd.
  unfold Z_decimal, Z.to_int. destruct z as [|p|p].
  - unfold parse_number. cbn [uint_chars app].
    (destruct rest as [|c r]; [cbn; rewrite ?app_nil_r; reflexivity|];
       destruct He as [ -> | [ -> | -> ] ]; destruct r; cbn; rewrite ?app_nil_r; reflexivity).
  - destruct (to_uint_head p) as [d [ds [Hu [H0 [Hdig Hm]]]]]. rewrite Hu.
    unfold parse_number. cbn [app]. rewrite Hm, H0, Hdig.
    rewrite span_digits_app.
    + (destruct rest as [|c r]; [cbn; rewrite ?app_nil_r; reflexivity|];
       destruct He as [ -> | [ -> | -> ] ]; destruct r; cbn; rewrite ?app_nil_r; reflexivity).
    + pose proof (uint_chars_digits (Pos.to_uint p)) as Hc.
      rewrite Hu in Hc. simpl in Hc. apply andb_true_iff in Hc. exact (proj2 Hc).
    + exact Hd.
  - destruct (to_uint_head p) as [d [ds [Hu [H0 [Hdig Hm]]]]]. rewrite Hu.
    unfold parse_number. cbn [app].
    change (("-" =? "-")%char) with true. cbv iota beta. rewrite H0, Hdig.
    rewrite span_digits_app.
    + (destruct rest as [|c r]; [cbn; rewrite ?app_nil_r; reflexivity|];
       destruct He as [ -> | [ -> | -> ] ]; destruct r; cbn; rewrite ?app_nil_r; reflexivity).
    + pose proof (uint_chars_digits (Pos.to_uint p)) as Hc.
      rewrite Hu in Hc. simpl in Hc. apply andb_true_iff in Hc. exact (proj2 Hc).
    + exact Hd.
Qed.

Lemma digit_cases c : is_digit c = true ->
  c = "0"%char \/ c = "1"%char \/ c = "2"%char \/ c = "3"%char \/ c = "4"%char \/
  c = "5"%char \/ c = "6"%char \/ c = "7"%char \/ c = "8"%char \/ c = "9"%char.
Proof.
  destruct c as [[] [] [] [] [] [] [] []]; intro H; try discriminate H;
    repeat (first [left; reflexivity | right]); reflexivity.
Qed.

Lemma code_inj a b : code a = code b -> a = b.
Proof.
  unfold code. intro H. apply Nat2Z.inj in H.
  rewrite <- (ascii_nat_embedding a), <- (ascii_nat_embedding b), H. reflexivity.
Qed.

Lemma map_code_inj l1 l2 : map code l1 = map code l2 -> l1 = l2.
Proof.
  revert l2; induction l1 as [|a l1 IH]; intros [|b l2] H; simpl in H;
    try discriminate; [reflexivity|].
  injection H as Hab Hl. f_equal; [apply code_inj | apply IH]; assumption.
Qed.

Lemma dumpable_num lx :
  dumpable (JNum lx) = true -> exists z, int_of_lexeme lx = Some z /\ lx = Z_decimal z.
Proof.
  simpl. destruct (int_of_lexeme lx) as [z|]; [|discriminate].
  intro H. apply cps_eqb_eq, map_code_inj in H. eauto.
Qed.

Lemma Z_decimal_head z :
  exists c r, Z_decimal z = c :: r /\ (c = "-"%char \/ is_digit c = true).
Proof.
  unfold Z_decimal, Z.to_int. destruct z as [|p|p].
  - exists "0"%char, []. split; [reflexivity | right; reflexivity].
  - destruct (to_uint_head p) as [d [ds [Hu [_ [Hd _]]]]]. rewrite Hu. eauto.
  - exists "-"%char, (uint_chars (Pos.to_uint p)). split; [reflexivity | left; reflexivity].
Qed.

Lemma parse_value_number f c r lx r' :
  (c = "-"%char \/ is_digit c = true) ->
  parse_number (c :: r) = Some (lx, r') ->
  parse_value (S f) (c :: r) = Some (JNum lx, r').
Proof.
  intros Hc Hp.
  destruct Hc as [->|Hc]; [|apply digit_cases in Hc];
    repeat destruct Hc as [->|Hc]; try subst c; cbn -[parse_number]; rewrite Hp; reflexivity.
Qed.

Lemma skip_ws_head c r : is_ws c = false -> skip_ws (c :: r) = c :: r.
Proof. intro H. simpl. rewrite H. reflexivity. Qed.

Lemma skip_ws_space r : skip_ws (" "%char :: r) = skip_ws r.
Proof. reflexivity. Qed.

Lemma json_dumps_head F v : dumpable v = true ->
  exists c r, json_dumps F v = c :: r /\ is_ws c = false /\ (c =? "]")%char = false.
Proof.
  intro Hv. destruct v as [|b|lx|s|l|m].
  - eexists; eexists; repeat split; reflexivity.
  - destruct b; eexists; eexists; repeat split; reflexivity.
  - destruct (dumpable_num lx Hv) as [z [Hz ->]]. cbn [json_dumps]. unfold dumps_num.
    rewrite Hz. destruct (Z_decimal_head z) as [c [r [-> Hc]]]. exists c, r. split; [reflexivity|].
    destruct Hc as [->|Hc]; [split; reflexivity|].
    apply digit_cases in Hc. repeat destruct Hc as [->|Hc]; try subst c; split; reflexivity.
  - eexists; eexists; repeat split; reflexivity.
  - eexists; eexists; repeat split; reflexivity.
  - eexists; eexists; repeat split; reflexivity.
Qed.

Lemma dict_lookup_app {A} k (d1 d2 : list (list Z * A)) :
  dict_lookup k (app d1 d2) =
  match dict_lookup k d1 with Some v => Some v | None => dict_lookup k d2 end.
Proof.
  induction d1 as [|[k' v'] d1 IH]; simpl; [reflexivity|].
  destruct (cps_eqb k k'); [reflexivity | exact IH].
Qed.

Lemma dict_set_absent {A} k (v : A) d :
  dict_lookup k d = None -> dict_set k v d = app d [(k, v)].
Proof.
  induction d as [|[k' v'] d IH]; simpl; [reflexivity|].
  destruct (cps_eqb k k'); [discriminate|]. intro H. rewrite IH by exact H. reflexivity.
Qed.

Lemma dict_lookup_none_in {A} k (m : list (list Z * A)) kv :
  dict_lookup k m = None -> In kv m -> cps_eqb k (fst kv) = false.
Proof.
  induction m as [|[k' v'] m IH]; simpl; [contradiction|].
  destruct (cps_eqb k k') eqn:E; [discriminate|].
  intros H [<-|Hin]; [exact E | exact (IH H Hin)].
Qed.

Lemma cps_eqb_sym a b : cps_eqb a b = cps_eqb b a.
Proof.
  destruct (cps_eqb a b) eqn:E1, (cps_eqb b a) eqn:E2; try reflexivity.
  - apply cps_eqb_eq in E1. subst. rewrite (proj2 (cps_eqb_eq b b) eq_refl) in E2. discriminate E2.
  - apply cps_eqb_eq in E2. subst. rewrite (proj2 (cps_eqb_eq a a) eq_refl) in E1. discriminate E1.
Qed.

Lemma fold_dict_set_distinct {A} (m : list (list Z * A)) : forall acc,
  keys_distinct m = true ->
  (forall kv, In kv m -> dict_lookup (fst kv) acc = None) ->
  fold_left (fun d kv => dict_set (fst kv) (snd kv) d) m acc = app acc m.
Proof.
  induction m as [|[k v] m IH]; intros acc Hd Hacc; simpl; [rewrite app_nil_r; reflexivity|].
  simpl in Hd. apply andb_true_iff in Hd as [Hk Hd]. apply negb_true_iff in Hk.
  unfold dict_mem in Hk. destruct (dict_lookup k m) eqn:Ek; [discriminate|].
  rewrite dict_set_absent by exact (Hacc (k, v) (or_introl eq_refl)).
  rewrite IH; [rewrite <- app_assoc; reflexivity | exact Hd |].
  intros kv Hin. rewrite dict_lookup_app, (Hacc kv (or_intror Hin)). simpl.
  rewrite cps_eqb_sym, (dict_lookup_none_in k m kv Ek Hin). reflexivity.
Qed.

Lemma dict_of_members_distinct {A} (m : list (list Z * A)) :
  keys_distinct m = true -> dict_of_members m = m.
Proof.
  intro Hd. unfold dict_of_members.
  rewrite fold_dict_set_distinct; [reflexivity | exact Hd | intros kv _; reflexivity].
Qed.

Lemma dict_lookup_map {A B} (g : A -> B) k (m : list (list Z * A)) :
  dict_lookup k (map (fun kv => (fst kv, g (snd kv))) m) = option_map g (dict_lookup k m).
Proof.
  induction m as [|[k' v'] m IH]; simpl; [reflexivity|].
  destruct (cps_eqb k k'); [reflexivity | exact IH].
Qed.

Lemma keys_distinct_map {A B} (g : A -> B) (m : list (list Z * A)) :
  keys_distinct (map (fun kv => (fst kv, g (snd kv))) m) = keys_distinct m.
Proof.
  induction m as [|[k v] m IH]; simpl; [reflexivity|].
  unfold dict_mem. rewrite dict_lookup_map, IH.
  destruct (dict_lookup k m); reflexivity.
Qed.

Lemma json_dumps_obj F m : keys_distinct m = true ->
  json_dumps F (JObj m) = "{"%char :: app (join_sep (lit ", ") (map (member_text F) m)) ["}"%char].
Proof.
  intro Hd. cbn [json_dumps]. rewrite dict_of_members_distinct.
  - rewrite map_map. reflexivity.
  - rewrite keys_distinct_map. exact Hd.
Qed.


Lemma lit_comma X : app (lit ", ") X = ","%char :: " "%char :: X.
Proof. reflexivity. Qed.

Lemma skip_ws_app_head c r X : is_ws c = false -> skip_ws (app (c :: r) X) = app (c :: r) X.
Proof. intro H. simpl. rewrite H. reflexivity. Qed.

Lemma join_sep_head F (l : list json) :
  l <> [] -> forallb dumpable l = true ->
  exists c r, join_sep (lit ", ") (map (json_dumps F) l) = c :: r /\ is_ws c = false
              /\ (c =? "]")%char = false.
Proof.
  destruct l as [|v l]; [congruence|]. intros _ Hl. simpl in Hl.
  apply andb_true_iff in Hl as [Hv _].
  destruct (json_dumps_head F v Hv) as [c [r [Hd Hc]]].
  destruct l as [|v' l]; cbn [map join_sep]; rewrite Hd; [eauto|].
  exists c. eexists. split; [reflexivity | exact Hc].
Qed.

Lemma parse_items_dumps F l : forall f acc rest,
  l <> [] ->
  Forall (dumps_reads_back F) l ->
  forallb dumpable l = true ->
  (list_sum (map (fun x => S (jsize x)) l) <= f)%nat ->
  parse_items f (app (join_sep (lit ", ") (map (json_dumps F) l)) ("]"%char :: rest)) acc
  = Some (JArr (app (rev acc) l), rest).
Proof.
  induction l as [|v l IHl]; intros f acc rest Hne HF Hd Hf; [congruence|].
  inversion HF as [|? ? Hv HFl]; subst.
  simpl in Hd. apply andb_true_iff in Hd as [Hdv Hdl].
  cbn [map list_sum fold_right] in Hf.
  destruct f as [|f]; [lia|].
  destruct l as [|v' l].
  - cbn [map join_sep parse_items].
    rewrite Hv by (cbn [list_sum map] in Hf; (assumption || lia || (simpl; auto))).
    simpl; rewrite <- ?app_assoc; reflexivity.
  - change (join_sep (lit ", ") (map (json_dumps F) (v :: v' :: l)))
      with (app (json_dumps F v) (app (lit ", ") (join_sep (lit ", ") (map (json_dumps F) (v' :: l))))).
    destruct (join_sep_head F (v' :: l) ltac:(discriminate) Hdl) as [c [r [Hj [Hc _]]]].
    rewrite Hj, <- !app_assoc, lit_comma. cbn [parse_items].
    rewrite Hv by (assumption || lia || (simpl; auto)).
    rewrite skip_ws_head by reflexivity.
    change (("," =? "]")%char) with false. change (("," =? ",")%char) with true. cbv iota beta.
    rewrite skip_ws_space, skip_ws_app_head by exact Hc.
    rewrite <- Hj.
    rewrite IHl; [| discriminate | exact HFl | exact Hdl | cbn [map list_sum fold_right] in *; lia].
    simpl; rewrite <- ?app_assoc; reflexivity.
Qed.

Lemma lit_colon X : app (lit ": ") X = ":"%char :: " "%char :: X.
Proof. reflexivity. Qed.

Lemma skip_ws_dumps F v X :
  dumpable v = true -> skip_ws (app (json_dumps F v) X) = app (json_dumps F v) X.
Proof.
  intro Hv. destruct (json_dumps_head F v Hv) as [c [r [Hd [Hc _]]]].
  rewrite Hd. apply skip_ws_app_head. exact Hc.
Qed.

Lemma join_members_head F kv m :
  exists r, join_sep (lit ", ") (map (member_text F) (kv :: m)) = dquote :: r.
Proof.
  destruct m as [|kv' m]; cbn [map join_sep]; unfold member_text, dumps_str; eexists; reflexivity.
Qed.

Lemma parse_members_dumps F m : forall f acc rest,
  m <> [] ->
  Forall (fun kv => dumps_reads_back F (snd kv)) m ->
  forallb (fun kv => forallb is_scalar (fst kv) && dumpable (snd kv)) m = true ->
  (list_sum (map (fun kv => S (jsize (snd kv))) m) <= f)%nat ->
  parse_members f (app (join_sep (lit ", ") (map (member_text F) m)) ("}"%char :: rest)) acc
  = Some (JObj (app (rev acc) m), rest).
Proof.
  induction m as [|[k v] m IHm]; intros f acc rest Hne HF Hd Hf; [congruence|].
  inversion HF as [|? ? Hv HFm]; subst. cbn [snd] in Hv.
  simpl in Hd. apply andb_true_iff in Hd as [Hkv Hdm]. apply andb_true_iff in Hkv as [Hk Hdv].
  cbn [map list_sum fold_right snd] in Hf.
  destruct f as [|f]; [lia|].
  assert (Hstep : forall X,
    parse_members (S f) (app (member_text F (k, v)) X) acc =
    match parse_value f (app (json_dumps F v) X) with
    | None => None
    | Some (v', r3) =>
      match skip_ws r3 with
      | c2 :: r4 =>
        if (c2 =? "}")%char then Some (JObj (rev ((k, v') :: acc)), r4)
        else if (c2 =? ",")%char then parse_members f (skip_ws r4) ((k, v') :: acc)
        else None
      | [] => None
      end
    end).
  { intro X. unfold member_text, dumps_str. cbn [fst snd app].
    rewrite <- !app_assoc, lit_colon. cbn [app parse_members].
    rewrite Ascii.eqb_refl.
    rewrite parse_str_escaped; [| exact Hk | rewrite length_app; cbn [List.length]; lia].
    cbn [rev app]. rewrite skip_ws_head by reflexivity.
    change ((":" =? ":")%char) with true. cbv iota beta.
    rewrite skip_ws_space, skip_ws_dumps by exact Hdv. reflexivity. }
  destruct m as [|kv' m].
  - cbn [map join_sep]. rewrite Hstep.
    rewrite Hv by (assumption || lia || (simpl; auto)).
    rewrite skip_ws_head by reflexivity.
    change (("}" =? "}")%char) with true. cbv iota beta.
    simpl; rewrite <- ?app_assoc; reflexivity.
  - change (join_sep (lit ", ") (map (member_text F) ((k, v) :: kv' :: m)))
      with (app (member_text F (k, v))
                (app (lit ", ") (join_sep (lit ", ") (map (member_text F) (kv' :: m))))).
    destruct (join_members_head F kv' m) as [r Hj].
    rewrite Hj, <- !app_assoc, Hstep, lit_comma.
    rewrite Hv by (assumption || lia || (simpl; auto)).
    rewrite skip_ws_head by reflexivity.
    change (("," =? "}")%char) with false. change (("," =? ",")%char) with true. cbv iota beta.
    rewrite skip_ws_space. cbn [app]. rewrite skip_ws_head by reflexivity.
    change (dquote :: app r ("}"%char :: rest)) with (app (dquote :: r) ("}"%char :: rest)).
    rewrite <- Hj.
    rewrite IHm; [| discriminate | exact HFm | exact Hdm | cbn [map list_sum fold_right snd] in *; lia].
    simpl; rewrite <- ?app_assoc; reflexivity.
Qed.

Lemma parse_value_dumps F v : dumps_reads_back F v.
Proof.
  induction v as [ | b | lx | s | l IH | m IH ] using json_ind_deep;
    intros Hv f rest Hf He; (destruct f as [|f]; [cbn [jsize] in Hf; lia|]).
  - reflexivity.
  - destruct b; reflexivity.
  - destruct (dumpable_num lx Hv) as [z [Hz Hlx]].
    cbn [json_dumps]. unfold dumps_num. rewrite Hz, <- Hlx.
    pose proof (parse_number_decimal z rest He) as Hp. rewrite <- Hlx in Hp.
    destruct (Z_decimal_head z) as [c [r [Hcr Hc]]]. rewrite <- Hlx in Hcr.
    rewrite Hcr in Hp |- *. cbn [app] in Hp |- *.
    apply parse_value_number; assumption.
  - apply parse_value_dumps_str. exact Hv.
  - destruct l as [|x l].
    + reflexivity.
    + cbn [json_dumps]. cbn [dumpable] in Hv.
      destruct (join_sep_head F (x :: l) ltac:(discriminate) Hv) as [c [r [Hj [Hc Hnc]]]].
      cbn [app]. rewrite <- app_assoc. cbn [app parse_value].
      change (("[" =? dquote)%char) with false. change (("[" =? "{")%char) with false.
      change (("[" =? "[")%char) with true. cbv iota beta.
      rewrite Hj. cbn [app]. rewrite skip_ws_head by exact Hc.
      rewrite Hnc.
      change (c :: app r ("]"%char :: rest)) with (app (c :: r) ("]"%char :: rest)).
      rewrite <- Hj.
      rewrite parse_items_dumps; [reflexivity | discriminate | exact IH | exact Hv |].
      cbn [jsize] in Hf. lia.
  - cbn [dumpable] in Hv. apply andb_true_iff in Hv as [Hk Hv].
    rewrite json_dumps_obj by exact Hk.
    destruct m as [|kv m].
    + reflexivity.
    + destruct (join_members_head F kv m) as [r Hj].
      cbn [app]. rewrite <- app_assoc. cbn [app parse_value].
      change (("{" =? dquote)%char) with false. change (("{" =? "{")%char) with true. cbv iota beta.
      rewrite Hj. cbn [app]. rewrite skip_ws_head by reflexivity.
      change ((dquote =? "}")%char) with false. cbv iota beta.
      change (dquote :: app r ("}"%char :: rest)) with (app (dquote :: r) ("}"%char :: rest)).
      rewrite <- Hj.
      rewrite parse_members_dumps; [reflexivity | discriminate | exact IH | exact Hv |].
      cbn [jsize] in Hf. lia.
Qed.

Lemma join_sep_length (parts : list (list ascii)) :
  parts <> [] ->
  (List.length (join_sep (lit ", ") parts) + 2
   = list_sum (map (@List.length ascii) parts) + 2 * List.length parts)%nat.
Proof.
  induction parts as [|p parts IH]; [congruence|]. intros _.
  destruct parts as [|p' parts].
  - clear IH. cbn [join_sep map list_sum fold_right List.length]. lia.
  - change (join_sep (lit ", ") (p :: p' :: parts))
      with (app p (app (lit ", ") (join_sep (lit ", ") (p' :: parts)))).
    rewrite !length_app. specialize (IH ltac:(discriminate)).
    cbn [map list_sum fold_right List.length] in *. unfold lit in *. cbn [list_ascii_of_string List.length] in *.
    lia.
Qed.

Lemma list_sum_map_le {A} (f g : A -> nat) (l : list A) :
  Forall (fun x => (f x <= g x)%nat) l -> (list_sum (map f l) <= list_sum (map g l))%nat.
Proof.
  unfold list_sum; induction 1; cbn [map fold_right]; lia.
Qed.

Lemma jsize_le_length F v :
  dumpable v = true -> (jsize v <= List.length (json_dumps F v))%nat.
Proof.
  revert v. apply (json_ind_deep (fun v => dumpable v = true -> (jsize v <= List.length (json_dumps F v))%nat)).
  - intros _. cbn. lia.
  - intros [] _; cbn; lia.
  - intros lx Hv. destruct (json_dumps_head F (JNum lx) Hv) as [c [r [-> _]]].
    cbn [jsize List.length]. lia.
  - intros s _. cbn [jsize json_dumps]. unfold dumps_str. cbn [List.length]. lia.
  - intros l IH Hv. cbn [dumpable] in Hv. cbn [jsize json_dumps List.length].
    rewrite length_app. cbn [List.length].
    destruct l as [|x l]; [cbn; lia|].
    pose proof (join_sep_length (map (json_dumps F) (x :: l)) ltac:(discriminate)) as HL.
    rewrite map_map, length_map in HL.
    assert (Hle : (list_sum (map (fun y => S (jsize y)) (x :: l))
                   <= list_sum (map (fun y => S (List.length (json_dumps F y))) (x :: l)))%nat).
    { apply list_sum_map_le. rewrite Forall_forall in IH |- *. intros y Hy.
      rewrite forallb_forall in Hv. specialize (IH y Hy (Hv y Hy)). lia. }
    assert (Hs : forall l', list_sum (map (fun y => S (List.length (json_dumps F y))) l')
                 = (list_sum (map (fun y => List.length (json_dumps F y)) l') + List.length l')%nat).
    { unfold list_sum; induction l' as [|y l' IHl']; cbn [map fold_right List.length]; lia. }
    rewrite Hs in Hle. cbn [List.length] in *. lia.
  - intros m IH Hv. cbn [dumpable] in Hv. apply andb_true_iff in Hv as [Hk Hv].
    rewrite json_dumps_obj by exact Hk. cbn [jsize List.length].
    rewrite length_app. cbn [List.length].
    destruct m as [|kv m]; [cbn; lia|].
    pose proof (join_sep_length (map (member_text F) (kv :: m)) ltac:(discriminate)) as HL.
    rewrite map_map, length_map in HL.
    assert (Hle : (list_sum (map (fun y => S (jsize (snd y))) (kv :: m))
                   <= list_sum (map (fun y => S (List.length (member_text F y))) (kv :: m)))%nat).
    { apply list_sum_map_le. rewrite Forall_forall in IH |- *. intros y Hy.
      rewrite forallb_forall in Hv. specialize (Hv y Hy). apply andb_true_iff in Hv as [_ Hv].
      specialize (IH y Hy Hv). unfold member_text, dumps_str.
      rewrite !length_app. cbn [List.length]. unfold lit. cbn [list_ascii_of_string List.length]. lia. }
    assert (Hs : forall l', list_sum (map (fun y => S (List.length (member_text F y))) l')
                 = (list_sum (map (fun y => List.length (member_text F y)) l') + List.length l')%nat).
    { unfold list_sum; induction l' as [|y l' IHl']; cbn [map fold_right List.length]; lia. }
    rewrite Hs in Hle. cbn [List.length] in *. lia.
Qed.

(** [json.loads(json.dumps(v)) == v] on the values [dumpable] admits. *)
Lemma json_loads_dumps F v :
  dumpable v = true -> json_loads (string_of_list_ascii (json_dumps F v)) = Some v.
Proof.
  intro Hv. unfold json_loads. rewrite list_ascii_of_string_of_list_ascii.
  destruct (json_dumps_head F v Hv) as [c [r [Hd [Hc _]]]].
  rewrite Hd, skip_ws_head by exact Hc. rewrite <- Hd.
  pose proof (parse_value_dumps F v Hv (2 * List.length (json_dumps F v) + 2)%nat [])
    as Hp.
  rewrite app_nil_r in Hp. rewrite Hp; [reflexivity| |exact I].
  pose proof (jsize_le_length F v Hv). lia.
Qed.

Lemma string_of_cps_code (l : list ascii) : string_of_cps (map code l) = string_of_list_ascii l.
Proof.
  unfold string_of_cps. rewrite map_map. f_equal.
  induction l as [|a l IH]; [reflexivity|]. cbn [map]. rewrite IH. f_equal.
  unfold code. rewrite Nat2Z.id. apply ascii_nat_embedding.
Qed.

Lemma uint_of_chars_uint_chars u : uint_of_chars (uint_chars u) = Some u.
Proof. induction u; cbn [uint_chars uint_of_chars]; try rewrite IHu; reflexivity. Qed.

Lemma int_of_lexeme_Z_decimal z : int_of_lexeme (Z_decimal z) = Some z.
Proof.
  rewrite <- (DecimalZ.of_to z) at 2. unfold Z_decimal.
  destruct z as [|p|p]; [reflexivity| |]; unfold Z.to_int;
    destruct (to_uint_head p) as [d [ds [Hu [_ [_ Hm]]]]].
  - unfold int_of_lexeme. rewrite Hu, Hm, <- Hu, uint_of_chars_uint_chars. reflexivity.
  - unfold int_of_lexeme. cbn -[uint_of_chars uint_chars]. rewrite Hu, <- Hu, uint_of_chars_uint_chars.
    reflexivity.
Qed.

Lemma dict_lookup_set_same {A} k (v : A) d : dict_lookup k (dict_set k v d) = Some v.
Proof.
  induction d as [|[k' v'] d IH]; cbn.
  - rewrite (proj2 (cps_eqb_eq k k) eq_refl). reflexivity.
  - destruct (cps_eqb k k') eqn:E; cbn; rewrite ?E, ?(proj2 (cps_eqb_eq k k) eq_refl); auto.
Qed.

Lemma run_mcp_task_int F sessions sid q c :
  dict_lookup sid sessions = Some q ->
  run_mcp_task F sessions sid (jint c) =
  (app (flat_map (fun i => [TaskSleep ((1 # 10) * inject_Z c); TaskPut q (progress_msg ((Z.of_nat i + 1) * 10))])
                 (seq 0 10)) [TaskPut q completion_msg], false).
Proof.
  intro H. unfold run_mcp_task, step_delay, py_number, jint.
  rewrite H, int_of_lexeme_Z_decimal. reflexivity.
Qed.

(** X1: for a session in the store and an int complexity [c],
    [run_mcp_task] does not raise, puts the ten progress notifications
    10, ..., 100 and then the completion on that session's queue only, and
    sleeps [c] seconds in all. *)
Theorem run_mcp_task_progress_then_completion F sessions sid q c :
  dict_lookup sid sessions = Some q ->
  let r := run_mcp_task F sessions sid (jint c) in
  snd r = false /\
  task_messages (fst r) = app (map (fun k => progress_msg (10 * Z.of_nat k)) (seq 1 10)) [completion_msg] /\
  Forall (fun e => match e with TaskPut q' _ => q' = q | TaskSleep _ => True end) (fst r) /\
  task_slept (fst r) == inject_Z c.
Proof.
  intro H. cbv zeta. rewrite (run_mcp_task_int F sessions sid q c H).
  split; [reflexivity|]. split; [reflexivity|]. split.
  - repeat constructor.
  - cbn. ring.
Qed.

Lemma process_generate_task F sessions price sid c id q :
  sid <> "" -> dict_lookup (cps sid) sessions = Some q ->
  process_json_rpc F sessions price (generate_task_request sid c id)
  = ([SrvSpawn (cps sid) (jint c)],
     Respond id (RpcResult (jobj [("content", JArr [jobj [("type", jstr "text");
                                                        ("text", jstr "Task Started")]])]))).
Proof.
  intros Hne Hl.
  assert (Ht : Nat.eqb (List.length (cps sid)) 0 = false) by (destruct sid; [congruence|reflexivity]).
  unfold generate_task_request, jstr at 2. remember (cps sid) as k eqn:Hk.
  cbv -[dict_mem List.length Nat.eqb jint]. rewrite Ht.
  unfold dict_mem. rewrite Hl. reflexivity.
Qed.

Lemma py_slice_data s : py_slice_from 6 ("data: " ++ s) = s.
Proof. reflexivity. Qed.

Lemma prefix_data s : String.prefix "data: " ("data: " ++ s) = true.
Proof. destruct s; reflexivity. Qed.

Lemma notif_loop_skip fo rq line rest kind sid ts n :
  String.prefix "data: " line = false ->
  notif_loop fo rq (line :: rest) kind sid ts n = notif_loop fo rq rest kind sid ts n.
Proof. intro H. cbn [notif_loop]. rewrite H. reflexivity. Qed.

Lemma notif_loop_session fo rq d rest kind n :
  notif_loop fo rq (("data: " ++ d) :: rest) kind None false n
  = if fo (py_strip d)
    then (if rq (py_strip d) then notif_loop fo rq rest kind (Some (py_strip d)) true n
          else NotifRaised (Some (py_strip d)) n)
    else notif_loop fo rq rest kind None false n.
Proof.
  cbn [notif_loop]. rewrite prefix_data, py_slice_data. reflexivity.
Qed.

(** X2: when the client's SSE connection is the server's session, the
    generate_task request spawns the task, and [run_task_with_notifications]
    reading the generator's lines counts 11 events and returns with the
    session id, whatever follows on the stream. *)
Theorem run_task_with_notifications_counts_eleven F float_ok st sid c price id tail kind :
  sid <> "" -> py_strip sid = sid -> float_ok sid = true ->
  let sessions' := sessions (sse_open (cps sid) st) in
  fst (process_json_rpc F sessions' price (generate_task_request sid c id)) = [SrvSpawn (cps sid) (jint c)] /\
  notif_loop float_ok
    (fun s => answered (snd (process_json_rpc F sessions' price (generate_task_request s c id))))
    (app (connection_lines sid)
       (app (flat_map (message_lines F) (task_messages (fst (run_mcp_task F sessions' (cps sid) (jint c)))))
            tail))
    kind None false 0 = NotifReturned (Some sid) 11.
Proof.
  intros Hne Hs Hf. cbv zeta.
  assert (Hl : dict_lookup (cps sid) (sessions (sse_open (cps sid) st)) = Some (next_queue st))
    by apply dict_lookup_set_same.
  rewrite (process_generate_task F _ price sid c id _ Hne Hl).
  split; [reflexivity|].
  rewrite (run_mcp_task_int F _ (cps sid) _ c Hl).
  unfold connection_lines. cbn [app].
  rewrite notif_loop_skip by reflexivity. rewrite notif_loop_session, Hs, Hf.
  rewrite (process_generate_task F _ price sid c id _ Hne Hl). cbn [answered snd].
  rewrite notif_loop_skip by reflexivity.
  destruct sid as [|a s]; [congruence|].
  vm_compute. reflexivity.
Qed.

Lemma chat_handler_errors F params : error_answer_ok (chat_handler F params).
Proof.
  intros code msg. unfold chat_handler.
  destruct (negb (py_truthy F (py_get "sessionId" params))).
  - cbn. intro H. injection H as <- _. auto.
  - destruct (py_number (py_get_or "turnCount" params (jint 1))) as [[]|];
      destruct (py_len (py_get "message" params)); cbn; discriminate.
Qed.

Lemma calculate_handler_errors F args : error_answer_ok (calculate_handler F args).
Proof.
  intros code msg. unfold calculate_handler.
  destruct args; cbn [snd]; try discriminate.
  match goal with |- context [match ?r with Some _ => _ | None => _ end] => destruct r end;
    cbn; discriminate.
Qed.

Lemma generate_task_handler_errors F sessions args : error_answer_ok (generate_task_handler F sessions args).
Proof.
  intros code msg. unfold generate_task_handler.
  destruct args; cbn [snd]; try discriminate.
  destruct (negb (py_truthy F _)).
  - cbn. intro H. injection H as <- _. auto.
  - destruct (py_get "sessionId" _); cbn [snd fst]; try discriminate;
      try (intro H; injection H as <- _; auto).
    destruct (dict_mem _ _); cbn; [discriminate|]. intro H. injection H as <- _. auto.
Qed.

Lemma workflow_step_handler_errors F args : error_answer_ok (workflow_step_handler F args).
Proof.
  intros code msg. unfold workflow_step_handler.
  destruct args; cbn [snd]; try discriminate.
  destruct (py_eq_int F _ 1); [cbn; discriminate|].
  destruct (py_eq_int F _ 2); [cbn; discriminate|].
  destruct (py_eq_int F _ 3); [cbn; discriminate|].
  cbn. intro H. injection H as <- _. auto.
Qed.

Lemma tools_call_handler_errors F sessions params : error_answer_ok (tools_call_handler F sessions params).
Proof.
  unfold tools_call_handler.
  destruct (py_eq_str _ "calculate"); [apply calculate_handler_errors|].
  destruct (py_eq_str _ "generate_task"); [apply generate_task_handler_errors|].
  destruct (py_eq_str _ "workflow_step"); [apply workflow_step_handler_errors|].
  intros code msg H. cbn in H. injection H as <- _. auto.
Qed.

Lemma resources_read_handler_errors F price params : error_answer_ok (resources_read_handler F price params).
Proof.
  intros code msg. unfold resources_read_handler.
  destruct (py_eq_str _ "file:///logs/system.log"); [cbn; discriminate|].
  destruct (py_eq_str _ "stock://ticker"); [cbn; discriminate|].
  cbn. intro H. injection H as <- _. auto.
Qed.

(** X3: every answer of process_json_rpc carries the request's id; an
    error answer is sent at once (no sleep, no task) with code -32601 or
    -32602. *)
Theorem process_json_rpc_error_answers F sessions price rq :
  match process_json_rpc F sessions price rq with
  | (effs, Respond id body) =>
      id = rq_id rq /\
      forall code msg, body = RpcError code msg -> effs = [] /\ (code = -32601 \/ code = -32602)%Z
  | (_, Crash) => True
  end.
Proof.
  assert (Hans : forall r : list srv_effect * option rpc_body, error_answer_ok r ->
            match (fst r, match snd r with Some b => Respond (rq_id rq) b | None => Crash end) with
            | (effs, Respond id body) =>
                id = rq_id rq /\
                forall code msg, body = RpcError code msg -> effs = [] /\ (code = -32601 \/ code = -32602)%Z
            | (_, Crash) => True
            end).
  { intros [effs [b|]] H; cbn; [|exact I]. split; [reflexivity|].
    intros code msg ->. exact (H code msg eq_refl). }
  unfold process_json_rpc.
  destruct (cps_eqb _ (cps "initialize")); [split; [reflexivity|discriminate]|].
  destruct (cps_eqb _ (cps "tools/list")); [split; [reflexivity|discriminate]|].
  destruct (cps_eqb _ (cps "prompts/chat")); [apply Hans, chat_handler_errors|].
  destruct (cps_eqb _ (cps "tools/call")); [apply Hans, tools_call_handler_errors|].
  destruct (cps_eqb _ (cps "resources/list")); [split; [reflexivity|discriminate]|].
  destruct (cps_eqb _ (cps "resources/read")); [apply Hans, resources_read_handler_errors|].
  destruct (cps_eqb _ (cps "resources/subscribe")); [split; [reflexivity|discriminate]|].
  split; [reflexivity|]. intros code msg H. injection H as <- _. auto.
Qed.

Lemma py_number_jint z : py_number (jint z) = Some (PyInt z).
Proof. unfold py_number, jint. rewrite int_of_lexeme_Z_decimal. reflexivity. Qed.

Lemma py_str_jint F z : py_str F (jint z) = map code (Z_decimal z).
Proof. unfold py_str, jint. rewrite int_of_lexeme_Z_decimal. reflexivity. Qed.

(** X4: prompts/chat with a truthy sessionId, a str message and an int
    turnCount [t] sleeps and answers usage [100*t + len(message)]; without
    turnCount it uses 1. *)
Theorem prompts_chat_usage F sessions price sid m t id :
  py_truthy F sid = true ->
  let answer (u : Z) (tc : json) :=
    ([SrvSleep (inject_Z u * (1 # 10000))],
     Respond id (RpcResult (jobj [("response", JStr (app (cps "Echo: ") (app m (app (cps " (Stateful Context: ")
                                                    (app (py_str F tc) (cps " turns)"))))));
                                  ("usage", jint u)]))) in
  process_json_rpc F sessions price
    (mkRequest (cps "prompts/chat")
       (Some [(cps "sessionId", sid); (cps "message", JStr m); (cps "turnCount", jint t)]) id)
  = answer (t * 100 + Z.of_nat (List.length m))%Z (jint t) /\
  process_json_rpc F sessions price
    (mkRequest (cps "prompts/chat") (Some [(cps "sessionId", sid); (cps "message", JStr m)]) id)
  = answer (100 + Z.of_nat (List.length m))%Z (jint 1).
Proof.
  intro Hs. cbv zeta.
  assert (E1 : py_get "sessionId" [(cps "sessionId", sid); (cps "message", JStr m); (cps "turnCount", jint t)] = sid)
    by reflexivity.
  assert (E2 : py_get "sessionId" [(cps "sessionId", sid); (cps "message", JStr m)] = sid)
    by reflexivity.
  split; unfold process_json_rpc; simpl rq_method; simpl rq_params; simpl;
    unfold chat_handler; rewrite ?E1, ?E2, Hs; simpl; rewrite ?int_of_lexeme_Z_decimal; reflexivity.
Qed.

(** X5: a division by zero is a normal result of the MCP calculate tool,
    whose text carries the error, and a 400 of REST calculate; both sleep
    0.01 s. *)
Theorem calculate_divide_by_zero F sessions price x y id a :
  py_eq_int F y 0 = true ->
  process_json_rpc F sessions price
    (mkRequest (cps "tools/call")
       (Some [(cps "name", jstr "calculate");
              (cps "arguments", jobj [("operation", jstr "divide"); ("a", x); ("b", y)])]) id)
  = ([SrvSleep (1 # 100)],
     Respond id (RpcResult (text_content
       (cps ("{" ++ jq "result" ++ ": " ++ jq "Error: Division by zero" ++ ", "
             ++ jq "operation" ++ ": " ++ jq "divide" ++ "}"))))) /\
  rest_calculate (cps "divide") a 0 = ([1 # 100], HttpError 400 "Division by zero").
Proof.
  intro Hy. split; [|reflexivity].
  unfold process_json_rpc; simpl rq_method; simpl rq_params; simpl.
  unfold tools_call_handler.
  assert (En : py_get "name" [(cps "name", jstr "calculate");
              (cps "arguments", jobj [("operation", jstr "divide"); ("a", x); ("b", y)])] = jstr "calculate")
    by reflexivity.
  assert (Ea : py_get_or "arguments" [(cps "name", jstr "calculate");
              (cps "arguments", jobj [("operation", jstr "divide"); ("a", x); ("b", y)])] (JObj [])
               = JObj [(cps "operation", jstr "divide"); (cps "a", x); (cps "b", y)])
    by reflexivity.
  rewrite En, Ea. simpl py_eq_str. cbv iota beta.
  unfold calculate_handler.
  assert (Eo : py_get "operation" [(cps "operation", jstr "divide"); (cps "a", x); (cps "b", y)] = jstr "divide")
    by reflexivity.
  assert (Eb : py_get_or "b" [(cps "operation", jstr "divide"); (cps "a", x); (cps "b", y)] (jint 0) = y)
    by reflexivity.
  rewrite Eo, Eb, Hy. reflexivity.
Qed.

(** X6: generate_task does not check the complexity: with a live session
    and a complexity that is not a number it answers Task Started and
    spawns [run_mcp_task], which raises before putting anything. *)
Theorem generate_task_unchecked_complexity F sessions price sid q cx id :
  sid <> [] -> dict_lookup sid sessions = Some q -> py_number cx = None ->
  process_json_rpc F sessions price
    (mkRequest (cps "tools/call")
       (Some [(cps "name", jstr "generate_task");
              (cps "arguments", jobj [("complexity", cx); ("sessionId", JStr sid)])]) id)
  = ([SrvSpawn sid cx],
     Respond id (RpcResult (jobj [("content", JArr [jobj [("type", jstr "text");
                                                       ("text", jstr "Task Started")]])]))) /\
  run_mcp_task F sessions sid cx = ([], true).
Proof.
  intros Hne Hl Hc. split.
  - assert (Ht : Nat.eqb (List.length sid) 0 = false) by (destruct sid; [congruence|reflexivity]).
    cbv -[dict_mem List.length Nat.eqb]. rewrite Ht. unfold dict_mem. rewrite Hl. reflexivity.
  - unfold run_mcp_task, step_delay. rewrite Hl, Hc. reflexivity.
Qed.

Lemma dict_lookup_set_other {A} x k (v : A) d :
  cps_eqb x k = false -> dict_lookup x (dict_set k v d) = dict_lookup x d.
Proof.
  intro H. induction d as [|[k' v'] d IH]; cbn.
  - rewrite H. reflexivity.
  - destruct (cps_eqb k k') eqn:E; cbn.
    + apply cps_eqb_eq in E. subst k'. rewrite H. reflexivity.
    + destruct (cps_eqb x k'); [reflexivity|exact IH].
Qed.

Lemma dict_set_keys_distinct {A} k (v : A) d :
  keys_distinct d = true -> keys_distinct (dict_set k v d) = true.
Proof.
  induction d as [|[k' v'] d IH]; cbn; intro H; [reflexivity|].
  apply andb_true_iff in H as [H1 H2].
  destruct (cps_eqb k k') eqn:E; cbn; [rewrite H1, H2; reflexivity|].
  rewrite IH by exact H2. rewrite andb_true_r.
  unfold dict_mem in *. rewrite dict_lookup_set_other by (rewrite cps_eqb_sym; exact E).
  exact H1.
Qed.

Lemma dict_del_first {A} k (d : list (list Z * A)) :
  keys_distinct d = true -> dict_lookup k d <> None ->
  exists d', dict_del k d = Some d' /\ dict_lookup k d' = None /\ keys_distinct d' = true.
Proof.
  induction d as [|[k' v'] d IH]; cbn; intros H Hl; [congruence|].
  apply andb_true_iff in H as [H1 H2].
  destruct (cps_eqb k k') eqn:E.
  - exists d. split; [reflexivity|]. split; [|exact H2].
    apply cps_eqb_eq in E. subst k'. unfold dict_mem in H1.
    destruct (dict_lookup k d); [discriminate|reflexivity].
  - destruct (IH H2 Hl) as [d' [Hd [Hn Hk]]]. rewrite Hd. exists ((k', v') :: d').
    split; [reflexivity|]. cbn. rewrite E. split; [exact Hn|].
    rewrite Hk, andb_true_r.
    (* k' is not in d' since it is not in d *)
    unfold dict_mem in *. destruct (dict_lookup k' d) eqn:E1; [discriminate|].
    assert (Hsub : forall x, dict_lookup x d = None -> dict_lookup x d' = None).
    { clear -Hd. revert d' Hd. induction d as [|[k2 v2] d IHd]; cbn; intros d' Hd x Hx; [discriminate|].
      destruct (cps_eqb k k2) eqn:E2.
      - injection Hd as <-. destruct (cps_eqb x k2); [discriminate|exact Hx].
      - destruct (dict_del k d) as [d''|] eqn:E3; [|discriminate]. injection Hd as <-. cbn.
        destruct (cps_eqb x k2); [discriminate|]. exact (IHd d'' eq_refl x Hx). }
    rewrite (Hsub k' E1). reflexivity.
Qed.

(** X7: two SSE connections given the same session id share one entry:
    the second queue replaces the first, the first [finally] deletes the
    entry and the second then raises KeyError. *)
Theorem sse_same_session_id st sid :
  keys_distinct (sessions st) = true ->
  let st1 := sse_open sid st in
  let st2 := sse_open sid st1 in
  dict_lookup sid (sessions st2) = Some (next_queue st1) /\
  exists st3, sse_close sid st2 = Some st3 /\
              dict_lookup sid (sessions st3) = None /\ sse_close sid st3 = None.
Proof.
  intros Hk. cbv zeta. split; [apply dict_lookup_set_same|].
  assert (Hk2 : keys_distinct (sessions (sse_open sid (sse_open sid st))) = true)
    by (cbn; apply dict_set_keys_distinct, dict_set_keys_distinct, Hk).
  assert (Hl : dict_lookup sid (sessions (sse_open sid (sse_open sid st))) <> None)
    by (cbn [sessions sse_open]; rewrite dict_lookup_set_same; discriminate).
  destruct (dict_del_first sid _ Hk2 Hl) as [d' [Hd [Hn _]]].
  exists (mkMcpState d' (queues (sse_open sid (sse_open sid st))) (next_queue (sse_open sid (sse_open sid st)))).
  unfold sse_close at 1. rewrite Hd. split; [reflexivity|]. cbn [sessions]. split; [exact Hn|].
  unfold sse_close. cbn [sessions].
  destruct (dict_del sid d') eqn:E; [|reflexivity].
  exfalso. clear -E Hn. revert l E. induction d' as [|[k v] d IH]; cbn in *; intros l E; [discriminate|].
  destruct (cps_eqb sid k); [discriminate|].
  destruct (dict_del sid d) eqn:E'; [|discriminate]. exact (IH Hn l0 eq_refl).
Qed.

Lemma response_text_content id t : response_text (Respond id (RpcResult (text_content t))) = Some t.
Proof. reflexivity. Qed.

Lemma process_workflow_step F sessions price k pre secs d id :
  In (k, pre, secs) [(1%Z, "Processed(", 1 # 20); (2%Z, "Analyzed(", 1 # 10); (3%Z, "Summary(", 1 # 5)] ->
  process_json_rpc F sessions price
    (mkRequest (cps "tools/call")
       (Some [(cps "name", jstr "workflow_step");
              (cps "arguments", jobj [("step", jint k); ("input_data", JStr d)])]) id)
  = ([SrvSleep secs],
     Respond id (RpcResult (text_content (map code (json_dumps F
       (jobj [("output", JStr (app (cps pre) (app d (cps ")")))); ("step", jint k)])))))).
Proof.
  intro H.
  assert (En : py_get "name" [(cps "name", jstr "workflow_step");
              (cps "arguments", jobj [("step", jint k); ("input_data", JStr d)])] = jstr "workflow_step")
    by reflexivity.
  assert (Ea : py_get_or "arguments" [(cps "name", jstr "workflow_step");
              (cps "arguments", jobj [("step", jint k); ("input_data", JStr d)])] (JObj [])
               = JObj [(cps "step", jint k); (cps "input_data", JStr d)]) by reflexivity.
  assert (Es : py_get "step" [(cps "step", jint k); (cps "input_data", JStr d)] = jint k) by reflexivity.
  assert (Ed : py_get "input_data" [(cps "step", jint k); (cps "input_data", JStr d)] = JStr d) by reflexivity.
  unfold process_json_rpc; simpl rq_method; simpl rq_params; simpl.
  unfold tools_call_handler. rewrite En, Ea. simpl py_eq_str. cbv iota beta.
  unfold workflow_step_handler. rewrite Es, Ed.
  destruct H as [H|[H|[H|[]]]]; injection H as <- <- <-; reflexivity.
Qed.

Lemma mcp_call_step_workflow F sessions price rid k pre secs d :
  In (k, pre, secs) [(1%Z, "Processed(", 1 # 20); (2%Z, "Analyzed(", 1 # 10); (3%Z, "Summary(", 1 # 5)] ->
  forallb is_scalar d = true ->
  exists b, mcp_call_step F sessions price rid k (JStr d)
            = Some (JStr (app (cps pre) (app d (cps ")"))), b, (rid + 1)%Z).
Proof.
  intros H Hd. unfold mcp_call_step. cbv zeta.
  rewrite (process_workflow_step F sessions price k pre secs d _ H). cbn [snd].
  rewrite response_text_content, string_of_cps_code, json_loads_dumps.
  - eexists. destruct H as [H|[H|[H|[]]]]; injection H as <- <- <-; reflexivity.
  - assert (Hc : forall s, forallb is_scalar (cps s) = true).
    { intro s. unfold cps. rewrite forallb_forall. intros x Hx. apply in_map_iff in Hx as [a [<- _]].
      unfold is_scalar, code. pose proof (nat_ascii_bounded a). apply andb_true_iff. split.
      - apply andb_true_iff. split; apply Z.leb_le; lia.
      - apply negb_true_iff, andb_false_iff. left. apply Z.leb_gt. lia. }
    assert (Hj : forall z, dumpable (jint z) = true).
    { intro z. unfold dumpable, jint. rewrite int_of_lexeme_Z_decimal. apply cps_eqb_eq. reflexivity. }
    cbn [jobj map fst snd dumpable keys_distinct forallb].
    rewrite Hj, !forallb_app, Hd, !Hc. destruct H as [H|[H|[H|[]]]]; injection H as <- <- <-; reflexivity.
Qed.

(** X8: the three-step workflow gives the same result string over MCP
    and over REST, with three request ids; REST sends
    [3*len(input) + 332] bytes. *)
Theorem chain_workflow_same_result F sessions price rid d :
  forallb is_scalar d = true ->
  (exists b, mcp_chain_workflow_result F sessions price rid d
             = Some (JStr (fst (rest_chain_workflow_result d)), b, (rid + 3)%Z)) /\
  fst (rest_chain_workflow_result d)
    = app (cps "Summary(") (app (cps "Analyzed(") (app (cps "Processed(") (app d (cps ")))")))) /\
  snd (rest_chain_workflow_result d) = (3 * Z.of_nat (List.length d) + 332)%Z.
Proof.
  intro Hd.
  assert (Hc : forall s, forallb is_scalar (cps s) = true).
  { intro s. unfold cps. rewrite forallb_forall. intros x Hx. apply in_map_iff in Hx as [a [<- _]].
    unfold is_scalar, code. pose proof (nat_ascii_bounded a). apply andb_true_iff. split.
    - apply andb_true_iff. split; apply Z.leb_le; lia.
    - apply negb_true_iff, andb_false_iff. left. apply Z.leb_gt. lia. }
  split; [|split].
  - unfold mcp_chain_workflow_result.
    destruct (mcp_call_step_workflow F sessions price rid 1 "Processed(" (1 # 20) d) as [b1 E1];
      [left; reflexivity|exact Hd|]. rewrite E1.
    destruct (mcp_call_step_workflow F sessions price (rid + 1) 2 "Analyzed(" (1 # 10)
                (app (cps "Processed(") (app d (cps ")")))) as [b2 E2];
      [right; left; reflexivity|rewrite !forallb_app, Hd, !Hc; reflexivity|]. rewrite E2.
    destruct (mcp_call_step_workflow F sessions price (rid + 1 + 1) 3 "Summary(" (1 # 5)
                (app (cps "Analyzed(") (app (app (cps "Processed(") (app d (cps ")"))) (cps ")"))))
      as [b3 E3];
      [right; right; left; reflexivity|rewrite !forallb_app, Hd, !Hc; reflexivity|]. rewrite E3.
    exists (b1 + b2 + b3)%Z. replace (rid + 3)%Z with (rid + 1 + 1 + 1)%Z by lia. reflexivity.
  - unfold rest_chain_workflow_result, rest_step1, rest_step2, rest_step3. cbn [fst snd].
    rewrite <- !app_assoc. reflexivity.
  - unfold rest_chain_workflow_result, rest_step1, rest_step2, rest_step3. cbn [fst snd].
    rewrite !length_app. unfold cps. rewrite !length_map. cbn [list_ascii_of_string List.length]. lia.
Qed.

Lemma background_steps_progress task_id n : forall i tasks,
  (i + n <= 10)%nat -> dict_lookup task_id tasks = Some (task_after i) ->
  exists tasks', background_steps task_id i n tasks = Some tasks' /\
                 dict_lookup task_id tasks' = Some (task_after (i + n)).
Proof.
  induction n as [|n IH]; intros i tasks Hi Hl.
  - exists tasks. rewrite Nat.add_0_r. split; [reflexivity|exact Hl].
  - cbn [background_steps]. unfold background_update. rewrite Hl.
    assert (Hi10 : Nat.eqb i 10 = false) by (apply Nat.eqb_neq; lia).
    assert (Ht : (if Nat.eqb i 9
                  then mkTask (cps "completed")
                         (t_progress (mkTask (t_status (task_after i)) ((Z.of_nat i + 1) * 10)
                                             (t_result (task_after i))))
                         (Some (cps "Task Completed Successfully"))
                  else mkTask (t_status (task_after i)) ((Z.of_nat i + 1) * 10) (t_result (task_after i)))
                 = task_after (S i)).
    { unfold task_after. rewrite Hi10. cbn [t_status t_progress t_result].
      destruct (Nat.eqb i 9) eqn:E9.
      - apply Nat.eqb_eq in E9. subst i. reflexivity.
      - assert (Nat.eqb (S i) 10 = false) by (apply Nat.eqb_neq; apply Nat.eqb_neq in E9; lia).
        rewrite H. f_equal. lia. }
    rewrite Ht.
    destruct (IH (S i) (dict_set task_id (task_after (S i)) tasks)) as [t' [E1 E2]];
      [lia|apply dict_lookup_set_same|].
    exists t'. split; [exact E1|]. rewrite E2. f_equal. f_equal. lia.
Qed.

(** X9: after generate_task and [k <= 10] iterations of
    run_background_task, get_task_status shows [task_after k], which is
    completed exactly when [k = 10]. *)
Theorem rest_task_status_after_updates task_id tasks k :
  (k <= 10)%nat ->
  exists tasks', background_steps task_id 0 k (rest_generate_task task_id tasks) = Some tasks' /\
    rest_get_task_status task_id tasks' = HttpOk (task_after k) /\
    (t_status (task_after k) = cps "completed" <-> k = 10%nat).
Proof.
  intro Hk.
  destruct (background_steps_progress task_id k 0 (rest_generate_task task_id tasks)) as [t' [E1 E2]];
    [lia|apply dict_lookup_set_same|].
  exists t'. split; [exact E1|]. split.
  - unfold rest_get_task_status. rewrite E2. reflexivity.
  - unfold task_after. destruct (Nat.eqb k 10) eqn:E.
    + apply Nat.eqb_eq in E. tauto.
    + apply Nat.eqb_neq in E. cbn [t_status]. split; [discriminate|intro; contradiction].
Qed.

Lemma rest_chat_chars history m :
  rest_chat history m =
  match history_chars history with
  | None => ([], HttpError 500 "Internal Server Error")
  | Some s =>
    let context_length := (s + Z.of_nat (List.length m))%Z in
    ([inject_Z context_length * (1 # 10000)],
     HttpOk (app (cps "Echo: ") (app m (app (cps " (Context: ")
               (app (map code (Z_decimal (Z.of_nat (List.length history)))) (cps " msgs)")))),
             context_length))
  end.
Proof. reflexivity. Qed.

Lemma history_chars_app h1 h2 s1 s2 :
  history_chars h1 = Some s1 -> history_chars h2 = Some s2 -> history_chars (app h1 h2) = Some (s1 + s2)%Z.
Proof.
  unfold history_chars. intros H1 H2. rewrite fold_right_app, H2. clear H2.
  revert s1 H1. induction h1 as [|m h1 IH]; cbn [fold_right]; intros s1 H1.
  - injection H1 as <-. reflexivity.
  - destruct (dict_lookup (cps "content") m) as [c|]; [|discriminate].
    destruct (fold_right _ (Some 0%Z) h1) as [s1'|] eqn:E; [|discriminate].
    rewrite (IH s1' eq_refl). injection H1 as <-. f_equal. lia.
Qed.

Lemma rest_chat_session_usage msgs : forall history s,
  history_chars history = Some s ->
  exists us, rest_chat_session history msgs = Some us /\
    List.length us = List.length msgs /\
    (forall m0 rest, msgs = m0 :: rest -> nth 0 us 0%Z = (s + Z.of_nat (List.length m0))%Z) /\
    (forall k, (S k < List.length msgs)%nat ->
       nth (S k) us 0%Z = (nth k us 0%Z + Z.of_nat (List.length (nth k msgs []))
                           + 23 + Z.of_nat (List.length (Z_decimal (Z.of_nat (List.length history + 2 * k))))
                           + Z.of_nat (List.length (nth (S k) msgs [])))%Z).
Proof.
  induction msgs as [|m msgs IH]; intros history s Hs.
  - exists []. split; [reflexivity|]. split; [reflexivity|]. split; [discriminate|].
    intros k Hk. cbn in Hk. lia.
  - cbn [rest_chat_session]. rewrite rest_chat_chars, Hs. cbn [snd].
    set (resp := app (cps "Echo: ") (app m (app (cps " (Context: ")
               (app (map code (Z_decimal (Z.of_nat (List.length history)))) (cps " msgs)"))))).
    set (h' := app history [[(cps "role", cps "user"); (cps "content", m)];
                            [(cps "role", cps "assistant"); (cps "content", resp)]]).
    assert (Hh : history_chars h' = Some (s + (Z.of_nat (List.length m) + (Z.of_nat (List.length resp) + 0)))%Z).
    { apply history_chars_app; [exact Hs|reflexivity]. }
    destruct (IH h' _ Hh) as [us [E [Hlen [H0 HS]]]].
    rewrite E. cbn [option_map]. exists ((s + Z.of_nat (List.length m))%Z :: us).
    assert (Hr : Z.of_nat (List.length resp)
                 = (Z.of_nat (List.length m) + 23
                    + Z.of_nat (List.length (Z_decimal (Z.of_nat (List.length history)))))%Z).
    { unfold resp. rewrite !length_app. unfold cps. rewrite !length_map. cbn [list_ascii_of_string List.length]. lia. }
    assert (Hh' : List.length h' = (List.length history + 2)%nat)
      by (unfold h'; rewrite length_app; reflexivity).
    split; [reflexivity|]. split; [cbn; rewrite Hlen; reflexivity|]. split.
    + intros m0 rest Heq. injection Heq as <- _. reflexivity.
    + intros [|k] Hk.
      * destruct msgs as [|m1 msgs]; [cbn in Hk; lia|].
        cbn [nth]. rewrite (H0 m1 msgs eq_refl), Hr. rewrite Nat.mul_0_r, Nat.add_0_r. lia.
      * cbn [nth]. cbn [List.length] in Hk. rewrite (HS k ltac:(lia)), Hh'.
        replace (List.length history + 2 + 2 * k)%nat with (List.length history + 2 * S k)%nat by lia.
        reflexivity.
Qed.

(** X10: in the REST multi-turn chat every turn succeeds, and the usage
    of turn [k+1] is that of turn [k] plus the length of the turn-[k]
    response plus the new message. *)
Theorem rest_chat_usage_growth msgs :
  exists us, rest_chat_session [] msgs = Some us /\
    List.length us = List.length msgs /\
    (forall m0 rest, msgs = m0 :: rest -> nth 0 us 0%Z = Z.of_nat (List.length m0)) /\
    (forall k, (S k < List.length msgs)%nat ->
       nth (S k) us 0%Z = (nth k us 0%Z + Z.of_nat (List.length (nth k msgs []))
                           + 23 + Z.of_nat (List.length (Z_decimal (Z.of_nat (2 * k))))
                           + Z.of_nat (List.length (nth (S k) msgs [])))%Z).
Proof.
  destruct (rest_chat_session_usage msgs [] 0%Z eq_refl) as [us [E [H1 [H2 H3]]]].
  exists us. split; [exact E|]. split; [exact H1|]. split; [exact H2|]. exact H3.
Qed.

Lemma rest_echo_attempt sim w :
  Qltb 0 (packet_loss_rate sim) = true -> up w RestServer = true ->
  exists tr, rest_echo_async sim w =
    (if Qltb (rng w (drawn w)) (packet_loss_rate sim) then Exc SimulatedPacketLoss else Ok tt,
     mkWorld (rng w) (S (drawn w)) (up w) tr).
Proof.
  intros Hp Hu. destruct w as [r d u t]. destruct sim as [lat p bw]. cbn [rng drawn up packet_loss_rate] in *.
  unfold rest_echo_async, simulate_network, bind, random, ret, raise, sleep, emit, post.
  repeat (cbn; rewrite ?Hu; try discriminate;
          match goal with |- context [Qltb ?a ?b] => destruct (Qltb a b) end);
  cbn; rewrite ?Hu; try discriminate; eexists; reflexivity.
Qed.


Lemma attempts_rest_echo n sim s w :
  Qltb 0 (packet_loss_rate sim) = true -> up w RestServer = true ->
  exists tr, attempts n (rest_echo_async sim) s w =
    (Ok (s + List.length (filter (fun i => negb (Qltb (rng w i) (packet_loss_rate sim)))
                              (seq (drawn w) n)))%nat,
     mkWorld (rng w) (drawn w + n) (up w) tr).
Proof.
  revert s w. induction n as [|n IH]; intros s w Hp Hu.
  - destruct w as [r d u t]; exists t. cbn. unfold ret. rewrite Nat.add_0_r, Nat.add_0_r. reflexivity.
  - destruct (rest_echo_attempt sim w Hp Hu) as [tr E].
    cbn [attempts]. unfold bind at 1, try_except. unfold bind at 1. rewrite E.
    destruct (Qltb (rng w (drawn w)) (packet_loss_rate sim)) eqn:L.
    + destruct (IH s (mkWorld (rng w) (S (drawn w)) (up w) tr) Hp Hu) as [tr' E'].
      exists tr'. cbn [ret]. rewrite E'. cbn [rng drawn up seq filter].
      rewrite L. cbn [negb].
      replace (drawn w + S n)%nat with (S (drawn w) + n)%nat by lia. reflexivity.
    + destruct (IH (S s) (mkWorld (rng w) (S (drawn w)) (up w) tr) Hp Hu) as [tr' E'].
      exists tr'. cbn [ret]. rewrite E'. cbn [rng drawn up seq filter].
      rewrite L. cbn [negb List.length].
      replace (drawn w + S n)%nat with (S (drawn w) + n)%nat by lia.
      rewrite Nat.add_succ_r. reflexivity.
Qed.

Lemma attempts_never_raise n call s w :
  exists s' w', attempts n call s w = (Ok s', w') /\ (s <= s' <= s + n)%nat.
Proof.
  revert s w. induction n as [|n IH]; intros s w.
  - exists s, w. split; [reflexivity|lia].
  - cbn [attempts]. unfold bind at 1, try_except. unfold bind at 1.
    destruct (call w) as [[[]|e] w1].
    + destruct (IH (S s) w1) as (s' & w' & E & B). exists s', w'.
      split; [exact E|lia].
    + destruct (IH s w1) as (s' & w' & E & B). exists s', w'.
      split; [exact E|lia].
Qed.

(** The ratio a bench reports for [s] successes out of 20. *)
Lemma instability_rate_bounds (s : nat) :
  (s <= 20)%nat -> 0 <= inject_Z (Z.of_nat s) / 20 * 100 <= 100.
Proof.
  intros H. assert (H0 : 0 <= inject_Z (Z.of_nat s) <= 20).
  { split.
    - change 0 with (inject_Z 0). rewrite <- Zle_Qle. lia.
    - change 20 with (inject_Z 20). rewrite <- Zle_Qle. lia. }
  split.
  - apply Qmult_le_0_compat; [|discriminate].
    apply Qle_shift_div_l; [reflexivity|]. rewrite Qmult_0_l. apply H0.
  - apply Qle_trans with (20 / 20 * 100); [|discriminate].
    apply Qmult_le_compat_r; [|discriminate].
    apply Qmult_le_compat_r; [apply H0|discriminate].
Qed.

(** X11: bench_network_instability never raises, whatever the loss rate
    and the state of the servers: it returns one REST and one MCP record
    whose success rates lie in [0, 100].  With the REST server up and a
    positive loss rate, the REST success rate is the share of the 20
    values drawn by the REST attempts (one each) that are not below the
    rate. *)
Theorem bench_network_instability_rates lat p w :
  (exists s1 s2 w',
     bench_network_instability lat p w =
       (Ok [mkRecord "REST" "Network Instability" (Some (inject_Z (Z.of_nat s1) / 20 * 100));
            mkRecord "MCP" "Network Instability" (Some (inject_Z (Z.of_nat s2) / 20 * 100))], w')
     /\ 0 <= inject_Z (Z.of_nat s1) / 20 * 100 <= 100
     /\ 0 <= inject_Z (Z.of_nat s2) / 20 * 100 <= 100)
  /\ (Qltb 0 p = true -> up w RestServer = true ->
      exists s2 w',
        bench_network_instability lat p w =
          (Ok [mkRecord "REST" "Network Instability"
                 (Some (inject_Z (Z.of_nat (List.length
                    (filter (fun i => negb (Qltb (rng w i) p)) (seq (drawn w) 20)))) / 20 * 100));
               mkRecord "MCP" "Network Instability" (Some (inject_Z (Z.of_nat s2) / 20 * 100))], w')).
Proof.
  split.
  - unfold bench_network_instability, print, emit. unfold bind at 1.
    set (w1 := mkWorld (rng w) (drawn w) (up w) (trace w ++ [Print "Benchmarking: Network Instability"])).
    destruct (attempts_never_raise 20 (rest_echo_async (set_conditions lat p 0)) 0 w1)
      as (s1 & w2 & E1 & B1).
    unfold bind at 1. rewrite E1.
    destruct (attempts_never_raise 20 (mcp_chat_turn (set_conditions lat p 0)) 0 w2)
      as (s2 & w' & E2 & B2).
    unfold bind at 1. rewrite E2. exists s1, s2, w'.
    split; [reflexivity|]. split; apply instability_rate_bounds; lia.
  - intros Hp Hu.
    unfold bench_network_instability, print, emit. unfold bind at 1.
    set (w1 := mkWorld (rng w) (drawn w) (up w) (trace w ++ [Print "Benchmarking: Network Instability"])).
    destruct (attempts_rest_echo 20 (set_conditions lat p 0) 0 w1 Hp Hu) as [tr E].
    unfold bind at 1. rewrite E.
    destruct (attempts_never_raise 20 (mcp_chat_turn (set_conditions lat p 0)) 0
                (mkWorld (rng w1) (drawn w1 + 20) (up w1) tr)) as (s2 & w' & E2 & B2).
    unfold bind at 1. rewrite E2. exists s2, w'. reflexivity.
Qed.


Lemma subscribe_loop_within loads start uri ls tend kind acc :
  forallb (fun tl => negb (Qltb 5 (fst tl - start))) ls = true ->
  subscribe_loop loads start uri ls tend kind acc =
    match kind with
    | Closed => SubReturned (app acc (subscribe_updates loads uri ls)) tend
    | ReadTimedOut | Failed => SubRaised tend
    end.
Proof.
  revert acc. induction ls as [|[t line] rest IH]; intros acc H.
  - cbn. rewrite app_nil_r. reflexivity.
  - cbn [forallb fst] in H. apply andb_prop in H as [H1 H2].
    apply negb_true_iff in H1.
    cbn [subscribe_loop]. rewrite H1. unfold subscribe_updates. cbn [flat_map snd fst].
    fold (subscribe_updates loads uri rest).
    destruct (String.prefix "data: " line);
      [destruct (loads (py_strip (py_slice_from 6 line))) as [msg|];
       [destruct (resource_update uri msg) as [delta|]|]|];
      rewrite IH by exact H2; destruct kind; try reflexivity;
      cbn [app]; rewrite <- app_assoc; reflexivity.
Qed.

(** X13: when every line of the stream arrives within the 5 s window of
    [subscribe_to_resource], the listening part reads the whole stream and
    collects the updates for [uri] of the decodable data lines, in order;
    a stream that closes gives them back, while a read timeout or a
    transport error propagates, as no [except] surrounds the stream. *)
Theorem subscribe_listen_within_window loads uri start st :
  forallb (fun tl => negb (Qltb 5 (fst tl - start))) (arrivals st) = true ->
  subscribe_listen loads uri start st =
    match end_kind st with
    | Closed => SubReturned (subscribe_updates loads uri (arrivals st)) (end_time st)
    | ReadTimedOut | Failed => SubRaised (end_time st)
    end.
Proof.
  intros H. unfold subscribe_listen. rewrite subscribe_loop_within by exact H.
  reflexivity.
Qed.



Lemma history_chars_missing history h :
  In h history -> dict_lookup (cps "content") h = None -> history_chars history = None.
Proof.
  induction history as [|h' rest IH]; intros Hin Hl; [destruct Hin|].
  unfold history_chars. cbn [fold_right]. fold (history_chars rest).
  destruct Hin as [<-|Hin].
  - rewrite Hl. reflexivity.
  - rewrite (IH Hin Hl). destruct (dict_lookup (cps "content") h'); reflexivity.
Qed.

(** X15: one message of the history without a [content] key, wherever it
    stands, makes [chat] fail with a 500 before it sleeps: the KeyError
    of [m["content"]] escapes the handler. *)
Theorem rest_chat_missing_content history m h :
  In h history -> dict_lookup (cps "content") h = None ->
  rest_chat history m = ([], HttpError 500 "Internal Server Error").
Proof.
  intros Hin Hl. rewrite rest_chat_chars, (history_chars_missing history h Hin Hl).
  reflexivity.
Qed.

(** X16: the SSE framing round trip: the lines the event generator yields
    for a sequence of messages [json.dumps] writes back as they are (no
    float, decimal ints, scalar strings, distinct keys), read by the
    client's [data: ] parsing and [json.loads], give back exactly those
    messages, in order, whatever the arrival times. *)
Theorem sse_framing_round_trip F ms ls :
  forallb dumpable ms = true ->
  map snd ls = flat_map (message_lines F) ms ->
  parsed_events json_loads ls = ms.
Proof.
  revert ls. induction ms as [|m ms IH]; intros ls Hd Hl.
  - destruct ls; [reflexivity|discriminate].
  - cbn [forallb] in Hd. apply andb_prop in Hd as [Hm Hd].
    destruct ls as [|[t1 l1] [|[t2 l2] ls]]; try discriminate.
    cbn [map flat_map snd message_lines app] in Hl.
    injection Hl as E1 E2 E3. subst l1 l2.
    unfold parsed_events. cbn [flat_map snd]. fold (parsed_events json_loads ls).
    unfold data_payload.
    set (d := string_of_list_ascii (json_dumps F m)).
    change (String "d" (String "a" (String "t" (String "a" (String ":" (String " " d))))))
      with ("data: " ++ d).
    rewrite prefix_data, py_slice_data. unfold d. rewrite json_loads_dumps by exact Hm.
    cbn [String.prefix app]. rewrite (IH ls Hd E3). reflexivity.
Qed.

Lemma run_mcp_task_progress_then_completion_witness :
  dict_lookup (cps "s1") [(cps "s1", 0%nat)] = Some 0%nat /\
  snd (run_mcp_task demo_ops [(cps "s1", 0%nat)] (cps "s1") (jint 3)) = false /\
  task_slept (fst (run_mcp_task demo_ops [(cps "s1", 0%nat)] (cps "s1") (jint 3))) == inject_Z 3.
Proof.
  assert (H : dict_lookup (cps "s1") [(cps "s1", 0%nat)] = Some 0%nat) by reflexivity.
  destruct (run_mcp_task_progress_then_completion demo_ops [(cps "s1", 0%nat)] (cps "s1") 0%nat 3 H)
    as (H1 & _ & _ & H4).
  split; [exact H|split; [exact H1|exact H4]].
Defined.

Lemma run_task_with_notifications_counts_eleven_witness :
  "1760000000.25" <> "" /\ py_strip "1760000000.25" = "1760000000.25" /\
  (fun _ : string => true) "1760000000.25" = true /\
  notif_loop (fun _ => true)
    (fun s => answered (snd (process_json_rpc demo_ops
       (sessions (sse_open (cps "1760000000.25") (mkMcpState [] (fun _ => []) 0)))
       (list_ascii_of_string "100.5") (generate_task_request s 5 (jint 7)))))
    (app (connection_lines "1760000000.25")
       (app (flat_map (message_lines demo_ops)
              (task_messages (fst (run_mcp_task demo_ops
                 (sessions (sse_open (cps "1760000000.25") (mkMcpState [] (fun _ => []) 0)))
                 (cps "1760000000.25") (jint 5)))))
            []))
    Closed None false 0 = NotifReturned (Some "1760000000.25") 11.
Proof.
  assert (H1 : "1760000000.25" <> "") by discriminate.
  assert (H2 : py_strip "1760000000.25" = "1760000000.25") by (vm_compute; reflexivity).
  assert (H3 : (fun _ : string => true) "1760000000.25" = true) by reflexivity.
  split; [exact H1|split; [exact H2|split; [exact H3|]]].
  apply (run_task_with_notifications_counts_eleven demo_ops (fun _ => true)
           (mkMcpState [] (fun _ => []) 0) "1760000000.25" 5 (list_ascii_of_string "100.5")
           (jint 7) [] Closed H1 H2 H3).
Defined.

Lemma prompts_chat_usage_witness :
  py_truthy demo_ops (jstr "s1") = true /\
  fst (process_json_rpc demo_ops [] (list_ascii_of_string "100.5")
         (mkRequest (cps "prompts/chat")
            (Some [(cps "sessionId", jstr "s1"); (cps "message", JStr (cps "hi"));
                   (cps "turnCount", jint 2)]) (jint 1)))
  = [SrvSleep (inject_Z 202 * (1 # 10000))].
Proof.
  assert (H : py_truthy demo_ops (jstr "s1") = true) by reflexivity.
  split; [exact H|].
  destruct (prompts_chat_usage demo_ops [] (list_ascii_of_string "100.5") (jstr "s1")
              (cps "hi") 2 (jint 1) H) as [E _].
  rewrite E. reflexivity.
Defined.

Lemma calculate_divide_by_zero_witness :
  py_eq_int demo_ops (jint 0) 0 = true /\
  rest_calculate (cps "divide") 6 0 = ([1 # 100], HttpError 400 "Division by zero").
Proof.
  assert (H : py_eq_int demo_ops (jint 0) 0 = true) by reflexivity.
  split; [exact H|].
  exact (proj2 (calculate_divide_by_zero demo_ops [] (list_ascii_of_string "100.5")
                  (jint 6) (jint 0) (jint 1) 6 H)).
Defined.

Lemma generate_task_unchecked_complexity_witness :
  cps "s1" <> [] /\ dict_lookup (cps "s1") [(cps "s1", 0%nat)] = Some 0%nat /\
  py_number (jstr "high") = None /\
  run_mcp_task demo_ops [(cps "s1", 0%nat)] (cps "s1") (jstr "high") = ([], true).
Proof.
  assert (H1 : cps "s1" <> []) by discriminate.
  assert (H2 : dict_lookup (cps "s1") [(cps "s1", 0%nat)] = Some 0%nat) by reflexivity.
  assert (H3 : py_number (jstr "high") = None) by reflexivity.
  split; [exact H1|split; [exact H2|split; [exact H3|]]].
  exact (proj2 (generate_task_unchecked_complexity demo_ops [(cps "s1", 0%nat)]
                  (list_ascii_of_string "100.5") (cps "s1") 0%nat (jstr "high") (jint 1) H1 H2 H3)).
Defined.

Lemma sse_same_session_id_witness :
  keys_distinct (sessions (mkMcpState [] (fun _ => []) 0)) = true /\
  dict_lookup (cps "s1") (sessions (sse_open (cps "s1") (sse_open (cps "s1") (mkMcpState [] (fun _ => []) 0))))
    = Some 1%nat.
Proof.
  assert (H : keys_distinct (sessions (mkMcpState [] (fun _ => []) 0)) = true) by reflexivity.
  split; [exact H|].
  exact (proj1 (sse_same_session_id (mkMcpState [] (fun _ => []) 0) (cps "s1") H)).
Defined.

Lemma chain_workflow_same_result_witness :
  forallb is_scalar (cps "hello") = true /\
  snd (rest_chain_workflow_result (cps "hello")) = 347%Z.
Proof.
  assert (H : forallb is_scalar (cps "hello") = true) by reflexivity.
  split; [exact H|].
  exact (proj2 (proj2 (chain_workflow_same_result demo_ops [] (list_ascii_of_string "100.5") 0 (cps "hello") H))).
Defined.

Lemma rest_task_status_after_updates_witness :
  (3 <= 10)%nat /\
  exists tasks', background_steps (cps "t1") 0 3 (rest_generate_task (cps "t1") []) = Some tasks' /\
    rest_get_task_status (cps "t1") tasks' = HttpOk (mkTask (cps "pending") 30 None).
Proof.
  assert (H : (3 <= 10)%nat) by lia.
  split; [exact H|].
  destruct (rest_task_status_after_updates (cps "t1") [] 3 H) as (tasks' & E1 & E2 & _).
  exists tasks'. split; [exact E1|exact E2].
Defined.

Lemma bench_network_instability_rates_witness :
  Qltb 0 (1 # 10) = true /\ up demo_world RestServer = true /\
  exists s2 w', bench_network_instability 50 (1 # 10) demo_world =
    (Ok [mkRecord "REST" "Network Instability" (Some (inject_Z 20 / 20 * 100));
         mkRecord "MCP" "Network Instability" (Some (inject_Z (Z.of_nat s2) / 20 * 100))], w').
Proof.
  assert (H1 : Qltb 0 (1 # 10) = true) by reflexivity.
  assert (H2 : up demo_world RestServer = true) by reflexivity.
  split; [exact H1|split; [exact H2|]].
  exact (proj2 (bench_network_instability_rates 50 (1 # 10) demo_world) H1 H2).
Defined.


Lemma subscribe_listen_within_window_witness :
  forallb (fun tl => negb (Qltb 5 (fst tl - 0))) [(1, "data: {}")] = true /\
  subscribe_listen json_loads (cps "stock://AAPL") 0 (mkStream [(1, "data: {}")] 3 ReadTimedOut)
    = SubRaised 3.
Proof.
  assert (H : forallb (fun tl => negb (Qltb 5 (fst tl - 0))) [(1, "data: {}")] = true) by reflexivity.
  split; [exact H|].
  exact (subscribe_listen_within_window json_loads (cps "stock://AAPL") 0
           (mkStream [(1, "data: {}")] 3 ReadTimedOut) H).
Defined.

Lemma rest_chat_missing_content_witness :
  In [(cps "role", cps "user")] [[(cps "role", cps "user"); (cps "content", cps "hi")];
                                 [(cps "role", cps "user")]] /\
  dict_lookup (cps "content") [(cps "role", cps "user")] = None /\
  rest_chat [[(cps "role", cps "user"); (cps "content", cps "hi")]; [(cps "role", cps "user")]]
    (cps "again") = ([], HttpError 500 "Internal Server Error").
Proof.
  assert (H1 : In [(cps "role", cps "user")] [[(cps "role", cps "user"); (cps "content", cps "hi")];
                                             [(cps "role", cps "user")]]) by (right; left; reflexivity).
  assert (H2 : dict_lookup (cps "content") [(cps "role", cps "user")] = None) by reflexivity.
  split; [exact H1|split; [exact H2|]].
  exact (rest_chat_missing_content _ (cps "again") _ H1 H2).
Defined.

Lemma sse_framing_round_trip_witness :
  forallb dumpable [progress_msg 10; completion_msg] = true /\
  map snd (map (fun l => (0, l)) (flat_map (message_lines demo_ops) [progress_msg 10; completion_msg]))
    = flat_map (message_lines demo_ops) [progress_msg 10; completion_msg] /\
  parsed_events json_loads (map (fun l => (0, l)) (flat_map (message_lines demo_ops) [progress_msg 10; completion_msg]))
    = [progress_msg 10; completion_msg].
Proof.
  assert (H1 : forallb dumpable [progress_msg 10; completion_msg] = true) by (vm_compute; reflexivity).
  assert (H2 : map snd (map (fun l => (0, l)) (flat_map (message_lines demo_ops) [progress_msg 10; completion_msg]))
    = flat_map (message_lines demo_ops) [progress_msg 10; completion_msg])
    by (rewrite map_map; apply map_id).
  split; [exact H1|split; [exact H2|]].
  exact (sse_framing_round_trip demo_ops _ _ H1 H2).
Defined.
